(** * UKIS sat2h5: packing georeferenced rasters into an array store and
      tiling that store.

    Shallow embedding of [ukis_sat2h5/conversion.py] and
    [ukis_sat2h5/tiling.py].

    Conventions of the embedding.
    - Python integers are [Z]; [//] is [Z.div] (both floor).
    - Pixel arrays are nested lists in C order: an image is
      [bands][rows][cols].
    - Floating point values (geotransform terms, band statistics) are
      idealised as exact rationals [Q]; equalities between computed
      floats are therefore stated with [==].
    - Exceptions are values of [exn]; a computation that can raise
      returns a [result].
    - numpy, dask, h5py, rasterio and pathlib are not part of the
      repository.  The few operations of theirs that the code calls are
      written out next to their callers, following their documented
      behaviour, on the inputs this program gives them:
      a block of a dask array holds at least one item, an array
      written to a raster file has the size of the file, a float that
      is cast to int16 fits 32 bits, and [glob.glob], [Path.glob] and
      [PurePath.match] are one matching relation, as they are on names
      that do not start with a dot. *)

From Stdlib Require Import String Ascii.
From Stdlib Require Import ZArith QArith List Bool Arith Lia.
From Stdlib Require Import DecimalString.
From Stdlib Require DecimalPos DecimalZ.
Import ListNotations.

Open Scope Z_scope.

(* ===================================================================== *)
(** ** Exceptions and the error monad                                     *)
(* ===================================================================== *)

Inductive exn : Type :=
| AssertionError (msg : string)
| ValueError (msg : string)
| TypeError (msg : string)
| IndexError (msg : string)
| KeyError (key : string)
| RasterioIOError (file : string)
| ZeroDivisionError.

Inductive result (A : Type) : Type :=
| Ok (a : A)
| Raise (e : exn).

Arguments Ok {A} a.
Arguments Raise {A} e.

Definition bind {A B} (m : result A) (k : A -> result B) : result B :=
  match m with
  | Ok a => k a
  | Raise e => Raise e
  end.

Notation "x <- m ;; k" := (bind m (fun x => k))
  (at level 61, m at next level, right associativity).

(** Python [assert cond, msg]. *)
Definition assert (cond : bool) (msg : string) : result unit :=
  if cond then Ok tt else Raise (AssertionError msg).

(** A list comprehension whose body can raise: elements are evaluated
    left to right and the first exception aborts the whole list. *)
Fixpoint mapM {A B} (f : A -> result B) (l : list A) : result (list B) :=
  match l with
  | [] => Ok []
  | x :: tl => y <- f x ;; ys <- mapM f tl ;; Ok (y :: ys)
  end.

Definition is_ok {A} (r : result A) : bool :=
  match r with Ok _ => true | Raise _ => false end.

(* ===================================================================== *)
(** ** Python built-ins                                                   *)
(* ===================================================================== *)

(** [len(range(start, stop, step))] for a non-zero step. *)
Definition range_len (start stop step : Z) : Z :=
  if 0 <? step then
    if start <? stop then (stop - start - 1) / step + 1 else 0
  else
    if stop <? start then (start - stop - 1) / (- step) + 1 else 0.

(** The elements of [range(start, stop, step)], step non-zero. *)
Definition range_elems (start stop step : Z) : list Z :=
  map (fun k => start + Z.of_nat k * step)
      (seq 0 (Z.to_nat (range_len start stop step))).

(** [range(start, stop, step)]; a zero step is a [ValueError]. *)
Definition py_range (start stop step : Z) : result (list Z) :=
  if step =? 0 then Raise (ValueError "range() arg 3 must not be zero")
  else Ok (range_elems start stop step).

(** [max] of a sequence of integers; empty sequences raise. *)
Definition py_max (l : list Z) : result Z :=
  match l with
  | [] => Raise (ValueError "max() arg is an empty sequence")
  | x :: tl => Ok (fold_left Z.max tl x)
  end.

(** [str(n)] and [f"{i:0{w}}"] for integers. *)
Definition str (n : Z) : string := NilZero.string_of_int (Z.to_int n).

Fixpoint zeros (n : nat) : string :=
  match n with
  | O => EmptyString
  | S k => String "0" (zeros k)
  end.

Definition format_0w (i : Z) (w : nat) : string :=
  if i <? 0 then
    let digits := str (- i) in
    String "-" (zeros (w - 1 - String.length digits) ++ digits)
  else
    let digits := str i in
    (zeros (w - String.length digits) ++ digits)%string.

(* ===================================================================== *)
(** ** rasterio: affine transforms                                        *)
(* ===================================================================== *)

Module rio.

(** [rio.Affine(a, b, c, d, e, f)]: x = a*col + b*row + c and
    y = d*col + e*row + f. *)
Record Affine : Type := mkAffine
  { a : Q; b : Q; c : Q; d : Q; e : Q; f : Q }.

(** [Affine.from_gdal(c, a, b, f, d, e)]; called as
    [from_gdal( *affine)], so any other number of arguments is a
    [TypeError]. *)
Definition from_gdal (g : list Q) : result Affine :=
  match g with
  | [c; a; b; f; d; e] => Ok (mkAffine a b c d e f)
  | _ => Raise (TypeError "from_gdal() takes 6 positional arguments")
  end.

(** [Affine.to_gdal()]. *)
Definition to_gdal (t : Affine) : list Q :=
  [c t; a t; b t; f t; d t; e t].

(** [transform * (vx, vy)]. *)
Definition mul_point (t : Affine) (vx vy : Q) : Q * Q :=
  ((vx * a t + vy * b t + c t)%Q, (vx * d t + vy * e t + f t)%Q).

(** [AffineTransformer(transform).xy(row, col, offset="ul")]: the
    geographic position of the upper-left corner of pixel (row, col). *)
Definition xy_ul (t : Affine) (row col : Z) : Q * Q :=
  mul_point t (inject_Z col) (inject_Z row).

End rio.

(* ===================================================================== *)
(** ** tiling.py: geotransforms of the tiles                              *)
(* ===================================================================== *)

(** Python slices [affine[1:3]] and [affine[-2:]]. *)
Definition slice_1_3 {A} (l : list A) : list A := firstn 2 (skipn 1 l).
Definition slice_last2 {A} (l : list A) : list A :=
  skipn (length l - 2) l.

Definition _affine_from_rowcol (affine : list Q) (row col : Z)
  : result (list Q) :=
  t <- rio.from_gdal affine ;;
  let '(x, y) := rio.xy_ul t row col in
  Ok ([x] ++ slice_1_3 affine ++ [y] ++ slice_last2 affine).

Definition _tile_one_affine (affine : list Q)
           (target_size tile_size overlap : Z) : result (list (list Q)) :=
  rows <- py_range 0 (target_size - tile_size + 1) overlap ;;
  per_row <- mapM (fun row =>
                     cols <- py_range 0 (target_size - tile_size + 1) overlap ;;
                     mapM (fun col => _affine_from_rowcol affine row col) cols)
                  rows ;;
  Ok (concat per_row).

(** The tile origins in the order the two nested loops visit them. *)
Definition tile_origins (target_size tile_size overlap : Z) : list (Z * Z) :=
  list_prod (range_elems 0 (target_size - tile_size + 1) overlap)
            (range_elems 0 (target_size - tile_size + 1) overlap).

(** The geotransform expected of the tile at (row, col): the parent's
    with the origin moved to that pixel. *)
Definition is_tile_affine (a0 a1 a2 a3 a4 a5 : Q) (origin : Z * Z)
           (t : list Q) : Prop :=
  let '(row, col) := origin in
  exists x y : Q,
    t = [x; a1; a2; y; a4; a5] /\
    (x == a0 + inject_Z col * a1 + inject_Z row * a2)%Q /\
    (y == a3 + inject_Z col * a4 + inject_Z row * a5)%Q.

(* ===================================================================== *)
(** ** numpy arrays as nested lists                                       *)
(* ===================================================================== *)

(** One band: [rows][cols]. *)
Abbreviation plane := (list (list Z)).
(** One item: [bands][rows][cols]. *)
Abbreviation image := (list (list (list Z))).

(** [arr.shape[-3]], [arr.shape[-2]], [arr.shape[-1]] of a block
    [items][bands][rows][cols], read off the first item, band and row
    (rasters have at least one band, row and column, and
    [tile_img_h5] chunks its arrays one item per block; a nested list
    without items keeps no shape). *)
Definition plane_h (p : plane) : nat := length p.
Definition plane_w (p : plane) : nat :=
  match p with [] => O | r :: _ => length r end.
Definition image_c (im : image) : nat := length im.
Definition image_h (im : image) : nat :=
  match im with [] => O | p :: _ => plane_h p end.
Definition image_w (im : image) : nat :=
  match im with [] => O | p :: _ => plane_w p end.
Definition block_c (arr : list image) : nat :=
  match arr with [] => O | im :: _ => image_c im end.
Definition block_h (arr : list image) : nat :=
  match arr with [] => O | im :: _ => image_h im end.
Definition block_w (arr : list image) : nat :=
  match arr with [] => O | im :: _ => image_w im end.

(** Pixel access [im[b, y, x]]. *)
Definition px (im : image) (b y x : nat) : Z :=
  nth x (nth y (nth b im []) []) 0.

(** An array of shape (c, h, w): every band has h rows of w values. *)
Definition plane_shape (h w : nat) (p : plane) : Prop :=
  length p = h /\ Forall (fun r => length r = w) p.
Definition image_shape (c h w : nat) (im : image) : Prop :=
  length im = c /\ Forall (plane_shape h w) im.

(** [np.pad(p, ((0, pad_h), (0, pad_w)), mode="constant",
    constant_values=0)] on one band of width [w]: zeros are appended to
    the right of every row and below the last row. *)
Definition pad_plane (w : nat) (pad_h pad_w : nat) (p : plane) : plane :=
  map (fun r => r ++ repeat 0 pad_w) p
  ++ repeat (repeat 0 (w + pad_w)%nat) pad_h.

(** [np.pad(arr, ((0,0), (0,0), (0,pad_h), (0,pad_w)), ...)] on a block;
    numpy refuses negative pad widths. *)
Definition np_pad (arr : list image) (pad_h pad_w : Z)
  : result (list image) :=
  if (pad_h <? 0) || (pad_w <? 0) then
    Raise (ValueError "index can't contain negative values")
  else
    Ok (map (map (pad_plane (block_w arr)
                            (Z.to_nat pad_h) (Z.to_nat pad_w))) arr).

(** The window of [size] rows and columns whose upper-left pixel is
    (r, c), over all bands. *)
Definition window (size : nat) (im : image) (r c : nat) : image :=
  map (fun p => map (fun row => firstn size (skipn c row))
                    (firstn size (skipn r p))) im.

(** [np.lib.stride_tricks.sliding_window_view(padded,
    window_shape=(c, tile_size, tile_size), axis=(1, 2, 3))]: for an
    input of shape (n, c, H, W) the result has shape
    (n, 1, H - ts + 1, W - ts + 1, c, ts, ts); the entry at
    [k, 0, r, q] is the window of item k at (r, q). *)
Definition sliding_window_view (padded : list image) (tile_size : Z)
  : result (list (list (list (list image)))) :=
  if tile_size <? 0 then
    Raise (ValueError "`window_shape` cannot contain negative values")
  else if (Z.of_nat (block_h padded) <? tile_size)
          || (Z.of_nat (block_w padded) <? tile_size) then
    Raise (ValueError "window shape cannot be larger than input array shape")
  else
    let ts := Z.to_nat tile_size in
    let n_r := (block_h padded - ts + 1)%nat in
    let n_q := (block_w padded - ts + 1)%nat in
    Ok (map (fun im =>
               [ map (fun r => map (fun q => window ts im r q) (seq 0 n_q))
                     (seq 0 n_r) ])
            padded).

(** Basic slicing [l[::step]] for a non-zero step: indices
    0, step, 2*step, ... for a positive step, and
    len-1, len-1+step, ... down to 0 for a negative one. *)
Definition slice_step {A} (step : Z) (l : list A) : list A :=
  let n := Z.of_nat (length l) in
  let idx := if 0 <? step then range_elems 0 n step
             else range_elems (n - 1) (-1) step in
  flat_map (fun i => match nth_error l (Z.to_nat i) with
                     | Some x => [x]
                     | None => []
                     end) idx.

(** [strided[:, :, ::overlap, ::overlap]]. *)
Definition slice_overlap (overlap : Z)
           (strided : list (list (list (list image))))
  : result (list (list (list (list image)))) :=
  if overlap =? 0 then Raise (ValueError "slice step cannot be zero")
  else
    Ok (map (map (fun rows => map (slice_step overlap)
                                  (slice_step overlap rows)))
            strided).

(** [x.reshape(-1, c, tile_size, tile_size)] on an array of shape
    (n, 1, n_r, n_q, c, ts, ts): the leading four axes are flattened in
    C order.  The unknown dimension cannot be inferred when the fixed
    part has no element. *)
Definition reshape_tiles (c : nat) (tile_size : Z)
           (x : list (list (list (list image)))) : result (list image) :=
  if (Z.of_nat c * tile_size * tile_size =? 0) then
    Raise (ValueError "cannot reshape array")
  else
    Ok (concat (map (fun per_item => concat (concat per_item)) x)).

(* ===================================================================== *)
(** ** tiling.py: tiling one block                                        *)
(* ===================================================================== *)

Definition _tile_array (arr : list image) (tile_size overlap pad_size : Z)
  : result (list image) :=
  (* pad image/label to target_size *)
  let h := block_h arr in
  let w := block_w arr in
  let c := block_c arr in
  let pad_h := pad_size - Z.of_nat h in
  let pad_w := pad_size - Z.of_nat w in
  padded <- np_pad arr pad_h pad_w ;;
  (* use strides for creating windows *)
  strided <- sliding_window_view padded tile_size ;;
  (* slice by with distance of overlap *)
  sliced <- slice_overlap overlap strided ;;
  reshape_tiles c tile_size sliced.

(** [n_side] of the specification; [n_tiles] of [tile_img_h5] is its
    square. *)
Definition n_side (target_size tile_size overlap : Z) : Z :=
  (target_size - tile_size) / overlap + 1.

(** The zero-padded [size]-by-[size] canvas of an item of shape
    (c, h, w), as [_tile_array] builds it. *)
Definition canvas (size : nat) (h w : nat) (item : image) : image :=
  map (pad_plane w (size - h) (size - w)) item.

(* ===================================================================== *)
(** ** h5py: datasets and files                                           *)
(* ===================================================================== *)

(** The arrays an HDF5 file of this program holds, by element type and
    number of axes. *)
Inductive dataset : Type :=
| Int4 (a : list image)          (* integers, e.g. [N, C, H, W] *)
| Int3 (a : list plane)          (* integers, e.g. [N, H, W]    *)
| Int1 (a : list Z)              (* integers, [N]               *)
| Str1 (a : list string)         (* strings, [N]                *)
| Float2 (a : list (list Q))     (* floats, e.g. [N, 6]         *)
| Float1 (a : list Q).           (* floats, [C]                 *)

(** [dataset.shape]; trailing axes are read off the first entries. *)
Definition shape (d : dataset) : list nat :=
  match d with
  | Int4 a => [length a; block_c a; block_h a; block_w a]
  | Int3 a => [length a; image_h a; image_w a]
  | Int1 a => [length a]
  | Str1 a => [length a]
  | Float2 a => [length a; match a with [] => O | r :: _ => length r end]
  | Float1 a => [length a]
  end.

(** [dataset.shape[0]]. *)
Definition rows (d : dataset) : nat := hd O (shape d).

(** An HDF5 file: its datasets by absolute name, in creation order. *)
Definition h5file : Type := list (string * dataset).

(** ["img"] and ["/img"] name the same dataset of the root group. *)
Definition abs_name (name : string) : string :=
  match name with
  | String "/" _ => name
  | _ => String "/" name
  end.

Fixpoint h5_lookup (f : h5file) (name : string) : option dataset :=
  match f with
  | [] => None
  | (k, d) :: tl => if String.eqb k name then Some d else h5_lookup tl name
  end.

(** [f[name]]. *)
Definition h5_get (f : h5file) (name : string) : result dataset :=
  match h5_lookup f (abs_name name) with
  | Some d => Ok d
  | None => Raise (KeyError name)
  end.

(** The names and shapes of the datasets of a file. *)
Definition schema (f : h5file) : list (string * list nat) :=
  map (fun e => (fst e, shape (snd e))) f.

(** What a run leaves behind. *)
Inductive outcome : Type :=
| Completed (f : h5file)   (* returned normally; the destination holds f *)
| Aborted (e : exn)        (* raised before the destination was opened:
                              nothing was written *)
| Interrupted (e : exn).   (* raised while writing: the destination is
                              left incomplete *)

(** What C8 asks of a run: an exception, raised before the destination
    was touched. *)
Definition rejected_before_writing (run : outcome) : Prop :=
  exists e, run = Aborted e.

(* ===================================================================== *)
(** ** numpy casts                                                        *)
(* ===================================================================== *)

(** [astype("int16")] on integers keeps the low 16 bits, read as a
    two's-complement number. *)
Definition astype_int16 (v : Z) : Z := (v + 32768) mod 65536 - 32768.

(** [astype("uint16")] on integers keeps the low 16 bits. *)
Definition astype_uint16 (v : Z) : Z := v mod 65536.

(** Float to integer conversion drops the fractional part (rounds
    toward zero). *)
Definition trunc (q : Q) : Z := Z.quot (Qnum q) (Zpos (Qden q)).

(** [astype("int16")] on floats: truncation, then the low 16 bits, for
    a value that fits 32 bits (the means and standard deviations of
    16-bit data do); beyond that the conversion is left to the
    platform. *)
Definition float_astype_int16 (q : Q) : Z := astype_int16 (trunc q).

Definition image_astype (cast : Z -> Z) (im : image) : image :=
  map (map (map cast)) im.

(* ===================================================================== *)
(** ** dask: lazy arrays chunked along the first axis                     *)
(* ===================================================================== *)

(** The declared length of the first axis and, per chunk, the deferred
    computation of its block.  Building such an array computes nothing;
    the blocks run when the array is stored. *)
Record dask_array : Type := mk_dask
  { shape0 : Z;
    blocks : list (result (list image)) }.

(** [da.map_blocks(_tile_array, x, tile_size, overlap, target_size,
    chunks=(n_tiles, c, tile_size, tile_size))] on an array [x] chunked
    one item per block: every output chunk is declared [n_tiles] long. *)
Definition map_blocks_tile_array (x : list image)
           (tile_size overlap target_size n_tiles : Z) : dask_array :=
  {| shape0 := Z.of_nat (length x) * n_tiles;
     blocks := map (fun item =>
                      _tile_array [item] tile_size overlap target_size) x |}.

(** [da.store(x, dset)]: each block is computed and assigned to its
    region of the dataset, [chunk_len] rows long; a block of another
    length does not fit its region. *)
Definition da_store (x : dask_array) (chunk_len : Z)
  : result (list image) :=
  written <- mapM (fun blk =>
                     tiles <- blk ;;
                     if Z.of_nat (length tiles) =? chunk_len then Ok tiles
                     else Raise (TypeError "Can't broadcast block to region"))
                  (blocks x) ;;
  Ok (concat written).

(* ===================================================================== *)
(** ** tiling.py: metadata of the tiles                                   *)
(* ===================================================================== *)

Definition _tile_affines (affine : list (list Q))
           (target_size tile_size overlap : Z) (img_tiled : dask_array)
  : result (list (list Q)) :=
  per_item <- mapM (fun a => _tile_one_affine a target_size tile_size overlap)
                   affine ;;
  let affine_tiled := concat per_item in
  _ <- assert (shape0 img_tiled =? Z.of_nat (length affine_tiled))
              "img_tiled.shape[0] != affine_tiled.shape[0]" ;;
  Ok affine_tiled.

Definition _tile_epsgs (epsg : list Z) (n_tiles : Z) (img_tiled : dask_array)
  : result (list Z) :=
  if n_tiles <? 0 then
    Raise (ValueError "repeats may not contain negative values")
  else
    let epsg_tiled := flat_map (fun e => repeat e (Z.to_nat n_tiles)) epsg in
    _ <- assert (shape0 img_tiled =? Z.of_nat (length epsg_tiled))
                "img_tiled.shape[0] != epsg_tiled.shape[0]" ;;
    Ok epsg_tiled.

Definition _tile_paths (path : list string) (n_tiles : Z)
           (img_tiled : dask_array) : result (list string) :=
  longest <- py_max (map (fun p => Z.of_nat (String.length p)) path) ;;
  (* max_path_chrs = longest + len(str(n_tiles)) + 1 only sizes the
     string type; every generated name fits. *)
  let digits := String.length (str n_tiles) in
  let path_tiled :=
    flat_map (fun p => map (fun i => (p ++ "_" ++ format_0w i digits)%string)
                           (range_elems 0 n_tiles 1))
             path in
  _ <- assert (shape0 img_tiled =? Z.of_nat (length path_tiled))
              "img_tiled.shape[0] != path_tiled.shape[0]" ;;
  Ok path_tiled.

(* ===================================================================== *)
(** ** tiling.py: [tile_img_h5]                                           *)
(* ===================================================================== *)

(** [da.from_array(f[name], chunks=...)]: the chunk tuple fixes the
    number of axes of the dataset. *)
Definition read_int4 (f : h5file) (name : string) : result (list image) :=
  d <- h5_get f name ;;
  match d with
  | Int4 a => Ok a
  | _ => Raise (ValueError "chunks do not match the number of axes")
  end.

Definition read_int3 (f : h5file) (name : string) : result (list plane) :=
  d <- h5_get f name ;;
  match d with
  | Int3 a => Ok a
  | _ => Raise (ValueError "chunks do not match the number of axes")
  end.

Definition read_int1 (f : h5file) (name : string) : result (list Z) :=
  d <- h5_get f name ;;
  match d with
  | Int1 a => Ok a
  | _ => Raise (TypeError "not a vector of integers")
  end.

Definition read_str1 (f : h5file) (name : string) : result (list string) :=
  d <- h5_get f name ;;
  match d with
  | Str1 a => Ok a
  | _ => Raise (TypeError "not a vector of strings")
  end.

Definition read_float2 (f : h5file) (name : string)
  : result (list (list Q)) :=
  d <- h5_get f name ;;
  match d with
  | Float2 a => Ok a
  | _ => Raise (TypeError "not a matrix of floats")
  end.

(** [da.from_array(f[name]).astype("int16")] on a vector of band
    statistics. *)
Definition read_stat_int16 (f : h5file) (name : string) : result (list Z) :=
  d <- h5_get f name ;;
  match d with
  | Float1 a => Ok (map float_astype_int16 a)
  | Int1 a => Ok (map astype_int16 a)
  | _ => Raise (TypeError "not a vector of numbers")
  end.

(** Everything [tile_img_h5] has built when it opens the destination. *)
Record tiled : Type := mk_tiled
  { n_tiles : Z;
    img_tiled : dask_array;
    lbl_tiled : dask_array;
    img_means : list Z;
    img_stds : list Z;
    path_tiled : list string;
    epsg_tiled : list Z;
    affine_tiled : list (list Q) }.

(** Lines 39-74: read the source, declare the lazy tiled arrays, derive
    the per-tile metadata and check the row counts. *)
Definition tile_img_h5_prepare (src : h5file)
           (tile_size overlap target_size : Z) : result tiled :=
  (* get items from original file *)
  img <- read_int4 src "img" ;;
  let img := map (image_astype astype_int16) img in
  lbl <- read_int3 src "lbl" ;;
  let lbl := map (map (map astype_int16)) lbl in
  let lbl := map (fun p => [p]) lbl in          (* np.expand_dims(lbl, axis=1) *)
  img_means <- read_stat_int16 src "img_means" ;;
  img_stds <- read_stat_int16 src "img_stds" ;;
  path <- read_str1 src "path" ;;
  epsg <- read_int1 src "epsg" ;;
  affine <- read_float2 src "affine" ;;
  n_tiles <- (if overlap =? 0 then Raise ZeroDivisionError
              else Ok (((target_size - tile_size) / overlap + 1) ^ 2)) ;;
  let img_tiled :=
    map_blocks_tile_array img tile_size overlap target_size n_tiles in
  let lbl_tiled :=
    map_blocks_tile_array lbl tile_size overlap target_size n_tiles in
  (* include the corresponding file paths *)
  path_tiled <- _tile_paths path n_tiles img_tiled ;;
  epsg_tiled <- _tile_epsgs epsg n_tiles img_tiled ;;
  affine_tiled <- _tile_affines affine target_size tile_size overlap img_tiled ;;
  Ok (mk_tiled n_tiles img_tiled lbl_tiled img_means img_stds
               path_tiled epsg_tiled affine_tiled).

(** [dst.create_dataset(name, shape=x.shape,
    chunks=(chunk_size, *x.shape[1:]), ...)] with the default
    [chunk_size] of 1, which [__main__] never overrides.  Only the
    first axis of the chunk can differ from the dataset's; h5py refuses
    a chunk that is longer than the dataset, so a dataset without rows
    is not created. *)
Definition create_dataset (x : dask_array) : result unit :=
  if shape0 x <? 1 then
    Raise (ValueError
             "Chunk shape must not be greater than data shape in any dimension.")
  else Ok tt.

(** Lines 79-115: create the destination, create each of the two big
    datasets and store its tiled array block by block, then add the
    five small datasets. *)
Definition tile_img_h5_persist (t : tiled) : result h5file :=
  _ <- create_dataset (img_tiled t) ;;
  img_rows <- da_store (img_tiled t) (n_tiles t) ;;
  _ <- create_dataset (lbl_tiled t) ;;
  lbl_rows <- da_store (lbl_tiled t) (n_tiles t) ;;
  Ok [ ("/img", Int4 img_rows);
       ("/lbl", Int4 lbl_rows);
       ("/img_means", Int1 (img_means t));
       ("/img_stds", Int1 (img_stds t));
       ("/path", Str1 (path_tiled t));
       ("/epsg", Int1 (epsg_tiled t));
       ("/affine", Float2 (affine_tiled t)) ]%string.

(** [tile_img_h5(src_file, dst_file, tile_size, overlap, target_size)]
    on a destination that does not exist yet, with the default
    [chunk_size]. *)
Definition tile_img_h5 (src : h5file) (tile_size overlap target_size : Z)
  : outcome :=
  match tile_img_h5_prepare src tile_size overlap target_size with
  | Raise e => Aborted e
  | Ok t =>
      match tile_img_h5_persist t with
      | Raise e => Interrupted e
      | Ok f => Completed f
      end
  end.

(* ===================================================================== *)
(** ** pathlib and rasterio: files                                        *)
(* ===================================================================== *)

(** A file path: the directory it lies in and its name. *)
Record Path : Type := mk_path
  { parent : string;
    name : string }.

Definition path_eqb (p q : Path) : bool :=
  String.eqb (parent p) (parent q) && String.eqb (name p) (name q).

(** [name.rfind(".")], scanning from index [i]. *)
Fixpoint rfind_dot (s : string) (i : nat) (last : option nat) : option nat :=
  match s with
  | EmptyString => last
  | String ch rest =>
      rfind_dot rest (S i) (if Ascii.eqb ch "." then Some i else last)
  end.

(** [path.stem]: the name without its last suffix. *)
Definition stem (p : Path) : string :=
  match rfind_dot (name p) 0 None with
  | Some i =>
      if (0 <? i)%nat && (i <? String.length (name p) - 1)%nat
      then substring 0 i (name p)
      else name p
  | None => name p
  end.

(** A georeferenced raster file.  [pixels] is what [read()] returns,
    [bands][rows][cols]; the values are integers. *)
Record Raster : Type := mk_raster
  { width : Z;
    height : Z;
    epsg_code : Z;
    transform : rio.Affine;
    pixels : image }.

(** [src.count]. *)
Definition count (r : Raster) : Z := Z.of_nat (length (pixels r)).

(** The files below the source folder, in directory-listing order. *)
Definition filesystem : Type := list (Path * Raster).

Fixpoint fs_lookup (fs : filesystem) (p : Path) : option Raster :=
  match fs with
  | [] => None
  | (q, r) :: tl => if path_eqb q p then Some r else fs_lookup tl p
  end.

(** [rio.open(path, "r")]. *)
Definition rio_open (fs : filesystem) (p : Path) : result Raster :=
  match fs_lookup fs p with
  | Some r => Ok r
  | None => Raise (RasterioIOError (name p))
  end.

(** [src.read(i)]: band [i], counted from 1. *)
Definition read_band (r : Raster) (i : Z) : result plane :=
  if (1 <=? i) && (i <=? count r) then
    Ok (nth (Z.to_nat (i - 1)) (pixels r) [])
  else Raise (IndexError "band index out of range").

(** [src.read(indexes)] for a list of band indexes. *)
Definition read_bands (r : Raster) (indexes : list Z) : result image :=
  mapM (read_band r) indexes.

(** [da.pad(arr, ((0, pad_h), (0, pad_w)), mode="constant",
    constant_values=0)] on one band. *)
Definition da_pad2 (arr : plane) (pad_h pad_w : Z) : result plane :=
  if (pad_h <? 0) || (pad_w <? 0) then
    Raise (ValueError "pad width cannot be negative")
  else
    Ok (pad_plane (plane_w arr) (Z.to_nat pad_h) (Z.to_nat pad_w) arr).

(** [da.pad(arr, ((0, 0), (0, pad_h), (0, pad_w)), ...)] on all bands. *)
Definition da_pad3 (arr : image) (pad_h pad_w : Z) : result image :=
  if (pad_h <? 0) || (pad_w <? 0) then
    Raise (ValueError "pad width cannot be negative")
  else
    Ok (map (pad_plane (image_w arr) (Z.to_nat pad_h) (Z.to_nat pad_w)) arr).

(** A raster file holds at least one band, row and column, and its
    pixel array has the dimensions its header states. *)
Definition raster_wf (r : Raster) : Prop :=
  0 < width r /\ 0 < height r /\ (0 < length (pixels r))%nat /\
  image_shape (length (pixels r)) (Z.to_nat (height r)) (Z.to_nat (width r))
              (pixels r).

(** The metadata tuple of a raster. *)
Definition metadata_of (r : Raster) : Z * Z * Z * list Q * Z :=
  (width r, height r, epsg_code r, rio.to_gdal (transform r), count r).

(* ===================================================================== *)
(** ** conversion.py: loading one item                                    *)
(* ===================================================================== *)

Definition _derive_metadata (fs : filesystem) (image_path : Path)
  : result (Z * Z * Z * list Q * Z) :=
  src <- rio_open fs image_path ;;
  Ok (width src, height src, epsg_code src,
      rio.to_gdal (transform src), count src).

Definition _load_img (fs : filesystem) (image_file : Path)
           (max_width max_height : Z) (bands : list Z) : result image :=
  src_img <- rio_open fs image_file ;;
  let pad_height_img := max_height - height src_img in
  let pad_width_img := max_width - width src_img in
  data <- read_bands src_img bands ;;
  da_pad3 data pad_height_img pad_width_img.

Definition _load_lbl (fs : filesystem) (image_file : Path)
           (max_width max_height : Z) : result plane :=
  src_lbl <- rio_open fs (mk_path (parent image_file) "label.tif") ;;
  let pad_height_lbl := max_height - height src_lbl in
  let pad_width_lbl := max_width - width src_lbl in
  data <- read_band src_lbl 1 ;;
  da_pad2 data pad_height_lbl pad_width_lbl.

(* ===================================================================== *)
(** ** conversion.py: band statistics                                     *)
(* ===================================================================== *)

(** All values of band [b] across items, rows and columns: the elements
    reduced by [axis=(0, 2, 3)]. *)
Definition band_values (arr : list image) (b : nat) : list Z :=
  flat_map (fun im => concat (nth b im [])) arr.

Definition sumZ (l : list Z) : Z := fold_right Z.add 0 l.
Definition sumQ (l : list Q) : Q := fold_right Qplus (0#1)%Q l.

(** [np.mean] and the variance under [np.std], in exact arithmetic. *)
Definition np_mean (l : list Z) : Q :=
  (inject_Z (sumZ l) / inject_Z (Z.of_nat (length l)))%Q.

Definition np_var (l : list Z) : Q :=
  let m := np_mean l in
  (sumQ (map (fun v => (inject_Z v - m) * (inject_Z v - m)) l)
   / inject_Z (Z.of_nat (length l)))%Q.

(* ===================================================================== *)
(** ** conversion.py: [convert_img_to_h5]                                 *)
(* ===================================================================== *)

(** [len(set(bands)) == 1]. *)
Definition one_distinct (bands : list Z) : bool :=
  (length (nodup Z.eq_dec bands) =? 1)%nat.

(** Lines 74-83: the band selection.  [if image_bands:] is false for
    [None] and for the empty list. *)
Definition check_number_bands (image_bands : option (list Z))
           (bands : list Z) : result (list Z) :=
  match image_bands with
  | Some (b :: bs) =>
      _ <- assert (one_distinct bands)
                  "Number of bands differ across images." ;;
      have <- py_max bands ;;
      (* check if image_bands fits number of bands *)
      want <- py_max (b :: bs) ;;
      _ <- assert (want <=? have)
                  "image_bands uses band indices higher than number of bands" ;;
      Ok (b :: bs)
  | _ =>
      have <- py_max bands ;;
      Ok (range_elems 1 (have + 1) 1)
  end.

(** Everything [convert_img_to_h5] knows when it starts writing. *)
Record packing : Type := mk_packing
  { l_images : list Path;
    l_labels : list Path;
    max_width : Z;
    max_height : Z;
    selected_bands : list Z;
    path_arr : list string;
    epsg_arr : list Z;
    affine_arr : list (list Q) }.

Section Conversion.

(** [fnmatch name pattern]: shell-style matching of a file name, as
    [glob] and [PurePath.match] do it.  The two differ on names that
    start with a dot, which [glob] leaves to patterns that start with
    one; [fnmatch] stands for both on the other names. *)
Variable fnmatch : string -> string -> bool.

(** The floating point square root. *)
Variable np_sqrt : Q -> Q.

(** [_rglob_with_links(path, pattern)]: the files at any depth below
    [path] whose name matches. *)
Definition _rglob_with_links (fs : filesystem) (pattern : string)
  : list Path :=
  filter (fun p => fnmatch (name p) pattern) (map fst fs).

(** [dir.glob(pattern)]: the files directly in [dir] whose name
    matches. *)
Definition glob (fs : filesystem) (dir : string) (pattern : string)
  : list Path :=
  filter (fun p => String.eqb (parent p) dir && fnmatch (name p) pattern)
         (map fst fs).

Definition _compute_statistics (f : h5file) : result h5file :=
  d <- h5_get f "img" ;;
  match d with
  | Int4 arr =>
      let bands := seq 0 (block_c arr) in
      let stds := map (fun b => np_sqrt (np_var (band_values arr b))) bands in
      let means := map (fun b => np_mean (band_values arr b)) bands in
      Ok (f ++ [ ("/img_means", Float1 means);
                 ("/img_stds", Float1 stds) ]%string)
  | _ => Raise (ValueError "axis out of bounds")
  end.

(** Lines 42-112: discovery, metadata and band selection.  The
    size-disparity warning of lines 62-72 changes nothing and is left
    out. *)
Definition convert_img_to_h5_prepare (fs : filesystem)
           (file_glob label_glob : string)
           (image_bands : option (list Z)) : result packing :=
  (* list all images and filter label images if they have the same
     file_glob *)
  let l_images := filter (fun i => negb (fnmatch (name i) label_glob))
                         (_rglob_with_links fs file_glob) in
  (* find labels in the folders where images would be located *)
  let l_labels := flat_map (fun i => glob fs (parent i) label_glob)
                           l_images in
  _ <- assert (length l_images =? length l_labels)%nat
              "Number of images differs from number of labels" ;;
  (* load metadata *)
  metadata <- mapM (_derive_metadata fs) l_images ;;
  _ <- match metadata with
       | [] => Raise (ValueError "not enough values to unpack")
       | _ => Ok tt
       end ;;
  let widths := map (fun '(w, _, _, _, _) => w) metadata in
  let heights := map (fun '(_, h, _, _, _) => h) metadata in
  let epsgs := map (fun '(_, _, e, _, _) => e) metadata in
  let affines := map (fun '(_, _, _, a, _) => a) metadata in
  let bands := map (fun '(_, _, _, _, b) => b) metadata in
  (* check number bands *)
  image_bands <- check_number_bands image_bands bands ;;
  max_w <- py_max widths ;;
  max_h <- py_max heights ;;
  (* shorten paths and convert to string array *)
  let shortened_paths := map stem l_images in
  Ok (mk_packing l_images l_labels max_w max_h image_bands
                 shortened_paths epsgs affines).

(** Lines 114-124, [da.to_hdf5]: the destination is created and every
    item is loaded, padded and written.  Lines 85-100 declare both
    stacked arrays [dtype="uint16"], so /img and /lbl are datasets of
    that type and every value written to them is cast to it. *)
Definition to_hdf5 (fs : filesystem) (pk : packing) : result h5file :=
  img_arr <- mapM (fun p => _load_img fs p (max_width pk) (max_height pk)
                                      (selected_bands pk))
                  (l_images pk) ;;
  lbl_arr <- mapM (fun p => _load_lbl fs p (max_width pk) (max_height pk))
                  (l_labels pk) ;;
  Ok [ ("/img", Int4 (map (image_astype astype_uint16) img_arr));
       ("/lbl", Int3 (map (map (map astype_uint16)) lbl_arr));
       ("/path", Str1 (path_arr pk));
       ("/epsg", Int1 (epsg_arr pk));
       ("/affine", Float2 (affine_arr pk)) ]%string.

(** [convert_img_to_h5(src_path, dst_file, file_glob, label_glob,
    image_bands)] on a destination that does not exist yet; [fs] holds
    the files below [src_path]. *)
Definition convert_img_to_h5 (fs : filesystem)
           (file_glob label_glob : string)
           (image_bands : option (list Z)) : outcome :=
  match convert_img_to_h5_prepare fs file_glob label_glob image_bands with
  | Raise e => Aborted e
  | Ok pk =>
      match (f <- to_hdf5 fs pk ;; _compute_statistics f) with
      | Raise e => Interrupted e
      | Ok f => Completed f
      end
  end.

End Conversion.

(* ===================================================================== *)
(** ** conversion.py: [convert_h5_to_img]                                 *)
(* ===================================================================== *)

(** [dataset[index]] along the first axis; negative indexes count from
    the end. *)
Definition h5_index {A} (l : list A) (index : Z) : result A :=
  let n := Z.of_nat (length l) in
  let i := if index <? 0 then index + n else index in
  match (if (0 <=? i) && (i <? n) then nth_error l (Z.to_nat i) else None) with
  | Some x => Ok x
  | None => Raise (IndexError "Index out of range")
  end.

(** The files [_create_raster] writes into the destination folder, in
    the order it writes them.  Both files are opened with the band
    count, height and width of the image row; the label row of a store
    this program wrote has that height and width, and for such rows
    [write] stores the array as it is.  A label row of another size is
    outside of what is modelled and is reported as an error here. *)
Definition _create_raster (index : Z) (src : h5file)
  : result (list (string * Raster)) :=
  d_img <- h5_get src "/img" ;;
  img <- match d_img with
         | Int4 a => h5_index a index
         | _ => Raise (IndexError "tuple index out of range")
         end ;;
  d_lbl <- h5_get src "/lbl" ;;
  lbl <- match d_lbl with
         | Int3 a => p <- h5_index a index ;; Ok [p]    (* lbl[np.newaxis,] *)
         | Int4 a => h5_index a index
         | _ => Raise (ValueError "label is not an image")
         end ;;
  d_path <- h5_get src "/path" ;;
  path <- match d_path with
          | Str1 a => h5_index a index
          | _ => Raise (TypeError "not a vector of strings")
          end ;;
  d_epsg <- h5_get src "/epsg" ;;
  epsg <- match d_epsg with
          | Int1 a => h5_index a index
          | _ => Raise (TypeError "not a vector of integers")
          end ;;
  d_affine <- h5_get src "/affine" ;;
  affine <- match d_affine with
            | Float2 a => h5_index a index
            | _ => Raise (TypeError "not a matrix of floats")
            end ;;
  t <- rio.from_gdal affine ;;
  let h := Z.of_nat (image_h img) in
  let w := Z.of_nat (image_w img) in
  let img_file :=
    ((path ++ ".tif")%string,
     mk_raster w h epsg t (image_astype astype_uint16 img)) in
  (* metadata.update({"count": 1}) *)
  if (image_c lbl =? 1)%nat && (image_h lbl =? image_h img)%nat
     && (image_w lbl =? image_w img)%nat then
    Ok [ img_file;
         ((path ++ "_label.tif")%string,
          mk_raster w h epsg t (image_astype astype_uint16 lbl)) ]
  else Raise (ValueError "array shape is inconsistent with the dataset").

Inductive index_arg : Type :=
| IndexInt (i : Z)
| IndexList (l : list Z)
| IndexNone.

(** Writing a file replaces a file of the same name. *)
Fixpoint write_file (folder : list (string * Raster))
         (file : string * Raster) : list (string * Raster) :=
  match folder with
  | [] => [file]
  | (k, r) :: tl =>
      if String.eqb k (fst file) then file :: tl
      else (k, r) :: write_file tl file
  end.

(** [convert_h5_to_img(src_file, dst_folder, index)] into an empty
    folder; the rows are written in list order. *)
Definition convert_h5_to_img (src : h5file) (index : index_arg)
  : result (list (string * Raster)) :=
  match index with
  | IndexInt i =>
      files <- _create_raster i src ;;
      Ok (fold_left write_file files [])
  | _ =>
      index_list <- match index with
                    | IndexList l => Ok l
                    | _ => d <- h5_get src "/path" ;;
                           Ok (range_elems 0 (Z.of_nat (rows d)) 1)
                    end ;;
      files <- mapM (fun i => _create_raster i src) index_list ;;
      Ok (fold_left write_file (concat files) [])
  end.

(* ===================================================================== *)
(** ** The round trip                                                     *)
(* ===================================================================== *)

Section RoundTrip.

Variable fnmatch : string -> string -> bool.
Variable np_sqrt : Q -> Q.

(** The image and label paths the conversion discovers. *)
Definition discovered_images (fs : filesystem) (file_glob label_glob : string)
  : list Path :=
  filter (fun i => negb (fnmatch (name i) label_glob))
         (_rglob_with_links fnmatch fs file_glob).

Definition discovered_labels (fs : filesystem) (file_glob label_glob : string)
  : list Path :=
  flat_map (fun i => glob fnmatch fs (parent i) label_glob)
           (discovered_images fs file_glob label_glob).

(** Converting with the default band selection succeeds, and
    reconstructing row k writes the k-th image file as it was (pixels,
    width, height, CRS, geotransform) and a label file with the pixels
    of the k-th label file. *)
Definition roundtrip_identity (fs : filesystem)
           (file_glob label_glob : string) : Prop :=
  exists f,
    convert_img_to_h5 fnmatch np_sqrt fs file_glob label_glob None
    = Completed f /\
    forall k p_img p_lbl,
      nth_error (discovered_images fs file_glob label_glob) k = Some p_img ->
      nth_error (discovered_labels fs file_glob label_glob) k = Some p_lbl ->
      exists r_img r_lbl out_lbl,
        fs_lookup fs p_img = Some r_img /\
        fs_lookup fs p_lbl = Some r_lbl /\
        _create_raster (Z.of_nat k) f
        = Ok [ ((stem p_img ++ ".tif")%string, r_img);
               ((stem p_img ++ "_label.tif")%string, out_lbl) ] /\
        pixels out_lbl = pixels r_lbl.

End RoundTrip.

(** All pixel values fit an unsigned 16-bit integer. *)
Definition in_uint16 (im : image) : Prop :=
  Forall (Forall (Forall (fun v => 0 <= v < 65536))) im.

(* ===================================================================== *)
(** ** A matcher for running the model                                    *)
(* ===================================================================== *)

(** Patterns made of literal characters, [*] and [?]. *)
Fixpoint wildcard (pattern : string) (s : string) {struct pattern} : bool :=
  match pattern with
  | EmptyString => match s with EmptyString => true | _ => false end
  | String "*" rest =>
      (fix star (s : string) : bool :=
         wildcard rest s
         || match s with EmptyString => false | String _ s' => star s' end) s
  | String "?" rest =>
      match s with String _ s' => wildcard rest s' | _ => false end
  | String ch rest =>
      match s with
      | String ch' s' => Ascii.eqb ch ch' && wildcard rest s'
      | _ => false
      end
  end.

Definition simple_fnmatch (name pattern : string) : bool :=
  wildcard pattern name.

(* ===================================================================== *)
(** ** The store                                                          *)
(* ===================================================================== *)

(** The contents of a store as [convert_img_to_h5] lays it out. *)
Record Store : Type := mk_store
  { s_img : list image;
    s_lbl : list plane;
    s_path : list string;
    s_epsg : list Z;
    s_affine : list (list Q);
    s_means : list Q;
    s_stds : list Q }.

Definition store_file (s : Store) : h5file :=
  [ ("/img", Int4 (s_img s));
    ("/lbl", Int3 (s_lbl s));
    ("/path", Str1 (s_path s));
    ("/epsg", Int1 (s_epsg s));
    ("/affine", Float2 (s_affine s));
    ("/img_means", Float1 (s_means s));
    ("/img_stds", Float1 (s_stds s)) ]%string.

(** The parallel-array invariant: the five per-row datasets exist and
    have leading length [N]. *)
Definition per_row_names : list string :=
  ["/img"; "/lbl"; "/path"; "/epsg"; "/affine"]%string.

Definition parallel_rows (f : h5file) (N : Z) : Prop :=
  forall name, In name per_row_names ->
               exists d, h5_lookup f name = Some d /\ Z.of_nat (rows d) = N.

(* ===================================================================== *)
(** ** Example data                                                       *)
(* ===================================================================== *)

(** North-up transform with 10 m pixels, as the test fixtures use. *)
Definition north_up : rio.Affine :=
  rio.mkAffine (10#1) (0#1) (0#1) (0#1) ((-10)#1) (0#1).

(** An item with 2 bands, 2 rows and 3 columns. *)
Definition small_item : image :=
  [ [[1; 2; 3]; [4; 5; 6]];  [[7; 8; 9]; [10; 11; 12]] ].

(** A square root good to six decimals, for running the model. *)
Definition sqrt_6_digits (q : Q) : Q :=
  (Z.sqrt (Qnum q * 10 ^ 12 / Zpos (Qden q)) # 1000000)%Q.

(** Two image folders; the images differ in height and width. *)
Definition two_folders : filesystem :=
  [ (mk_path "a" "img_0.tif",
     mk_raster 2 1 32601 north_up [ [[1; 2]];  [[3; 4]] ]);
    (mk_path "a" "label.tif",
     mk_raster 2 1 32601 north_up [ [[1; 0]] ]);
    (mk_path "b" "img_1.tif",
     mk_raster 1 2 32601 north_up [ [[5]; [6]];  [[7]; [8]] ]);
    (mk_path "b" "label.tif",
     mk_raster 1 2 32601 north_up [ [[1]; [1]] ]) ]%string.

(** Two image folders; the second image has one band only. *)
Definition mixed_bands : filesystem :=
  [ (mk_path "a" "img_0.tif",
     mk_raster 1 1 32601 north_up [ [[1]];  [[3]] ]);
    (mk_path "a" "label.tif",
     mk_raster 1 1 32601 north_up [ [[1]] ]);
    (mk_path "b" "img_1.tif",
     mk_raster 1 1 32601 north_up [ [[5]] ]);
    (mk_path "b" "label.tif",
     mk_raster 1 1 32601 north_up [ [[1]] ]) ]%string.

(** One folder whose image holds 32-bit values: one beyond 16 unsigned
    bits, one negative, one that is 2^16. *)
Definition wide_values : filesystem :=
  [ (mk_path "a" "img.tif",
     mk_raster 3 1 32601 north_up [ [[70000; -1; 65536]] ]);
    (mk_path "a" "label.tif",
     mk_raster 3 1 32601 north_up [ [[1; 0; 1]] ]) ]%string.

(** One folder whose label file is called mask.tif; a file label.tif
    lies next to it. *)
Definition masked_folder (mask_pixel : Z) : filesystem :=
  [ (mk_path "a" "img.tif",
     mk_raster 1 1 32601 north_up [ [[9]] ]);
    (mk_path "a" "mask.tif",
     mk_raster 1 1 32601 north_up [ [[mask_pixel]] ]);
    (mk_path "a" "label.tif",
     mk_raster 1 1 32601 north_up [ [[3]] ]) ]%string.

(** Ten image folders as the test suite lays them out,
    image_k/img_k.tif with image_k/label.tif; image 9 is 2 x 2 pixels,
    the others 1 x 1. *)
Definition ten_folders : filesystem :=
  flat_map
    (fun k =>
       let dir := ("image_" ++ str k)%string in
       let img := ("img_" ++ str k ++ ".tif")%string in
       if k =? 9 then
         [ (mk_path dir img,
            mk_raster 2 2 32601 north_up [ [[k; k]; [k; k]] ]);
           (mk_path dir "label.tif",
            mk_raster 2 2 32601 north_up [ [[1; 1]; [1; 1]] ]) ]
       else
         [ (mk_path dir img,
            mk_raster 1 1 32601 north_up [ [[k]] ]);
           (mk_path dir "label.tif",
            mk_raster 1 1 32601 north_up [ [[1]] ]) ])
    (range_elems 0 10 1).

(** [n] image folders of one size: every image has 2 bands, 1 row and
    2 columns, every label 1 band of the same size. *)
Definition uniform_image (k : Z) : Raster :=
  mk_raster 2 1 32601 north_up [ [[k; k + 1]];  [[k + 2; 65535]] ].

Definition uniform_label (k : Z) : Raster :=
  mk_raster 2 1 32601 north_up [ [[1; k]] ].

Definition uniform_folders (n : Z) : filesystem :=
  flat_map
    (fun k =>
       let dir := ("image_" ++ str k)%string in
       let img := ("img_" ++ str k ++ ".tif")%string in
       [ (mk_path dir img, uniform_image k);
         (mk_path dir "label.tif", uniform_label k) ])
    (range_elems 0 n 1).

(** A store with one 1-band item of 2 rows and 3 columns; one pixel does
    not fit a signed 16-bit integer. *)
Definition small_store : Store :=
  {| s_img := [ [ [[1; 2; 3]; [4; 5; 40000]] ] ];
     s_lbl := [ [[1; 0; 1]; [0; 1; 0]] ];
     s_path := ["img"%string];
     s_epsg := [32601];
     s_affine := [ rio.to_gdal north_up ];
     s_means := [ (13351#2)%Q ];
     s_stds := [ (3#2)%Q ] |}.

(* ===================================================================== *)
(** ** Generic lemmas                                                     *)
(* ===================================================================== *)

Lemma mapM_ok_Forall2 {A B} (f : A -> result B) (R : A -> B -> Prop) l :
  (forall x, In x l -> exists y, f x = Ok y /\ R x y) ->
  exists ys, mapM f l = Ok ys /\ Forall2 R l ys.
Proof.
  induction l as [|x tl IH]; intros H; simpl.
  - exists []. split; [reflexivity | constructor].
  - destruct (H x (or_introl eq_refl)) as [y [Hy HR]].
    destruct IH as [ys [Hys HF]]; [intros; apply H; now right|].
    rewrite Hy, Hys. simpl. exists (y :: ys). split; [reflexivity|].
    now constructor.
Qed.

Lemma Forall2_concat_prod {A B C} (R : A * B -> C -> Prop)
      (l1 : list A) (l2 : list B) (ll : list (list C)) :
  Forall2 (fun x ys => Forall2 (fun y z => R (x, y) z) l2 ys) l1 ll ->
  Forall2 R (list_prod l1 l2) (concat ll).
Proof.
  induction 1 as [|x ys l1' ll' Hx _ IH]; simpl.
  - constructor.
  - apply Forall2_app; [|exact IH].
    clear IH. induction Hx; simpl; constructor; auto.
Qed.

Lemma nth_map_lt {A B} (f : A -> B) (l : list A) (n : nat) (d : B) (d' : A) :
  (n < length l)%nat -> nth n (map f l) d = f (nth n l d').
Proof.
  intros H. rewrite (nth_indep (map f l) d (f d')).
  - apply map_nth.
  - now rewrite length_map.
Qed.

Lemma In_firstn {A} (n : nat) (l : list A) (x : A) :
  In x (firstn n l) -> In x l.
Proof.
  intros H. rewrite <- (firstn_skipn n l). apply in_or_app. now left.
Qed.

Lemma In_skipn {A} (n : nat) (l : list A) (x : A) :
  In x (skipn n l) -> In x l.
Proof.
  intros H. rewrite <- (firstn_skipn n l). apply in_or_app. now right.
Qed.

Lemma flat_map_singleton {A B} (f : A -> B) (g : A -> list B) (l : list A) :
  (forall x, In x l -> g x = [f x]) -> flat_map g l = map f l.
Proof.
  induction l as [|x tl IH]; intros H; simpl; [reflexivity|].
  rewrite (H x (or_introl eq_refl)), IH; [reflexivity|].
  intros; apply H; now right.
Qed.

Lemma seq_offset (s n : nat) :
  seq s n = map (fun j => (s + j)%nat) (seq 0 n).
Proof.
  revert s. induction n as [|n IH]; intros s; [reflexivity|].
  simpl. rewrite Nat.add_0_r. f_equal.
  rewrite <- (seq_shift n 0), map_map, (IH (S s)).
  apply map_ext. intros j. lia.
Qed.

(** Flattening an m-by-n grid in C order: element i is the one at
    (i / n, i mod n). *)
Lemma concat_grid {A} (g : nat -> nat -> A) (m n : nat) :
  concat (map (fun k => map (g k) (seq 0 n)) (seq 0 m))
  = map (fun i => g (i / n)%nat (i mod n)%nat) (seq 0 (m * n)).
Proof.
  destruct (Nat.eq_dec n 0) as [->|Hn].
  { rewrite Nat.mul_0_r. simpl.
    induction (seq 0 m); simpl; auto. }
  induction m as [|m IH]; [reflexivity|].
  rewrite seq_S, map_app, concat_app, IH. simpl.
  rewrite app_nil_r.
  replace (n + m * n)%nat with (m * n + n)%nat by lia.
  rewrite seq_app, map_app. f_equal.
  simpl. rewrite (seq_offset (m * n) n), map_map.
  apply map_ext_in. intros j Hj. apply in_seq in Hj.
  rewrite Nat.div_add_l by exact Hn.
  rewrite Nat.div_small by lia.
  rewrite (Nat.add_comm (m * n)), Nat.Div0.mod_add.
  rewrite Nat.mod_small by lia.
  now rewrite Nat.add_0_r.
Qed.

Lemma list_prod_grid {A B} (f : nat -> A) (g : nat -> B) (m n : nat) :
  list_prod (map f (seq 0 m)) (map g (seq 0 n))
  = map (fun i => (f (i / n)%nat, g (i mod n)%nat)) (seq 0 (m * n)).
Proof.
  rewrite <- (concat_grid (fun k j => (f k, g j))).
  induction (seq 0 m) as [|k tl IH]; simpl; [reflexivity|].
  rewrite IH, map_map. reflexivity.
Qed.

Lemma py_range_ok start stop step :
  step <> 0 -> py_range start stop step = Ok (range_elems start stop step).
Proof.
  intros H. unfold py_range. apply Z.eqb_neq in H. now rewrite H.
Qed.

(* ===================================================================== *)
(** ** C1                                                                 *)
(* ===================================================================== *)

Lemma _affine_from_rowcol_spec a0 a1 a2 a3 a4 a5 row col :
  exists t, _affine_from_rowcol [a0; a1; a2; a3; a4; a5] row col = Ok t /\
            is_tile_affine a0 a1 a2 a3 a4 a5 (row, col) t.
Proof.
  eexists. split; [reflexivity|].
  simpl. do 2 eexists. split; [reflexivity|].
  split; simpl; ring.
Qed.

(** [_tile_one_affine] visits the tile origins in the order of
    [tile_origins] and calls [_affine_from_rowcol] at each of them. *)
Lemma _tile_one_affine_origins (affine : list Q)
      (target_size tile_size overlap : Z) :
  length affine = 6%nat -> overlap <> 0 ->
  exists out,
    _tile_one_affine affine target_size tile_size overlap = Ok out /\
    Forall2 (fun o t => _affine_from_rowcol affine (fst o) (snd o) = Ok t)
            (tile_origins target_size tile_size overlap) out.
Proof.
  intros Hlen Hov.
  unfold _tile_one_affine. rewrite !(py_range_ok _ _ _ Hov).
  set (rng := range_elems 0 (target_size - tile_size + 1) overlap).
  assert (Hcell : forall row col,
             exists t, _affine_from_rowcol affine row col = Ok t).
  { intros row col.
    do 7 (destruct affine as [|? affine]; try discriminate).
    eexists. reflexivity. }
  destruct (mapM_ok_Forall2
              (fun row => cols <- Ok rng ;;
                          mapM (fun col => _affine_from_rowcol affine row col) cols)
              (fun row ys =>
                 Forall2 (fun col t => _affine_from_rowcol affine row col = Ok t)
                         rng ys)
              rng) as [per_row [Hm HF]].
  { intros row _. cbn [bind].
    apply mapM_ok_Forall2. intros col _.
    destruct (Hcell row col) as [t Ht]. now exists t. }
  cbn [bind]. cbn [bind] in Hm. rewrite Hm. eexists. split; [reflexivity|].
  unfold tile_origins. fold rng.
  now apply (Forall2_concat_prod
               (fun o t => _affine_from_rowcol affine (fst o) (snd o) = Ok t)).
Qed.

(** C1: for every parent geotransform (a0, ..., a5) the Tiler produces,
    for the enumerated tile origins in order, the geotransforms
    (a0 + col*a1 + row*a2, a1, a2, a3 + col*a4 + row*a5, a4, a5): the
    four scale/rotation terms are the parent's, the two origin terms are
    the parent's pixel-to-geography mapping at (row, col). *)
Theorem tile_affine_origin_recomputed :
  forall (a0 a1 a2 a3 a4 a5 : Q) (target_size tile_size overlap : Z),
    overlap <> 0 ->
    exists out,
      _tile_one_affine [a0; a1; a2; a3; a4; a5] target_size tile_size overlap
      = Ok out /\
      Forall2 (is_tile_affine a0 a1 a2 a3 a4 a5)
              (tile_origins target_size tile_size overlap) out.
Proof.
  intros a0 a1 a2 a3 a4 a5 P ts ov Hov.
  destruct (_tile_one_affine_origins [a0; a1; a2; a3; a4; a5] P ts ov
              eq_refl Hov) as [out [Hout HF]].
  exists out. split; [exact Hout|].
  revert HF. apply Forall2_impl. intros [row col] t Ht.
  destruct (_affine_from_rowcol_spec a0 a1 a2 a3 a4 a5 row col) as [t' [E S]].
  simpl fst in Ht. simpl snd in Ht. congruence.
Qed.

Lemma tile_affine_origin_recomputed_witness :
  exists out,
    _tile_one_affine [0#1; 10#1; 0#1; 0#1; 0#1; (-10)#1]%Q 4 2 2 = Ok out /\
    Forall2 (is_tile_affine (0#1) (10#1) (0#1) (0#1) (0#1) ((-10)#1))
            (tile_origins 4 2 2) out.
Proof.
  apply (tile_affine_origin_recomputed
           (0#1) (10#1) (0#1) (0#1) (0#1) ((-10)#1) 4 2 2).
  lia.
Defined.

(* ===================================================================== *)
(** ** Ranges and strided slices                                          *)
(* ===================================================================== *)

Lemma range_elems_from_0 (n step : Z) :
  0 < step -> 0 < n ->
  range_elems 0 n step
  = map (fun k => Z.of_nat k * step)
        (seq 0 (Z.to_nat ((n - 1) / step + 1))).
Proof.
  intros Hs Hn. unfold range_elems, range_len.
  destruct (Z.ltb_spec 0 step); [|lia].
  destruct (Z.ltb_spec 0 n); [|lia].
  rewrite Z.sub_0_r. apply map_ext. intros k. lia.
Qed.

Lemma range_elems_empty (n step : Z) :
  0 < step -> n <= 0 -> range_elems 0 n step = [].
Proof.
  intros Hs Hn. unfold range_elems, range_len.
  destruct (Z.ltb_spec 0 step); [|lia].
  destruct (Z.ltb_spec 0 n); [lia|reflexivity].
Qed.

Lemma slice_step_pos {A} (d : A) (step : Z) (l : list A) :
  0 < step -> l <> [] ->
  slice_step step l
  = map (fun k => nth (k * Z.to_nat step) l d)
        (seq 0 (Z.to_nat ((Z.of_nat (length l) - 1) / step + 1))).
Proof.
  intros Hs Hl. unfold slice_step.
  assert (Hlen : 0 < Z.of_nat (length l)) by (destruct l; [congruence|simpl; lia]).
  destruct (Z.ltb_spec 0 step); [|lia].
  rewrite range_elems_from_0 by assumption.
  rewrite (flat_map_singleton (fun i => nth (Z.to_nat i) l d)).
  - rewrite map_map. apply map_ext. intros k. f_equal. lia.
  - intros i Hi. apply in_map_iff in Hi. destruct Hi as [k [<- Hk]].
    apply in_seq in Hk.
    assert (Hq := Z.mul_div_le (Z.of_nat (length l) - 1) step Hs).
    assert (0 <= (Z.of_nat (length l) - 1) / step)
      by (apply Z.div_pos; lia).
    rewrite (nth_error_nth' l d); [reflexivity|].
    nia.
Qed.

(* ===================================================================== *)
(** ** Pixels of padded arrays and of windows                             *)
(* ===================================================================== *)

Lemma nth_zero_rows (k x pad_h w : nat) :
  nth x (nth k (repeat (repeat 0 w) pad_h) []) 0 = 0.
Proof.
  destruct (Nat.lt_ge_cases k pad_h) as [Hk|Hk].
  - rewrite (nth_repeat_lt _ _ Hk).
    destruct (Nat.lt_ge_cases x w) as [Hx|Hx].
    + now rewrite (nth_repeat_lt _ _ Hx).
    + apply nth_overflow. now rewrite repeat_length.
  - rewrite (nth_overflow _ []) by now rewrite repeat_length.
    now destruct x.
Qed.

Lemma pad_plane_px (h w pad_h pad_w : nat) (p : plane) (y x : nat) :
  plane_shape h w p ->
  nth x (nth y (pad_plane w pad_h pad_w p) []) 0
  = if (y <? h)%nat && (x <? w)%nat then nth x (nth y p []) 0 else 0.
Proof.
  intros [Hh Hw]. unfold pad_plane.
  destruct (Nat.ltb_spec y h) as [Hy|Hy]; simpl.
  - rewrite app_nth1 by (rewrite length_map; lia).
    rewrite (nth_map_lt _ _ _ [] []) by lia.
    assert (Hr : length (nth y p []) = w).
    { rewrite Forall_forall in Hw. apply Hw. apply nth_In. lia. }
    destruct (Nat.ltb_spec x w) as [Hx|Hx].
    + rewrite app_nth1 by lia. reflexivity.
    + rewrite app_nth2 by lia.
      destruct (Nat.lt_ge_cases (x - length (nth y p [])) pad_w) as [Hp|Hp].
      * now apply nth_repeat_lt.
      * apply nth_overflow. now rewrite repeat_length.
  - rewrite app_nth2 by (rewrite length_map; lia).
    apply nth_zero_rows.
Qed.

Lemma pad_plane_shape (h w pad_h pad_w : nat) (p : plane) :
  plane_shape h w p ->
  plane_shape (h + pad_h) (w + pad_w) (pad_plane w pad_h pad_w p).
Proof.
  intros [Hh Hw]. unfold pad_plane. split.
  - rewrite length_app, length_map, repeat_length. lia.
  - apply Forall_app. split.
    + apply Forall_map. revert Hw. apply Forall_impl.
      intros r Hr. rewrite length_app, repeat_length. lia.
    + apply Forall_forall. intros r Hr. apply repeat_spec in Hr.
      subst r. apply repeat_length.
Qed.

Lemma window_shape (size : nat) (c H W : nat) (im : image) (r q : nat) :
  image_shape c H W im ->
  (r + size <= H)%nat -> (q + size <= W)%nat ->
  image_shape c size size (window size im r q).
Proof.
  intros [Hc Hp] Hr Hq. unfold window. split.
  - now rewrite length_map.
  - apply Forall_map. revert Hp. apply Forall_impl.
    intros p [Hh Hw]. split.
    + rewrite length_map, length_firstn, length_skipn. lia.
    + apply Forall_map. apply Forall_forall. intros row Hrow.
      rewrite length_firstn, length_skipn.
      rewrite Forall_forall in Hw.
      rewrite (Hw row); [lia|].
      eapply In_skipn, In_firstn; exact Hrow.
Qed.

Lemma window_px (size : nat) (c H W : nat) (im : image) (r q b y x : nat) :
  image_shape c H W im ->
  (r + size <= H)%nat ->
  (b < c)%nat -> (y < size)%nat -> (x < size)%nat ->
  px (window size im r q) b y x = px im b (r + y) (q + x).
Proof.
  intros [Hc Hp] Hr Hb Hy Hx. unfold px, window.
  rewrite (nth_map_lt _ _ _ [] []) by lia.
  assert (Hpl : plane_shape H W (nth b im [])).
  { rewrite Forall_forall in Hp. apply Hp, nth_In. lia. }
  destruct Hpl as [Hh _]. cbv beta.
  rewrite (nth_map_lt _ _ _ [] [])
    by (rewrite length_firstn, length_skipn; lia).
  rewrite nth_firstn.
  destruct (Nat.ltb_spec x size); [|lia].
  rewrite nth_skipn, nth_firstn.
  destruct (Nat.ltb_spec y size); [|lia].
  now rewrite nth_skipn.
Qed.

Lemma slice_step_map_seq {A} (g : nat -> A) (len : nat) (step : Z) :
  0 < step -> (0 < len)%nat ->
  slice_step step (map g (seq 0 len))
  = map (fun k => g (k * Z.to_nat step)%nat)
        (seq 0 (Z.to_nat ((Z.of_nat len - 1) / step + 1))).
Proof.
  intros Hs Hl.
  rewrite (slice_step_pos (g O));
    [|assumption|destruct len; [lia|discriminate]].
  rewrite length_map, length_seq.
  apply map_ext_in. intros k Hk. apply in_seq in Hk.
  rewrite map_nth. f_equal.
  assert (Hq := Z.mul_div_le (Z.of_nat len - 1) step Hs).
  assert (0 <= (Z.of_nat len - 1) / step) by (apply Z.div_pos; lia).
  rewrite seq_nth by nia. reflexivity.
Qed.

Lemma image_shape_dims (c h w : nat) (im : image) :
  image_shape c h w im -> (0 < c)%nat -> (0 < h)%nat ->
  image_c im = c /\ image_h im = h /\ image_w im = w.
Proof.
  intros [Hc Hp] Hc0 Hh0. split; [exact Hc|].
  destruct im as [|p tl]; [simpl in Hc; lia|].
  apply Forall_inv in Hp. destruct Hp as [Hh Hw]. simpl. split; [exact Hh|].
  unfold plane_w. destruct p as [|r rows]; [simpl in Hh; lia|].
  now apply Forall_inv in Hw.
Qed.

Lemma canvas_shape (size c h w : nat) (item : image) :
  image_shape c h w item -> (h <= size)%nat -> (w <= size)%nat ->
  image_shape c size size (canvas size h w item).
Proof.
  intros [Hc Hp] Hh Hw. unfold canvas. split.
  - now rewrite length_map.
  - apply Forall_map. revert Hp. apply Forall_impl. intros p Hpl.
    replace size with (h + (size - h))%nat at 1 by lia.
    replace size with (w + (size - w))%nat at 2 by lia.
    now apply pad_plane_shape.
Qed.

Lemma canvas_px (size c h w : nat) (item : image) (b y x : nat) :
  image_shape c h w item -> (b < c)%nat ->
  px (canvas size h w item) b y x
  = if (y <? h)%nat && (x <? w)%nat then px item b y x else 0.
Proof.
  intros [Hc Hp] Hb. unfold px, canvas.
  rewrite (nth_map_lt _ _ _ [] []) by lia.
  apply pad_plane_px.
  rewrite Forall_forall in Hp. apply Hp, nth_In. lia.
Qed.

(** The tiles of one item, in closed form. *)
Lemma _tile_array_item (item : image) (c h w : nat)
      (tile_size overlap pad_size : Z) :
  image_shape c h w item ->
  (0 < c)%nat -> (0 < h)%nat -> (0 < w)%nat ->
  Z.of_nat h <= pad_size -> Z.of_nat w <= pad_size ->
  0 < overlap -> 0 < tile_size <= pad_size ->
  let n := Z.to_nat (n_side pad_size tile_size overlap) in
  let ts := Z.to_nat tile_size in
  let ov := Z.to_nat overlap in
  _tile_array [item] tile_size overlap pad_size
  = Ok (map (fun i => window ts (canvas (Z.to_nat pad_size) h w item)
                             ((i / n) * ov)%nat ((i mod n) * ov)%nat)
            (seq 0 (n * n))).
Proof.
  intros Hsh Hc Hh Hw HhP HwP Hov Hts n ts ov.
  destruct (image_shape_dims _ _ _ _ Hsh Hc Hh) as [Ec [Eh Ew]].
  unfold _tile_array. cbn [block_h block_w block_c].
  rewrite Ec, Eh, Ew.
  unfold np_pad.
  destruct (Z.ltb_spec (pad_size - Z.of_nat h) 0); [lia|].
  destruct (Z.ltb_spec (pad_size - Z.of_nat w) 0); [lia|].
  cbn [orb bind map block_w]. rewrite Ew.
  replace (Z.to_nat (pad_size - Z.of_nat h)) with (Z.to_nat pad_size - h)%nat by lia.
  replace (Z.to_nat (pad_size - Z.of_nat w)) with (Z.to_nat pad_size - w)%nat by lia.
  fold (canvas (Z.to_nat pad_size) h w item).
  set (cv := canvas (Z.to_nat pad_size) h w item).
  assert (Hcv : image_shape c (Z.to_nat pad_size) (Z.to_nat pad_size) cv)
    by (apply canvas_shape; [assumption|lia|lia]).
  destruct (image_shape_dims _ _ _ _ Hcv Hc ltac:(lia)) as [Ec' [Eh' Ew']].
  unfold sliding_window_view. cbn [block_h block_w].
  rewrite Eh', Ew'.
  destruct (Z.ltb_spec tile_size 0); [lia|].
  destruct (Z.ltb_spec (Z.of_nat (Z.to_nat pad_size)) tile_size); [lia|].
  cbn [orb bind map].
  unfold slice_overlap.
  destruct (Z.eqb_spec overlap 0); [lia|].
  cbn [bind map].
  unfold reshape_tiles.
  destruct (Z.eqb_spec (Z.of_nat c * tile_size * tile_size) 0); [nia|].
  f_equal. cbn [map concat]. rewrite !app_nil_r.
  fold ts.
  set (L := (Z.to_nat pad_size - ts + 1)%nat).
  assert (HL : (Z.of_nat L - 1) / overlap + 1 = n_side pad_size tile_size overlap).
  { unfold n_side, L, ts. f_equal. f_equal. lia. }
  assert (Hn0 : 0 <= (pad_size - tile_size) / overlap) by (apply Z.div_pos; lia).
  rewrite (slice_step_map_seq _ L overlap Hov) by (unfold L; lia).
  rewrite HL. fold n. fold ov.
  rewrite map_map.
  rewrite <- (concat_grid (fun k j => window ts cv (k * ov) (j * ov))).
  f_equal. apply map_ext. intros k.
  rewrite (slice_step_map_seq _ L overlap Hov) by (unfold L; lia).
  rewrite HL. reflexivity.
Qed.



(* ===================================================================== *)
(** ** C2                                                                 *)
(* ===================================================================== *)

Lemma nth_error_map_seq {A} (g : nat -> A) (m i : nat) :
  (i < m)%nat -> nth_error (map g (seq 0 m)) i = Some (g i).
Proof.
  intros H. rewrite nth_error_map, nth_error_seq.
  destruct (Nat.ltb_spec i m); [reflexivity|lia].
Qed.

Lemma Forall2_nth_error {A B} (R : A -> B -> Prop) l1 l2 i x :
  Forall2 R l1 l2 -> nth_error l1 i = Some x ->
  exists y, nth_error l2 i = Some y /\ R x y.
Proof.
  intros HF. revert i. induction HF as [|a b l1 l2 Hab _ IH]; intros i Hi.
  - destruct i; discriminate.
  - destruct i as [|i]; simpl in *.
    + inversion Hi; subst. now exists b.
    + now apply IH.
Qed.

(** The i-th tile origin, counted in row-major order. *)
Lemma tile_origins_nth (target_size tile_size overlap : Z) (i : nat) :
  0 < overlap -> tile_size <= target_size ->
  let n := n_side target_size tile_size overlap in
  Z.of_nat i < n * n ->
  nth_error (tile_origins target_size tile_size overlap) i
  = Some (overlap * (Z.of_nat i / n), overlap * (Z.of_nat i mod n)).
Proof.
  intros Hov Hts n Hi. unfold tile_origins.
  rewrite range_elems_from_0 by lia.
  replace (target_size - tile_size + 1 - 1) with (target_size - tile_size) by lia.
  fold (n_side target_size tile_size overlap). fold n.
  assert (Hn : 0 < n).
  { unfold n, n_side.
    assert (0 <= (target_size - tile_size) / overlap) by (apply Z.div_pos; lia).
    lia. }
  rewrite list_prod_grid.
  rewrite nth_error_map_seq by nia.
  f_equal. f_equal.
  - rewrite Nat2Z.inj_div, Z2Nat.id by lia. lia.
  - rewrite Nat2Z.inj_mod, Z2Nat.id by lia. lia.
Qed.

(** Tile i of one item is the crop of the item's zero-padded canvas at
    row offset overlap * (i div n_side) and column offset
    overlap * (i mod n_side), and the i-th geotransform of
    [_tile_one_affine] is the one of that same origin. *)
Lemma _tile_array_row_major :
  forall (item : image) (c h w : nat) (a0 a1 a2 a3 a4 a5 : Q)
         (tile_size overlap target_size : Z) (i : nat),
    image_shape c h w item ->
    (0 < c)%nat -> (0 < h)%nat -> (0 < w)%nat ->
    Z.of_nat h <= target_size -> Z.of_nat w <= target_size ->
    0 < overlap -> 0 < tile_size <= target_size ->
    let n := n_side target_size tile_size overlap in
    Z.of_nat i < n * n ->
    let row_offset := Z.to_nat (overlap * (Z.of_nat i / n)) in
    let col_offset := Z.to_nat (overlap * (Z.of_nat i mod n)) in
    let size := Z.to_nat tile_size in
    exists tiles tile affines t,
      _tile_array [item] tile_size overlap target_size = Ok tiles /\
      Z.of_nat (length tiles) = n * n /\
      nth_error tiles i = Some tile /\
      tile = window size (canvas (Z.to_nat target_size) h w item)
                    row_offset col_offset /\
      image_shape c size size tile /\
      (forall b y x, (b < c)%nat -> (y < size)%nat -> (x < size)%nat ->
         px tile b y x
         = if (row_offset + y <? h)%nat && (col_offset + x <? w)%nat
           then px item b (row_offset + y) (col_offset + x) else 0) /\
      _tile_one_affine [a0; a1; a2; a3; a4; a5] target_size tile_size overlap
      = Ok affines /\
      Z.of_nat (length affines) = n * n /\
      nth_error affines i = Some t /\
      _affine_from_rowcol [a0; a1; a2; a3; a4; a5]
                          (overlap * (Z.of_nat i / n))
                          (overlap * (Z.of_nat i mod n)) = Ok t.
Proof.
  intros item c h w a0 a1 a2 a3 a4 a5 ts ov P i
         Hsh Hc Hh Hw HhP HwP Hov Hts n Hi row_offset col_offset size.
  assert (Hn : 0 < n).
  { unfold n, n_side.
    assert (0 <= (P - ts) / ov) by (apply Z.div_pos; lia). lia. }
  assert (Hq : 0 <= Z.of_nat i / n) by (apply Z.div_pos; lia).
  assert (Hm : 0 <= Z.of_nat i mod n < n) by (apply Z.mod_pos_bound; lia).
  assert (Hqn : Z.of_nat i / n < n)
    by (apply Z.div_lt_upper_bound; lia).
  assert (Hmul := Z.mul_div_le (P - ts) ov Hov).
  fold (n_side P ts ov) in Hmul.
  assert (Er : row_offset = (i / Z.to_nat n * Z.to_nat ov)%nat).
  { unfold row_offset. apply Nat2Z.inj.
    rewrite Nat2Z.inj_mul, Nat2Z.inj_div, !Z2Nat.id by nia. lia. }
  assert (Eq : col_offset = ((i mod Z.to_nat n) * Z.to_nat ov)%nat).
  { unfold col_offset. apply Nat2Z.inj.
    rewrite Nat2Z.inj_mul, Nat2Z.inj_mod, !Z2Nat.id by nia. lia. }
  assert (Hcv := canvas_shape (Z.to_nat P) c h w item Hsh
                              ltac:(lia) ltac:(lia)).
  assert (Hro : (row_offset + size <= Z.to_nat P)%nat).
  { unfold row_offset, size. unfold n, n_side in *. nia. }
  assert (Hco : (col_offset + size <= Z.to_nat P)%nat).
  { unfold col_offset, size. unfold n, n_side in *. nia. }
  destruct (_tile_one_affine_origins [a0; a1; a2; a3; a4; a5] P ts ov
              eq_refl ltac:(lia)) as [affines [Haff HF]].
  assert (Ho := tile_origins_nth P ts ov i Hov ltac:(lia) Hi).
  destruct (Forall2_nth_error _ _ _ _ _ HF Ho) as [t [Ht Hrt]].
  simpl fst in Hrt. simpl snd in Hrt.
  eexists _, (window size (canvas (Z.to_nat P) h w item) row_offset col_offset),
          affines, t.
  split; [apply (_tile_array_item item c h w ts ov P); assumption|].
  fold n.
  split; [rewrite length_map, length_seq; nia|].
  split.
  { rewrite nth_error_map_seq by nia. now rewrite <- Er, <- Eq. }
  split; [reflexivity|].
  split; [now apply (window_shape size c (Z.to_nat P) (Z.to_nat P))|].
  split.
  { intros b y x Hb Hy Hx.
    rewrite (window_px size c (Z.to_nat P) (Z.to_nat P)) by assumption.
    apply (canvas_px (Z.to_nat P) c); assumption. }
  split; [exact Haff|].
  split.
  { rewrite <- (Forall2_length HF). unfold tile_origins.
    rewrite length_prod. rewrite range_elems_from_0 by lia.
    rewrite length_map, length_seq.
    replace (P - ts + 1 - 1) with (P - ts) by lia.
    fold (n_side P ts ov). fold n. nia. }
  split; assumption.
Qed.

Lemma small_item_shape : image_shape 2 2 3 small_item.
Proof. split; [reflexivity|]. repeat constructor. Qed.

Example _tile_array_row_major_small_item :
  exists tiles tile affines t,
    _tile_array [small_item] 2 2 4 = Ok tiles /\
    Z.of_nat (length tiles) = 2 * 2 /\
    nth_error tiles 1 = Some tile /\
    tile = [ [[3; 0]; [6; 0]];  [[9; 0]; [12; 0]] ] /\
    _tile_one_affine (rio.to_gdal north_up) 4 2 2 = Ok affines /\
    nth_error affines 1 = Some t /\
    _affine_from_rowcol (rio.to_gdal north_up) 0 2 = Ok t.
Proof.
  destruct (_tile_array_row_major small_item 2 2 3
              (0#1) (10#1) (0#1) (0#1) (0#1) ((-10)#1) 2 2 4 1
              small_item_shape)
    as (tiles & tile & affines & t & H1 & H2 & H3 & H4 & _ & _ & H7 & _ & H9 & H10);
    try lia; [reflexivity|].
  exists tiles, tile, affines, t.
  repeat split; assumption.
Qed.

(* ===================================================================== *)
(** ** Inversion of monadic code                                          *)
(* ===================================================================== *)

Lemma bind_ok {A B} (m : result A) (k : A -> result B) (y : B) :
  bind m k = Ok y -> exists a, m = Ok a /\ k a = Ok y.
Proof.
  destruct m as [a|e]; simpl; intros H; [now exists a|discriminate].
Qed.

Lemma assert_ok (cond : bool) (msg : string) (u : unit) :
  assert cond msg = Ok u -> cond = true.
Proof. destruct cond; simpl; [reflexivity|discriminate]. Qed.

Lemma assert_false (cond : bool) (msg : string) :
  cond = false -> assert cond msg = Raise (AssertionError msg).
Proof. intros ->. reflexivity. Qed.

Ltac bind_inv H :=
  let a := fresh "a" in
  let Ha := fresh "Ha" in
  apply bind_ok in H; destruct H as [a [Ha H]].

Lemma mapM_length {A B} (f : A -> result B) (l : list A) (ys : list B) :
  mapM f l = Ok ys -> length ys = length l.
Proof.
  revert ys. induction l as [|x tl IH]; simpl; intros ys H.
  - now inversion H.
  - bind_inv H. bind_inv H. inversion H; subst. simpl. f_equal. now apply IH.
Qed.

Lemma mapM_Forall2 {A B} (f : A -> result B) (l : list A) (ys : list B) :
  mapM f l = Ok ys -> Forall2 (fun x y => f x = Ok y) l ys.
Proof.
  revert ys. induction l as [|x tl IH]; simpl; intros ys H.
  - inversion H. constructor.
  - bind_inv H. bind_inv H. inversion H; subst. constructor; auto.
Qed.

Lemma mapM_ext_in {A B} (f g : A -> result B) (l : list A) :
  (forall x, In x l -> f x = g x) -> mapM f l = mapM g l.
Proof.
  induction l as [|x tl IH]; intros H; simpl; [reflexivity|].
  rewrite (H x (or_introl eq_refl)), IH; [reflexivity|].
  intros; apply H; now right.
Qed.

Lemma mapM_all_ok {A B} (f : A -> result B) (g : A -> B) (l : list A) :
  (forall x, In x l -> f x = Ok (g x)) -> mapM f l = Ok (map g l).
Proof.
  induction l as [|x tl IH]; intros H; simpl; [reflexivity|].
  rewrite (H x (or_introl eq_refl)), IH; [reflexivity|].
  intros; apply H; now right.
Qed.

Lemma length_concat_uniform {A} (ll : list (list A)) (n : nat) :
  Forall (fun l => length l = n) ll ->
  length (concat ll) = (length ll * n)%nat.
Proof.
  induction 1 as [|l tl Hl _ IH]; simpl; [reflexivity|].
  rewrite length_app, Hl, IH. reflexivity.
Qed.

Lemma length_flat_map_uniform {A B} (f : A -> list B) (l : list A) (n : nat) :
  (forall x, In x l -> length (f x) = n) ->
  length (flat_map f l) = (length l * n)%nat.
Proof.
  induction l as [|x tl IH]; intros H; simpl; [reflexivity|].
  rewrite length_app, (H x (or_introl eq_refl)), IH; [reflexivity|].
  intros; apply H; now right.
Qed.

Lemma range_elems_length_count (n : Z) :
  0 <= n -> length (range_elems 0 n 1) = Z.to_nat n.
Proof.
  intros Hn. unfold range_elems, range_len.
  rewrite length_map, length_seq.
  change (0 <? 1) with true. cbv iota.
  destruct (Z.ltb_spec 0 n).
  - rewrite Z.div_1_r. lia.
  - lia.
Qed.

(* ===================================================================== *)
(** ** C3                                                                 *)
(* ===================================================================== *)

Lemma tile_img_h5_prepare_store (s : Store) (tile_size overlap target_size : Z) :
  overlap <> 0 ->
  tile_img_h5_prepare (store_file s) tile_size overlap target_size
  = let n := (n_side target_size tile_size overlap) ^ 2 in
    let img_t := map_blocks_tile_array
                   (map (image_astype astype_int16) (s_img s))
                   tile_size overlap target_size n in
    let lbl_t := map_blocks_tile_array
                   (map (fun p => [p])
                        (map (map (map astype_int16)) (s_lbl s)))
                   tile_size overlap target_size n in
    path_t <- _tile_paths (s_path s) n img_t ;;
    epsg_t <- _tile_epsgs (s_epsg s) n img_t ;;
    affine_t <- _tile_affines (s_affine s) target_size tile_size overlap img_t ;;
    Ok (mk_tiled n img_t lbl_t
                 (map float_astype_int16 (s_means s))
                 (map float_astype_int16 (s_stds s))
                 path_t epsg_t affine_t).
Proof.
  intros Hov. unfold tile_img_h5_prepare, n_side.
  cbn [store_file read_int4 read_int3 read_stat_int16 read_str1 read_int1
       read_float2 bind].
  apply Z.eqb_neq in Hov.
  cbn. rewrite Hov. reflexivity.
Qed.

Lemma _tile_paths_ok path n x out :
  _tile_paths path n x = Ok out -> Z.of_nat (length out) = shape0 x.
Proof.
  unfold _tile_paths. intros H. bind_inv H. bind_inv H.
  inversion H; subst. apply assert_ok in Ha0.
  apply Z.eqb_eq in Ha0. now symmetry.
Qed.

Lemma _tile_epsgs_ok epsg n x out :
  _tile_epsgs epsg n x = Ok out -> Z.of_nat (length out) = shape0 x.
Proof.
  unfold _tile_epsgs. destruct (n <? 0); [discriminate|].
  intros H. bind_inv H. inversion H; subst. apply assert_ok in Ha.
  apply Z.eqb_eq in Ha. now symmetry.
Qed.

Lemma _tile_affines_ok affine P ts ov x out :
  _tile_affines affine P ts ov x = Ok out -> Z.of_nat (length out) = shape0 x.
Proof.
  unfold _tile_affines. intros H. bind_inv H. bind_inv H.
  inversion H; subst. apply assert_ok in Ha0.
  apply Z.eqb_eq in Ha0. now symmetry.
Qed.

Lemma da_store_length x n out :
  da_store x n = Ok out ->
  Z.of_nat (length out) = Z.of_nat (length (blocks x)) * n.
Proof.
  unfold da_store. intros H. bind_inv H. inversion H; subst.
  assert (HF := mapM_Forall2 _ _ _ Ha).
  assert (Hlen := mapM_length _ _ _ Ha).
  assert (Hall : Forall (fun l => Z.of_nat (length l) = n) a).
  { clear -HF. induction HF as [|blk tiles l1 l2 Hb _ IH]; constructor; auto.
    bind_inv Hb.
    destruct (Z.eqb_spec (Z.of_nat (length a)) n) as [E|]; [|discriminate].
    injection Hb as <-. exact E. }
  rewrite <- Hlen. clear -Hall.
  induction Hall as [|l tl Hl _ IH]; cbn [concat length]; [lia|].
  rewrite length_app. nia.
Qed.

Lemma create_dataset_ok x :
  1 <= shape0 x -> create_dataset x = Ok tt.
Proof.
  intros H. unfold create_dataset.
  destruct (Z.ltb_spec (shape0 x) 1); [lia|reflexivity].
Qed.

Lemma create_dataset_inv x u :
  create_dataset x = Ok u -> 1 <= shape0 x.
Proof.
  unfold create_dataset.
  destruct (Z.ltb_spec (shape0 x) 1); [discriminate|intros _; assumption].
Qed.

(** Once both datasets can be created, what is left of the write phase
    are the two stores. *)
Lemma tile_img_h5_persist_created t :
  1 <= shape0 (img_tiled t) -> 1 <= shape0 (lbl_tiled t) ->
  tile_img_h5_persist t
  = (img_rows <- da_store (img_tiled t) (n_tiles t) ;;
     lbl_rows <- da_store (lbl_tiled t) (n_tiles t) ;;
     Ok [ ("/img", Int4 img_rows);
          ("/lbl", Int4 lbl_rows);
          ("/img_means", Int1 (img_means t));
          ("/img_stds", Int1 (img_stds t));
          ("/path", Str1 (path_tiled t));
          ("/epsg", Int1 (epsg_tiled t));
          ("/affine", Float2 (affine_tiled t)) ]%string).
Proof.
  intros Hi Hl. unfold tile_img_h5_persist.
  rewrite (create_dataset_ok _ Hi), (create_dataset_ok _ Hl). cbn [bind].
  destruct (da_store (img_tiled t) (n_tiles t)); reflexivity.
Qed.

Lemma tile_img_h5_persist_stores t f :
  tile_img_h5_persist t = Ok f ->
  1 <= shape0 (img_tiled t) /\ 1 <= shape0 (lbl_tiled t) /\
  (img_rows <- da_store (img_tiled t) (n_tiles t) ;;
   lbl_rows <- da_store (lbl_tiled t) (n_tiles t) ;;
   Ok [ ("/img", Int4 img_rows);
        ("/lbl", Int4 lbl_rows);
        ("/img_means", Int1 (img_means t));
        ("/img_stds", Int1 (img_stds t));
        ("/path", Str1 (path_tiled t));
        ("/epsg", Int1 (epsg_tiled t));
        ("/affine", Float2 (affine_tiled t)) ]%string) = Ok f.
Proof.
  intros H.
  assert (Hi : 1 <= shape0 (img_tiled t)).
  { unfold tile_img_h5_persist in H. apply bind_ok in H.
    destruct H as (u & Hu & _). exact (create_dataset_inv _ _ Hu). }
  assert (Hl : 1 <= shape0 (lbl_tiled t)).
  { unfold tile_img_h5_persist in H. apply bind_ok in H.
    destruct H as (u & _ & H). apply bind_ok in H.
    destruct H as (r & _ & H). apply bind_ok in H.
    destruct H as (u' & Hu & _). exact (create_dataset_inv _ _ Hu). }
  split; [exact Hi|]. split; [exact Hl|].
  now rewrite <- (tile_img_h5_persist_created t Hi Hl).
Qed.

Lemma _tile_paths_count path n x :
  path <> [] -> 0 <= n ->
  shape0 x = Z.of_nat (length path) * n ->
  exists out, _tile_paths path n x = Ok out.
Proof.
  intros Hp Hn Hx. unfold _tile_paths.
  destruct path as [|p0 tl]; [congruence|].
  cbn [map py_max bind].
  rewrite (length_flat_map_uniform _ _ (Z.to_nat n)).
  2:{ intros p _. rewrite length_map. now apply range_elems_length_count. }
  rewrite Hx.
  destruct (Z.eqb_spec (Z.of_nat (length (p0 :: tl)) * n)
                       (Z.of_nat (length (p0 :: tl) * Z.to_nat n))) as [_|Hne];
    [|lia].
  cbn [assert bind]. eexists. reflexivity.
Qed.

Lemma _tile_epsgs_count epsg n x :
  0 <= n ->
  shape0 x = Z.of_nat (length epsg) * n ->
  exists out, _tile_epsgs epsg n x = Ok out.
Proof.
  intros Hn Hx. unfold _tile_epsgs.
  destruct (Z.ltb_spec n 0); [lia|].
  rewrite (length_flat_map_uniform _ _ (Z.to_nat n))
    by (intros; apply repeat_length).
  rewrite Hx.
  destruct (Z.eqb_spec (Z.of_nat (length epsg) * n)
                       (Z.of_nat (length epsg * Z.to_nat n))) as [_|Hne];
    [|lia].
  cbn [assert bind]. eexists. reflexivity.
Qed.

Lemma tile_img_h5_completed src ts ov P f :
  tile_img_h5 src ts ov P = Completed f ->
  exists t, tile_img_h5_prepare src ts ov P = Ok t /\
            tile_img_h5_persist t = Ok f.
Proof.
  unfold tile_img_h5.
  destruct (tile_img_h5_prepare src ts ov P) as [t|e]; [|discriminate].
  destruct (tile_img_h5_persist t) as [f'|e] eqn:E; [|discriminate].
  intros H. inversion H; subst. now exists t.
Qed.

Lemma tile_img_h5_prepare_counts (s : Store) (N : nat) ts ov P t :
  length (s_img s) = N -> length (s_lbl s) = N ->
  ov <> 0 ->
  tile_img_h5_prepare (store_file s) ts ov P = Ok t ->
  let n := (n_side P ts ov) ^ 2 in
  n_tiles t = n /\
  length (blocks (img_tiled t)) = N /\
  length (blocks (lbl_tiled t)) = N /\
  shape0 (img_tiled t) = Z.of_nat N * n /\
  shape0 (lbl_tiled t) = Z.of_nat N * n /\
  Z.of_nat (length (path_tiled t)) = Z.of_nat N * n /\
  Z.of_nat (length (epsg_tiled t)) = Z.of_nat N * n /\
  Z.of_nat (length (affine_tiled t)) = Z.of_nat N * n.
Proof.
  intros Hi Hl Hov H n.
  rewrite (tile_img_h5_prepare_store s ts ov P Hov) in H.
  cbv zeta in H. fold n in H.
  bind_inv H. bind_inv H. bind_inv H. inversion H; subst t; clear H.
  cbn [n_tiles img_tiled lbl_tiled path_tiled epsg_tiled affine_tiled].
  apply _tile_paths_ok in Ha. apply _tile_epsgs_ok in Ha0.
  apply _tile_affines_ok in Ha1.
  cbn [map_blocks_tile_array shape0 blocks] in *.
  rewrite !length_map in *. rewrite Hi in *. rewrite Hl.
  repeat split; assumption || reflexivity.
Qed.

(** C3: the Tiler keeps the five per-row arrays parallel.  For a source
    store with N rows, a successful run leaves image rows, label rows,
    identifiers, EPSG entries and geotransforms of leading length
    N * n_tiles each; the destination is opened only after all five
    counts were found equal to N * n_tiles; and a geotransform count
    that differs makes the run fail with the assertion error before
    anything is written. *)
Theorem tiler_keeps_rows_parallel :
  forall (s : Store) (N : nat) (tile_size overlap target_size : Z),
    length (s_img s) = N -> length (s_lbl s) = N ->
    length (s_path s) = N -> length (s_epsg s) = N ->
    length (s_affine s) = N ->
    overlap <> 0 ->
    let n := (n_side target_size tile_size overlap) ^ 2 in
    let run := tile_img_h5 (store_file s) tile_size overlap target_size in
    (forall f, run = Completed f -> parallel_rows f (Z.of_nat N * n)) /\
    (forall t,
        tile_img_h5_prepare (store_file s) tile_size overlap target_size = Ok t ->
        shape0 (img_tiled t) = Z.of_nat N * n /\
        shape0 (lbl_tiled t) = Z.of_nat N * n /\
        Z.of_nat (length (path_tiled t)) = Z.of_nat N * n /\
        Z.of_nat (length (epsg_tiled t)) = Z.of_nat N * n /\
        Z.of_nat (length (affine_tiled t)) = Z.of_nat N * n) /\
    (forall affs,
        mapM (fun a => _tile_one_affine a target_size tile_size overlap)
             (s_affine s) = Ok affs ->
        Z.of_nat (length (concat affs)) <> Z.of_nat N * n ->
        exists msg, run = Aborted (AssertionError msg)).
Proof.
  intros s N ts ov P Hi Hl Hp He Ha Hov n run.
  split; [|split].
  - intros f Hrun. unfold run in Hrun.
    destruct (tile_img_h5_completed _ _ _ _ _ Hrun) as [t [Hprep Hpers]].
    destruct (tile_img_h5_prepare_counts s N ts ov P t Hi Hl Hov Hprep)
      as (En & Bi & Bl & _ & _ & Cp & Ce & Ca).
    fold n in En, Cp, Ce, Ca.
    apply tile_img_h5_persist_stores in Hpers.
    destruct Hpers as (_ & _ & Hpers).
    bind_inv Hpers. bind_inv Hpers. inversion Hpers; subst f; clear Hpers.
    apply da_store_length in Ha0, Ha1.
    rewrite Bi, En in Ha0. rewrite Bl, En in Ha1.
    intros nm Hin. unfold per_row_names in Hin. simpl in Hin.
    destruct Hin as [<-|[<-|[<-|[<-|[<-|[]]]]]];
      (eexists; split; [reflexivity|cbn [rows shape hd]; assumption]).
  - intros t Hprep.
    destruct (tile_img_h5_prepare_counts s N ts ov P t Hi Hl Hov Hprep)
      as (_ & _ & _ & Si & Sl & Cp & Ce & Ca).
    repeat split; assumption.
  - intros affs Hm Hne.
    assert (Hn : 0 <= n) by (unfold n; rewrite Z.pow_2_r; nia).
    assert (HN : s_path s <> []).
    { intros E.
      assert (HN0 : N = 0%nat) by (rewrite <- Hp, E; reflexivity).
      apply mapM_length in Hm. rewrite Ha, HN0 in Hm.
      destruct affs; [|discriminate]. rewrite HN0 in Hne. simpl in Hne. lia. }
    unfold run, tile_img_h5.
    rewrite (tile_img_h5_prepare_store s ts ov P Hov).
    cbv zeta. fold n.
    set (img_t := map_blocks_tile_array _ ts ov P n).
    assert (Hs : shape0 img_t = Z.of_nat N * n).
    { unfold img_t. cbn [map_blocks_tile_array shape0].
      now rewrite length_map, Hi. }
    destruct (_tile_paths_count (s_path s) n img_t HN Hn) as [pt Hpt];
      [now rewrite Hp|].
    destruct (_tile_epsgs_count (s_epsg s) n img_t Hn) as [et Het];
      [now rewrite He|].
    rewrite Hpt, Het. cbn [bind].
    unfold _tile_affines. rewrite Hm. cbn [bind].
    rewrite Hs.
    destruct (Z.eqb_spec (Z.of_nat N * n) (Z.of_nat (length (concat affs))))
      as [E|_]; [congruence|].
    cbn [assert bind]. eexists. reflexivity.
Qed.

Lemma tiler_keeps_rows_parallel_witness :
  let s := small_store in
  let n := (n_side 4 2 2) ^ 2 in
  let run := tile_img_h5 (store_file s) 2 2 4 in
  (forall f, run = Completed f -> parallel_rows f (Z.of_nat 1 * n)) /\
  (forall t,
      tile_img_h5_prepare (store_file s) 2 2 4 = Ok t ->
      shape0 (img_tiled t) = Z.of_nat 1 * n /\
      shape0 (lbl_tiled t) = Z.of_nat 1 * n /\
      Z.of_nat (length (path_tiled t)) = Z.of_nat 1 * n /\
      Z.of_nat (length (epsg_tiled t)) = Z.of_nat 1 * n /\
      Z.of_nat (length (affine_tiled t)) = Z.of_nat 1 * n) /\
  (forall affs,
      mapM (fun a => _tile_one_affine a 4 2 2) (s_affine s) = Ok affs ->
      Z.of_nat (length (concat affs)) <> Z.of_nat 1 * n ->
      exists msg, run = Aborted (AssertionError msg)).
Proof.
  apply (tiler_keeps_rows_parallel small_store 1 2 2 4);
    try reflexivity; lia.
Defined.

(* ===================================================================== *)
(** ** C8                                                                 *)
(* ===================================================================== *)

(** C8 as stated fails: with tile_size = 5 > target_size = 4 and
    overlap = 2 the derived tile count is 0, every row-count check
    passes, the destination is opened, and the failure only comes when
    the /img dataset, which has no rows, is created in it. *)
Lemma oversized_tile_reaches_the_write_phase :
  5 > 4 /\
  (exists e, tile_img_h5 (store_file small_store) 5 2 4 = Interrupted e) /\
  ~ rejected_before_writing (tile_img_h5 (store_file small_store) 5 2 4).
Proof.
  split; [lia|]. split; [eexists; reflexivity|].
  intros [e He]. vm_compute in He. discriminate.
Qed.

Example oversized_tile_fails_at_create_dataset :
  tile_img_h5 (store_file small_store) 5 2 4
  = Interrupted
      (ValueError
         "Chunk shape must not be greater than data shape in any dimension.").
Proof. reflexivity. Qed.

Lemma _tile_one_affine_no_origin affine P ts ov :
  0 < ov -> P < ts -> _tile_one_affine affine P ts ov = Ok [].
Proof.
  intros Hov Hts. unfold _tile_one_affine.
  rewrite !py_range_ok by lia.
  rewrite range_elems_empty by lia. reflexivity.
Qed.

(** C8, amended: with a positive overlap, a non-empty source store and
    tile_size > target_size + overlap, the run fails with the assertion
    error of the geotransform row-count check, before any tile is
    computed and before the destination is opened. *)
Theorem oversized_tile_fails_row_count_check :
  forall (s : Store) (N : nat) (tile_size overlap target_size : Z),
    (0 < N)%nat ->
    length (s_img s) = N -> length (s_path s) = N ->
    length (s_epsg s) = N -> length (s_affine s) = N ->
    0 < overlap ->
    tile_size > target_size + overlap ->
    tile_img_h5 (store_file s) tile_size overlap target_size
    = Aborted (AssertionError "img_tiled.shape[0] != affine_tiled.shape[0]").
Proof.
  intros s N ts ov P HN Hi Hp He Ha Hov Hts.
  unfold tile_img_h5.
  rewrite (tile_img_h5_prepare_store s ts ov P) by lia.
  cbv zeta.
  set (n := n_side P ts ov ^ 2).
  assert (Hside : n_side P ts ov <= -1).
  { unfold n_side.
    assert ((P - ts) / ov < -1) by (apply Z.div_lt_upper_bound; lia). lia. }
  assert (Hn : 1 <= n) by (unfold n; rewrite Z.pow_2_r; nia).
  set (img_t := map_blocks_tile_array _ ts ov P n).
  assert (Hs : shape0 img_t = Z.of_nat N * n).
  { unfold img_t. cbn [map_blocks_tile_array shape0].
    now rewrite length_map, Hi. }
  destruct (_tile_paths_count (s_path s) n img_t) as [pt Hpt];
    [destruct (s_path s); [simpl in Hp; lia|discriminate] | lia
     | now rewrite Hp |].
  destruct (_tile_epsgs_count (s_epsg s) n img_t) as [et Het];
    [lia | now rewrite He |].
  rewrite Hpt, Het. cbn [bind].
  unfold _tile_affines.
  rewrite (mapM_all_ok _ (fun _ => [])).
  2:{ intros a _. apply _tile_one_affine_no_origin; lia. }
  cbn [bind].
  replace (length (concat (map (fun _ : list Q => []) (s_affine s))))
    with 0%nat.
  2:{ clear. induction (s_affine s); simpl; auto. }
  rewrite Hs.
  destruct (Z.eqb_spec (Z.of_nat N * n) (Z.of_nat 0)) as [E|_]; [nia|].
  reflexivity.
Qed.

Lemma oversized_tile_fails_row_count_check_witness :
  tile_img_h5 (store_file small_store) 7 2 4
  = Aborted (AssertionError "img_tiled.shape[0] != affine_tiled.shape[0]").
Proof.
  apply (oversized_tile_fails_row_count_check small_store 1 7 2 4);
    try reflexivity; lia.
Defined.

(* ===================================================================== *)
(** ** C9                                                                 *)
(* ===================================================================== *)

Lemma astype_int16_range (v : Z) : -32768 <= astype_int16 v <= 32767.
Proof.
  unfold astype_int16.
  assert (0 <= (v + 32768) mod 65536 < 65536) by (apply Z.mod_pos_bound; lia).
  lia.
Qed.

Lemma astype_int16_id (v : Z) :
  astype_int16 v = v <-> -32768 <= v <= 32767.
Proof.
  split.
  - intros <-. apply astype_int16_range.
  - intros H. unfold astype_int16. rewrite Z.mod_small by lia. lia.
Qed.

Lemma astype_int16_wraps (v : Z) :
  32768 <= v <= 65535 -> astype_int16 v = v - 65536.
Proof.
  intros H. unfold astype_int16.
  replace (v + 32768) with ((v - 32768) + 1 * 65536) by lia.
  rewrite Z.mod_add by lia. rewrite Z.mod_small by lia. lia.
Qed.

Lemma trunc_integer (q : Q) (z : Z) : (q == inject_Z z)%Q -> trunc q = z.
Proof.
  unfold Qeq, trunc, inject_Z. simpl. intros H.
  rewrite Z.mul_1_r in H. rewrite H.
  apply Z.quot_mul. lia.
Qed.

Lemma float_astype_int16_id (q : Q) :
  (inject_Z (float_astype_int16 q) == q)%Q
  <-> exists z, -32768 <= z <= 32767 /\ (q == inject_Z z)%Q.
Proof.
  unfold float_astype_int16. split.
  - intros H. exists (astype_int16 (trunc q)). split.
    + apply astype_int16_range.
    + now symmetry.
  - intros [z [Hz Hq]].
    rewrite (trunc_integer q z Hq).
    rewrite (proj2 (astype_int16_id z) Hz). now symmetry.
Qed.

Lemma px_image_astype (cast : Z -> Z) (im : image) (b y x : nat) :
  cast 0 = 0 ->
  px (image_astype cast im) b y x = cast (px im b y x).
Proof.
  intros H0. unfold px, image_astype.
  destruct (Nat.lt_ge_cases b (length im)) as [Hb|Hb].
  2:{ rewrite (nth_overflow (map (map (map cast)) im) [])
        by (rewrite length_map; lia).
      rewrite (nth_overflow im []) by lia.
      destruct y, x; simpl; now rewrite H0. }
  rewrite (nth_map_lt _ _ _ [] []) by lia.
  set (p := nth b im []).
  destruct (Nat.lt_ge_cases y (length p)) as [Hy|Hy].
  2:{ rewrite (nth_overflow (map (map cast) p) [])
        by (rewrite length_map; lia).
      rewrite (nth_overflow p []) by lia.
      destruct x; simpl; now rewrite H0. }
  rewrite (nth_map_lt _ _ _ [] []) by lia.
  set (r := nth y p []).
  destruct (Nat.lt_ge_cases x (length r)) as [Hx|Hx].
  2:{ rewrite (nth_overflow (map cast r) 0) by (rewrite length_map; lia).
      rewrite (nth_overflow r 0) by lia. now rewrite H0. }
  now rewrite (nth_map_lt _ _ _ 0 0) by lia.
Qed.

Lemma image_astype_shape (cast : Z -> Z) (c h w : nat) (im : image) :
  image_shape c h w im -> image_shape c h w (image_astype cast im).
Proof.
  intros [Hc Hp]. unfold image_astype. split; [now rewrite length_map|].
  apply Forall_map. revert Hp. apply Forall_impl. intros p [Hh Hw].
  split; [now rewrite length_map|].
  apply Forall_map. revert Hw. apply Forall_impl. intros r Hr.
  now rewrite length_map.
Qed.

Lemma astype_uint16_id (v : Z) : 0 <= v < 65536 -> astype_uint16 v = v.
Proof. intros H. unfold astype_uint16. now apply Z.mod_small. Qed.

Lemma plane_astype_shape (cast : Z -> Z) (h w : nat) (p : plane) :
  plane_shape h w p -> plane_shape h w (map (map cast) p).
Proof.
  intros [Hh Hw]. split; [now rewrite length_map|].
  apply Forall_map. revert Hw. apply Forall_impl. intros r Hr.
  now rewrite length_map.
Qed.

Lemma plane_astype_nth (cast : Z -> Z) (p : plane) (i j : nat) :
  cast 0 = 0 ->
  nth j (nth i (map (map cast) p) []) 0 = cast (nth j (nth i p []) 0).
Proof.
  intros H0. exact (px_image_astype cast [p] 0 i j H0).
Qed.

Lemma Forall_nth_default {A} (P : A -> Prop) (l : list A) (d : A) (n : nat) :
  Forall P l -> P d -> P (nth n l d).
Proof.
  intros Hl Hd. revert n. induction Hl as [|x tl Hx _ IH]; intros [|n];
    simpl; auto.
Qed.

(** Every entry of an array of unsigned 16-bit values, and the zero
    read beyond it, is its own cast. *)
Lemma in_uint16_px (im : image) (b y x : nat) :
  in_uint16 im -> 0 <= px im b y x < 65536.
Proof.
  intros H. unfold px.
  apply Forall_nth_default; [|lia].
  apply Forall_nth_default; [|constructor].
  apply Forall_nth_default; [exact H|constructor].
Qed.

Lemma astype_uint16_idem (v : Z) :
  astype_uint16 (astype_uint16 v) = astype_uint16 v.
Proof. unfold astype_uint16. now rewrite Z.mod_mod. Qed.

Lemma mapM_map {A B C} (f : B -> result C) (g : A -> B) (l : list A) :
  mapM f (map g l) = mapM (fun x => f (g x)) l.
Proof.
  induction l as [|x tl IH]; simpl; [reflexivity|]. now rewrite IH.
Qed.

Lemma mapM_weaken {A B} (f g : A -> result B) (l : list A) (ys : list B) :
  (forall x y, f x = Ok y -> g x = Ok y) ->
  mapM f l = Ok ys -> mapM g l = Ok ys.
Proof.
  intros Hfg. revert ys. induction l as [|x tl IH]; simpl; intros ys H.
  - exact H.
  - bind_inv H. bind_inv H. inversion H; subst.
    rewrite (Hfg _ _ Ha), (IH _ Ha0). reflexivity.
Qed.

Lemma da_store_blocks (x : list image) ts ov P n rows :
  da_store (map_blocks_tile_array x ts ov P n) n = Ok rows ->
  exists per_item,
    mapM (fun item => _tile_array [item] ts ov P) x = Ok per_item /\
    rows = concat per_item.
Proof.
  unfold da_store. cbn [map_blocks_tile_array blocks].
  intros H. bind_inv H. inversion H; subst rows; clear H.
  exists a. split; [|reflexivity].
  rewrite mapM_map in Ha.
  revert Ha. apply mapM_weaken. intros item y Hy.
  bind_inv Hy.
  destruct (Z.of_nat (length a0) =? n); [|discriminate].
  congruence.
Qed.

Lemma tile_img_h5_completed_overlap src ts ov P f :
  tile_img_h5 src ts ov P = Completed f -> ov <> 0.
Proof.
  intros H ->. unfold tile_img_h5, tile_img_h5_prepare in H.
  repeat match type of H with
         | context [bind ?m _] =>
             match m with
             | bind _ _ => fail 1
             | _ => destruct m; cbn [bind] in H; try discriminate
             end
         end.
Qed.

(** C9: the Tiler casts /img, /lbl, /img_means and /img_stds to signed
    16-bit integers before tiling and persisting.  Every successful run
    stores the tiles of the cast images and labels and the cast
    statistics; a pixel survives the cast exactly when it lies in
    -32768..32767, a uint16 pixel of 32768 or more comes out 65536
    lower, and a statistic survives exactly when it is an integer of
    that range (any fractional part is dropped). *)
Theorem tiler_casts_to_int16 :
  forall (s : Store) (tile_size overlap target_size : Z) (f : h5file),
    tile_img_h5 (store_file s) tile_size overlap target_size = Completed f ->
    (exists img_tiles lbl_tiles,
        mapM (fun item =>
                _tile_array [image_astype astype_int16 item]
                            tile_size overlap target_size)
             (s_img s) = Ok img_tiles /\
        mapM (fun p =>
                _tile_array [[map (map astype_int16) p]]
                            tile_size overlap target_size)
             (s_lbl s) = Ok lbl_tiles /\
        h5_lookup f "/img" = Some (Int4 (concat img_tiles)) /\
        h5_lookup f "/lbl" = Some (Int4 (concat lbl_tiles)) /\
        h5_lookup f "/img_means"
        = Some (Int1 (map float_astype_int16 (s_means s))) /\
        h5_lookup f "/img_stds"
        = Some (Int1 (map float_astype_int16 (s_stds s)))) /\
    (forall (im : image) (b y x : nat),
        px (image_astype astype_int16 im) b y x = astype_int16 (px im b y x)) /\
    (forall v, astype_int16 v = v <-> -32768 <= v <= 32767) /\
    (forall v, 32768 <= v <= 65535 -> astype_int16 v = v - 65536) /\
    (forall q, (inject_Z (float_astype_int16 q) == q)%Q
               <-> exists z, -32768 <= z <= 32767 /\ (q == inject_Z z)%Q).
Proof.
  intros s ts ov P f Hrun.
  split; [|split; [|split; [|split]]].
  - assert (Hov := tile_img_h5_completed_overlap _ _ _ _ _ Hrun).
    destruct (tile_img_h5_completed _ _ _ _ _ Hrun) as [t [Hprep Hpers]].
    rewrite (tile_img_h5_prepare_store s ts ov P Hov) in Hprep.
    cbv zeta in Hprep.
    bind_inv Hprep. bind_inv Hprep. bind_inv Hprep.
    inversion Hprep; subst t; clear Hprep.
    apply tile_img_h5_persist_stores in Hpers.
    destruct Hpers as (_ & _ & Hpers).
    cbn [n_tiles img_tiled lbl_tiled img_means img_stds path_tiled
         epsg_tiled affine_tiled] in Hpers.
    bind_inv Hpers. bind_inv Hpers. inversion Hpers; subst f; clear Hpers.
    apply da_store_blocks in Ha2, Ha3.
    destruct Ha2 as [img_tiles [Hi ->]]. destruct Ha3 as [lbl_tiles [Hl ->]].
    rewrite mapM_map in Hi. rewrite !mapM_map in Hl.
    exists img_tiles, lbl_tiles.
    repeat split; assumption || reflexivity.
  - intros. now apply px_image_astype.
  - apply astype_int16_id.
  - apply astype_int16_wraps.
  - apply float_astype_int16_id.
Qed.

Lemma tiler_casts_to_int16_witness :
  exists f,
    tile_img_h5 (store_file small_store) 2 2 4 = Completed f /\
    h5_lookup f "/img"
    = Some (Int4 [ [[[1; 2]; [4; 5]]]; [[[3; 0]; [-25536; 0]]];
                   [[[0; 0]; [0; 0]]]; [[[0; 0]; [0; 0]]] ]) /\
    h5_lookup f "/img_means" = Some (Int1 [6675]) /\
    (forall v, 32768 <= v <= 65535 -> astype_int16 v = v - 65536).
Proof.
  eexists. split; [reflexivity|].
  split; [reflexivity|]. split; [reflexivity|].
  exact (proj1 (proj2 (proj2 (proj2
           (tiler_casts_to_int16 small_store 2 2 4 _ eq_refl))))).
Defined.

(* ===================================================================== *)
(** ** C5                                                                 *)
(* ===================================================================== *)

Lemma rio_open_found fs p r :
  fs_lookup fs p = Some r -> rio_open fs p = Ok r.
Proof. unfold rio_open. now intros ->. Qed.

Lemma rio_open_ok fs p r :
  rio_open fs p = Ok r -> fs_lookup fs p = Some r.
Proof.
  unfold rio_open. destruct (fs_lookup fs p); [|discriminate].
  now intros [= ->].
Qed.

Lemma raster_band_shape (r : Raster) (i : Z) :
  raster_wf r -> 1 <= i <= count r ->
  plane_shape (Z.to_nat (height r)) (Z.to_nat (width r))
              (nth (Z.to_nat (i - 1)) (pixels r) []).
Proof.
  intros (_ & _ & _ & _ & Hp) Hi. unfold count in Hi.
  rewrite Forall_forall in Hp. apply Hp, nth_In. lia.
Qed.

Lemma plane_shape_w (h w : nat) (p : plane) :
  plane_shape h w p -> (0 < h)%nat -> plane_w p = w.
Proof.
  intros [Hh Hw] H0. unfold plane_w.
  destruct p as [|r rows]; [simpl in Hh; lia|].
  now apply Forall_inv in Hw.
Qed.

Lemma read_band_ok (r : Raster) (i : Z) :
  1 <= i <= count r ->
  read_band r i = Ok (nth (Z.to_nat (i - 1)) (pixels r) []).
Proof.
  intros Hi. unfold read_band.
  destruct (Z.leb_spec 1 i); [|lia].
  destruct (Z.leb_spec i (count r)); [|lia]. reflexivity.
Qed.

Lemma read_band_inv (r : Raster) (i : Z) (p : plane) :
  read_band r i = Ok p ->
  1 <= i <= count r /\ p = nth (Z.to_nat (i - 1)) (pixels r) [].
Proof.
  unfold read_band.
  destruct (Z.leb_spec 1 i); [|discriminate].
  destruct (Z.leb_spec i (count r)); [|discriminate].
  simpl. intros [= <-]. split; [lia|reflexivity].
Qed.

(** The bottom/right zero padding of one band, pixel by pixel. *)
Lemma da_pad2_spec (h w : nat) (p : plane) (pad_h pad_w : Z) :
  plane_shape h w p -> (0 < h)%nat -> 0 <= pad_h -> 0 <= pad_w ->
  exists padded,
    da_pad2 p pad_h pad_w = Ok padded /\
    plane_shape (h + Z.to_nat pad_h) (w + Z.to_nat pad_w) padded /\
    forall i j, nth j (nth i padded []) 0
                = if (i <? h)%nat && (j <? w)%nat
                  then nth j (nth i p []) 0 else 0.
Proof.
  intros Hs Hh Hph Hpw. unfold da_pad2.
  destruct (Z.ltb_spec pad_h 0); [lia|].
  destruct (Z.ltb_spec pad_w 0); [lia|]. cbn [orb].
  rewrite (plane_shape_w h w p Hs Hh).
  eexists. split; [reflexivity|]. split.
  - now apply pad_plane_shape.
  - intros i j. now apply pad_plane_px.
Qed.

Lemma read_bands_ok (r : Raster) (bands : list Z) :
  Forall (fun i => 1 <= i <= count r) bands ->
  read_bands r bands
  = Ok (map (fun i => nth (Z.to_nat (i - 1)) (pixels r) []) bands).
Proof.
  intros H. unfold read_bands. apply mapM_all_ok.
  rewrite Forall_forall in H. intros i Hi. now apply read_band_ok, H.
Qed.

Lemma read_bands_inv (r : Raster) (bands : list Z) (data : image) :
  read_bands r bands = Ok data ->
  Forall (fun i => 1 <= i <= count r) bands /\
  data = map (fun i => nth (Z.to_nat (i - 1)) (pixels r) []) bands.
Proof.
  unfold read_bands. revert data.
  induction bands as [|i tl IH]; simpl; intros data H.
  - inversion H. split; [constructor|reflexivity].
  - bind_inv H. bind_inv H. inversion H; subst data.
    apply read_band_inv in Ha. destruct Ha as [Hi ->].
    destruct (IH _ Ha0) as [Htl ->]. split; [now constructor|reflexivity].
Qed.

(** The padded stack of the selected bands of a raster. *)
Lemma da_pad3_bands (r : Raster) (bands : list Z) (pad_h pad_w : Z) :
  raster_wf r ->
  Forall (fun i => 1 <= i <= count r) bands ->
  0 <= pad_h -> 0 <= pad_w ->
  let data := map (fun i => nth (Z.to_nat (i - 1)) (pixels r) []) bands in
  let h := Z.to_nat (height r) in
  let w := Z.to_nat (width r) in
  exists packed,
    da_pad3 data pad_h pad_w = Ok packed /\
    image_shape (length bands) (h + Z.to_nat pad_h) (w + Z.to_nat pad_w)
                packed /\
    forall c i j, (c < length bands)%nat ->
      px packed c i j
      = if (i <? h)%nat && (j <? w)%nat
        then px (pixels r) (Z.to_nat (nth c bands 0 - 1)) i j else 0.
Proof.
  intros Hwf Hb Hph Hpw data h w. unfold da_pad3.
  destruct (Z.ltb_spec pad_h 0); [lia|].
  destruct (Z.ltb_spec pad_w 0); [lia|]. cbn [orb].
  assert (Hh : (0 < h)%nat) by (destruct Hwf as (? & ? & _); unfold h; lia).
  assert (Hdata : Forall (plane_shape h w) data).
  { unfold data. apply Forall_map. revert Hb. apply Forall_impl.
    intros i Hi. now apply raster_band_shape. }
  assert (Ew : forall d, d = data -> d <> [] -> image_w d = w).
  { intros d -> Hne. destruct data as [|p0 tl]; [congruence|].
    apply Forall_inv in Hdata. simpl. now apply (plane_shape_w h w). }
  eexists. split; [reflexivity|]. split.
  - split; [unfold data; now rewrite !length_map|].
    apply Forall_map.
    destruct data as [|p0 tl] eqn:E; [constructor|].
    rewrite (Ew (p0 :: tl) eq_refl ltac:(discriminate)).
    revert Hdata. apply Forall_impl. intros p Hp. now apply pad_plane_shape.
  - intros c i j Hc. unfold px.
    assert (Hcd : (c < length data)%nat) by (unfold data; now rewrite length_map).
    rewrite (nth_map_lt _ _ _ [] []) by exact Hcd.
    rewrite (Ew data eq_refl) by (destruct data; [simpl in Hcd; lia|discriminate]).
    rewrite (pad_plane_px h w).
    2:{ rewrite Forall_forall in Hdata. apply Hdata, nth_In, Hcd. }
    unfold data. rewrite (nth_map_lt _ _ _ [] 0) by exact Hc. reflexivity.
Qed.

Lemma fold_left_max_spec (tl : list Z) (x : Z) :
  let m := fold_left Z.max tl x in
  x <= m /\ Forall (fun y => y <= m) tl /\ (m = x \/ In m tl).
Proof.
  revert x. induction tl as [|y tl IH]; intros x; simpl.
  - split; [lia|]. split; [constructor|now left].
  - destruct (IH (Z.max x y)) as (H1 & H2 & H3).
    split; [lia|]. split; [constructor; [lia|exact H2]|].
    destruct H3 as [H3|H3]; [|now right; right].
    destruct (Z.max_spec x y) as [[_ E]|[_ E]]; rewrite E in *.
    + right. left. now symmetry.
    + now left.
Qed.

Lemma py_max_spec (l : list Z) (m : Z) :
  py_max l = Ok m -> Forall (fun y => y <= m) l /\ In m l.
Proof.
  destruct l as [|x tl]; simpl; [discriminate|].
  intros [= <-]. destruct (fold_left_max_spec tl x) as (H1 & H2 & H3).
  split; [now constructor|].
  destruct H3 as [H3|H3]; [left; now symmetry|now right].
Qed.

Lemma _derive_metadata_ok fs p m :
  _derive_metadata fs p = Ok m ->
  exists r, fs_lookup fs p = Some r /\ m = metadata_of r.
Proof.
  unfold _derive_metadata. intros H. bind_inv H.
  apply rio_open_ok in Ha. inversion H. now exists a.
Qed.

(** What a successful preparation has established. *)
Lemma convert_img_to_h5_prepare_ok fnmatch fs file_glob label_glob
      image_bands pk :
  convert_img_to_h5_prepare fnmatch fs file_glob label_glob image_bands
  = Ok pk ->
  exists rasters,
    l_images pk = filter (fun i => negb (fnmatch (name i) label_glob))
                         (_rglob_with_links fnmatch fs file_glob) /\
    l_labels pk = flat_map (fun i => glob fnmatch fs (parent i) label_glob)
                           (l_images pk) /\
    length (l_images pk) = length (l_labels pk) /\
    rasters <> [] /\
    Forall2 (fun p r => fs_lookup fs p = Some r) (l_images pk) rasters /\
    check_number_bands image_bands (map count rasters)
    = Ok (selected_bands pk) /\
    py_max (map width rasters) = Ok (max_width pk) /\
    py_max (map height rasters) = Ok (max_height pk) /\
    path_arr pk = map stem (l_images pk) /\
    epsg_arr pk = map epsg_code rasters /\
    affine_arr pk = map (fun r => rio.to_gdal (transform r)) rasters.
Proof.
  unfold convert_img_to_h5_prepare. intros H.
  bind_inv H. apply assert_ok, Nat.eqb_eq in Ha.
  bind_inv H. rename a0 into md.
  assert (Hmd : exists rasters,
             Forall2 (fun p r => fs_lookup fs p = Some r)
                     (filter (fun i => negb (fnmatch (name i) label_glob))
                             (_rglob_with_links fnmatch fs file_glob))
                     rasters /\
             md = map metadata_of rasters).
  { apply mapM_Forall2 in Ha0. clear -Ha0.
    induction Ha0 as [|p m ps ms Hpm _ IH].
    - exists []. split; [constructor|reflexivity].
    - destruct IH as [rs [HF ->]].
      apply _derive_metadata_ok in Hpm. destruct Hpm as [r [Hr ->]].
      exists (r :: rs). split; [now constructor|reflexivity]. }
  destruct Hmd as [rasters [HF ->]].
  bind_inv H.
  assert (Hne : rasters <> []).
  { intros ->. discriminate. }
  rewrite !map_map in H. cbn [metadata_of] in H.
  bind_inv H. bind_inv H. bind_inv H. inversion H; subst pk; clear H.
  cbn [l_images l_labels max_width max_height selected_bands path_arr
       epsg_arr affine_arr].
  exists rasters. repeat split; try assumption; try reflexivity.
Qed.

(** The file a successful conversion leaves behind. *)
Lemma convert_img_to_h5_completed fnmatch np_sqrt fs file_glob label_glob
      image_bands f :
  convert_img_to_h5 fnmatch np_sqrt fs file_glob label_glob image_bands
  = Completed f ->
  exists pk imgs lbls,
    convert_img_to_h5_prepare fnmatch fs file_glob label_glob image_bands
    = Ok pk /\
    mapM (fun p => _load_img fs p (max_width pk) (max_height pk)
                             (selected_bands pk)) (l_images pk) = Ok imgs /\
    mapM (fun p => _load_lbl fs p (max_width pk) (max_height pk))
         (l_labels pk) = Ok lbls /\
    let stored := map (image_astype astype_uint16) imgs in
    f = [ ("/img", Int4 stored);
          ("/lbl", Int3 (map (map (map astype_uint16)) lbls));
          ("/path", Str1 (path_arr pk));
          ("/epsg", Int1 (epsg_arr pk));
          ("/affine", Float2 (affine_arr pk));
          ("/img_means",
           Float1 (map (fun b => np_mean (band_values stored b))
                       (seq 0 (block_c stored))));
          ("/img_stds",
           Float1 (map (fun b => np_sqrt (np_var (band_values stored b)))
                       (seq 0 (block_c stored)))) ]%string.
Proof.
  unfold convert_img_to_h5.
  destruct (convert_img_to_h5_prepare fnmatch fs file_glob label_glob
                                      image_bands) as [pk|e]; [|discriminate].
  destruct (f0 <- to_hdf5 fs pk ;; _compute_statistics np_sqrt f0)
    as [f'|e] eqn:E; [|discriminate].
  intros [= <-]. bind_inv E. unfold to_hdf5 in Ha.
  bind_inv Ha. bind_inv Ha. inversion Ha; subst a; clear Ha.
  cbn [_compute_statistics h5_get abs_name h5_lookup String.eqb Ascii.eqb
       Bool.eqb bind app] in E.
  inversion E; subst f'; clear E.
  exists pk, a0, a1. repeat split; assumption.
Qed.

Lemma _load_img_spec fs p r max_width max_height bands :
  fs_lookup fs p = Some r -> raster_wf r ->
  height r <= max_height -> width r <= max_width ->
  Forall (fun i => 1 <= i <= count r) bands ->
  exists packed,
    _load_img fs p max_width max_height bands = Ok packed /\
    image_shape (length bands) (Z.to_nat max_height) (Z.to_nat max_width)
                packed /\
    forall c i j, (c < length bands)%nat ->
      px packed c i j
      = if (i <? Z.to_nat (height r))%nat && (j <? Z.to_nat (width r))%nat
        then px (pixels r) (Z.to_nat (nth c bands 0 - 1)) i j else 0.
Proof.
  intros Hp Hwf Hh Hw Hb. unfold _load_img.
  rewrite (rio_open_found _ _ _ Hp). cbn [bind].
  rewrite (read_bands_ok r bands Hb). cbn [bind].
  destruct (da_pad3_bands r bands (max_height - height r)
                          (max_width - width r) Hwf Hb)
    as (packed & E & Hs & Hpx); [lia|lia|].
  exists packed. split; [exact E|]. split; [|exact Hpx].
  destruct Hwf as (? & ? & _).
  replace (Z.to_nat max_height)
    with (Z.to_nat (height r) + Z.to_nat (max_height - height r))%nat by lia.
  replace (Z.to_nat max_width)
    with (Z.to_nat (width r) + Z.to_nat (max_width - width r))%nat by lia.
  exact Hs.
Qed.

Lemma _load_lbl_spec fs p l max_width max_height :
  fs_lookup fs (mk_path (parent p) "label.tif") = Some l -> raster_wf l ->
  height l <= max_height -> width l <= max_width ->
  exists packed,
    _load_lbl fs p max_width max_height = Ok packed /\
    plane_shape (Z.to_nat max_height) (Z.to_nat max_width) packed /\
    forall i j,
      nth j (nth i packed []) 0
      = if (i <? Z.to_nat (height l))%nat && (j <? Z.to_nat (width l))%nat
        then px (pixels l) 0 i j else 0.
Proof.
  intros Hp Hwf Hh Hw. unfold _load_lbl.
  rewrite (rio_open_found _ _ _ Hp). cbn [bind].
  assert (H1 : 1 <= 1 <= count l)
    by (destruct Hwf as (_ & _ & ? & _); unfold count; lia).
  rewrite (read_band_ok l 1 H1). cbn [bind].
  assert (Hs := raster_band_shape l 1 Hwf H1).
  destruct Hwf as (? & ? & _).
  destruct (da_pad2_spec _ _ _ (max_height - height l) (max_width - width l) Hs)
    as (packed & E & Hsh & Hpx); [lia|lia|lia|].
  exists packed. split; [exact E|]. split.
  - replace (Z.to_nat max_height)
      with (Z.to_nat (height l) + Z.to_nat (max_height - height l))%nat by lia.
    replace (Z.to_nat max_width)
      with (Z.to_nat (width l) + Z.to_nat (max_width - width l))%nat by lia.
    exact Hsh.
  - exact Hpx.
Qed.

Lemma fs_lookup_In fs p r :
  fs_lookup fs p = Some r -> exists q, In (q, r) fs.
Proof.
  induction fs as [|[q r'] tl IH]; simpl; [discriminate|].
  destruct (path_eqb q p).
  - intros [= ->]. exists q. now left.
  - intros H. destruct (IH H) as [q' Hq']. exists q'. now right.
Qed.

Lemma fs_lookup_wf fs p r :
  Forall (fun e => raster_wf (snd e)) fs ->
  fs_lookup fs p = Some r -> raster_wf r.
Proof.
  intros Hall H. destruct (fs_lookup_In _ _ _ H) as [q Hq].
  rewrite Forall_forall in Hall. exact (Hall _ Hq).
Qed.

Lemma da_pad2_inv p pad_h pad_w x :
  da_pad2 p pad_h pad_w = Ok x -> 0 <= pad_h /\ 0 <= pad_w.
Proof.
  unfold da_pad2.
  destruct (Z.ltb_spec pad_h 0); [discriminate|].
  destruct (Z.ltb_spec pad_w 0); [discriminate|]. intros _. lia.
Qed.

Lemma da_pad3_inv a pad_h pad_w x :
  da_pad3 a pad_h pad_w = Ok x -> 0 <= pad_h /\ 0 <= pad_w.
Proof.
  unfold da_pad3.
  destruct (Z.ltb_spec pad_h 0); [discriminate|].
  destruct (Z.ltb_spec pad_w 0); [discriminate|]. intros _. lia.
Qed.

(** C5, amended: in the store of a successful conversion, the canvas
    (H, W) is the largest height and the largest width over the probed
    images; row k of /img has shape [C, H, W] and holds the selected
    bands of image k, cast to uint16, in its upper-left h x w corner
    and 0 elsewhere; row k of /lbl has shape [H, W] and holds band 1 of
    the label file, cast to uint16, in its upper-left corner and 0
    elsewhere.  Where the pixels of the file fit 16 unsigned bits the
    row holds them as they are. *)
Theorem packer_pads_bottom_and_right :
  forall (fnmatch : string -> string -> bool) (np_sqrt : Q -> Q)
         (fs : filesystem) (file_glob label_glob : string)
         (image_bands : option (list Z)) (f : h5file),
    Forall (fun e => raster_wf (snd e)) fs ->
    convert_img_to_h5 fnmatch np_sqrt fs file_glob label_glob image_bands
    = Completed f ->
    exists pk rasters imgs lbls,
      convert_img_to_h5_prepare fnmatch fs file_glob label_glob image_bands
      = Ok pk /\
      Forall2 (fun p r => fs_lookup fs p = Some r) (l_images pk) rasters /\
      let H := max_height pk in
      let W := max_width pk in
      let bands := selected_bands pk in
      Forall (fun r => height r <= H /\ width r <= W) rasters /\
      In H (map height rasters) /\ In W (map width rasters) /\
      h5_lookup f "/img" = Some (Int4 imgs) /\
      h5_lookup f "/lbl" = Some (Int3 lbls) /\
      (forall k r,
          nth_error rasters k = Some r ->
          exists packed,
            nth_error imgs k = Some packed /\
            image_shape (length bands) (Z.to_nat H) (Z.to_nat W) packed /\
            (forall c i j, (c < length bands)%nat ->
               px packed c i j
               = astype_uint16
                   (if (i <? Z.to_nat (height r))%nat
                       && (j <? Z.to_nat (width r))%nat
                    then px (pixels r) (Z.to_nat (nth c bands 0 - 1)) i j
                    else 0)) /\
            (in_uint16 (pixels r) ->
             forall c i j, (c < length bands)%nat ->
               px packed c i j
               = if (i <? Z.to_nat (height r))%nat
                    && (j <? Z.to_nat (width r))%nat
                 then px (pixels r) (Z.to_nat (nth c bands 0 - 1)) i j
                 else 0)) /\
      (forall k p,
          nth_error (l_labels pk) k = Some p ->
          exists l packed,
            fs_lookup fs (mk_path (parent p) "label.tif") = Some l /\
            nth_error lbls k = Some packed /\
            plane_shape (Z.to_nat H) (Z.to_nat W) packed /\
            (forall i j,
               nth j (nth i packed []) 0
               = astype_uint16
                   (if (i <? Z.to_nat (height l))%nat
                       && (j <? Z.to_nat (width l))%nat
                    then px (pixels l) 0 i j else 0)) /\
            (in_uint16 (pixels l) ->
             forall i j,
               nth j (nth i packed []) 0
               = if (i <? Z.to_nat (height l))%nat
                    && (j <? Z.to_nat (width l))%nat
                 then px (pixels l) 0 i j else 0)).
Proof.
  intros fnmatch np_sqrt fs fg lg ib f Hfs Hrun.
  destruct (convert_img_to_h5_completed _ _ _ _ _ _ _ Hrun)
    as (pk & imgs & lbls & Hprep & Himgs & Hlbls & ->).
  destruct (convert_img_to_h5_prepare_ok _ _ _ _ _ _ Hprep)
    as (rasters & _ & _ & _ & _ & HF & _ & Hmw & Hmh & _).
  destruct (py_max_spec _ _ Hmw) as [Hw_le Hw_in].
  destruct (py_max_spec _ _ Hmh) as [Hh_le Hh_in].
  exists pk, rasters, (map (image_astype astype_uint16) imgs),
         (map (map (map astype_uint16)) lbls).
  split; [exact Hprep|]. split; [exact HF|]. cbv zeta.
  split.
  { rewrite Forall_map in Hw_le, Hh_le.
    rewrite Forall_forall in *. intros r Hr. split; auto. }
  split; [exact Hh_in|]. split; [exact Hw_in|].
  split; [reflexivity|]. split; [reflexivity|].
  apply mapM_Forall2 in Himgs, Hlbls.
  assert (Hwrap : forall v : Z, 0 <= v < 65536 ->
                                astype_uint16 (if true then v else 0) = v)
    by (intros v Hv; now apply astype_uint16_id).
  split.
  - intros k r Hk.
    assert (Hp : exists p, nth_error (l_images pk) k = Some p /\
                           fs_lookup fs p = Some r).
    { clear -HF Hk. revert k Hk.
      induction HF as [|p r' ps rs Hpr _ IH]; intros k Hk.
      - destruct k; discriminate.
      - destruct k as [|k]; simpl in *.
        + inversion Hk; subst. now exists p.
        + now apply IH. }
    destruct Hp as (p & Hkp & Hpr).
    destruct (Forall2_nth_error _ _ _ _ _ Himgs Hkp) as (loaded & Hkx & Hload).
    exists (image_astype astype_uint16 loaded).
    split; [now rewrite nth_error_map, Hkx|].
    assert (Hwf := fs_lookup_wf _ _ _ Hfs Hpr).
    assert (Hb : Forall (fun i => 1 <= i <= count r) (selected_bands pk)).
    { unfold _load_img in Hload. rewrite (rio_open_found _ _ _ Hpr) in Hload.
      cbn [bind] in Hload. bind_inv Hload.
      now apply read_bands_inv in Ha. }
    assert (Hdims : height r <= max_height pk /\ width r <= max_width pk).
    { rewrite Forall_map in Hw_le, Hh_le. rewrite Forall_forall in *.
      apply nth_error_In in Hk. split; auto. }
    destruct (_load_img_spec fs p r (max_width pk) (max_height pk)
                             (selected_bands pk) Hpr Hwf
                             (proj1 Hdims) (proj2 Hdims) Hb)
      as (loaded' & E & Hs & Hpx).
    rewrite E in Hload. inversion Hload; subst loaded'.
    split; [now apply image_astype_shape|].
    assert (Hcast : forall c i j, (c < length (selected_bands pk))%nat ->
              px (image_astype astype_uint16 loaded) c i j
              = astype_uint16
                  (if (i <? Z.to_nat (height r))%nat
                      && (j <? Z.to_nat (width r))%nat
                   then px (pixels r)
                           (Z.to_nat (nth c (selected_bands pk) 0 - 1)) i j
                   else 0)).
    { intros c i j Hc. rewrite px_image_astype by reflexivity.
      now rewrite Hpx. }
    split; [exact Hcast|].
    intros Hu c i j Hc. rewrite (Hcast c i j Hc).
    destruct ((i <? Z.to_nat (height r))%nat && (j <? Z.to_nat (width r))%nat);
      [|reflexivity].
    apply astype_uint16_id, in_uint16_px, Hu.
  - intros k p Hk.
    destruct (Forall2_nth_error _ _ _ _ _ Hlbls Hk) as (loaded & Hkx & Hload).
    assert (Hl : exists l, fs_lookup fs (mk_path (parent p) "label.tif") = Some l).
    { unfold _load_lbl in Hload. bind_inv Hload.
      apply rio_open_ok in Ha. now exists a. }
    destruct Hl as [l Hl]. exists l, (map (map astype_uint16) loaded).
    split; [exact Hl|]. split; [now rewrite nth_error_map, Hkx|].
    assert (Hwf := fs_lookup_wf _ _ _ Hfs Hl).
    assert (Hdims : height l <= max_height pk /\ width l <= max_width pk).
    { unfold _load_lbl in Hload. rewrite (rio_open_found _ _ _ Hl) in Hload.
      cbn [bind] in Hload. bind_inv Hload.
      apply da_pad2_inv in Hload. lia. }
    destruct (_load_lbl_spec fs p l (max_width pk) (max_height pk) Hl Hwf
                             (proj1 Hdims) (proj2 Hdims))
      as (loaded' & E & Hs & Hpx).
    rewrite E in Hload. inversion Hload; subst loaded'.
    split; [now apply plane_astype_shape|].
    assert (Hcast : forall i j,
              nth j (nth i (map (map astype_uint16) loaded) []) 0
              = astype_uint16
                  (if (i <? Z.to_nat (height l))%nat
                      && (j <? Z.to_nat (width l))%nat
                   then px (pixels l) 0 i j else 0)).
    { intros i j. rewrite plane_astype_nth by reflexivity. now rewrite Hpx. }
    split; [exact Hcast|].
    intros Hu i j. rewrite (Hcast i j).
    destruct ((i <? Z.to_nat (height l))%nat && (j <? Z.to_nat (width l))%nat);
      [|reflexivity].
    apply astype_uint16_id, in_uint16_px, Hu.
Qed.

Lemma two_folders_wf : Forall (fun e => raster_wf (snd e)) two_folders.
Proof. repeat constructor; simpl; try lia; try reflexivity. Qed.

Lemma packer_pads_bottom_and_right_witness :
  exists f pk rasters imgs,
    convert_img_to_h5 simple_fnmatch sqrt_6_digits two_folders
                      "*.tif" "*label*" None = Completed f /\
    convert_img_to_h5_prepare simple_fnmatch two_folders
                              "*.tif" "*label*" None = Ok pk /\
    max_height pk = 2 /\ max_width pk = 2 /\
    imgs = [ [ [[1; 2]; [0; 0]];  [[3; 4]; [0; 0]] ];
             [ [[5; 0]; [6; 0]];  [[7; 0]; [8; 0]] ] ] /\
    h5_lookup f "/img" = Some (Int4 imgs) /\
    forall k r,
      nth_error rasters k = Some r ->
      exists packed,
        nth_error imgs k = Some packed /\
        forall c i j, (c < length (selected_bands pk))%nat ->
          px packed c i j
          = astype_uint16
              (if (i <? Z.to_nat (height r))%nat && (j <? Z.to_nat (width r))%nat
               then px (pixels r)
                       (Z.to_nat (nth c (selected_bands pk) 0 - 1)) i j
               else 0).
Proof.
  eexists.
  destruct (packer_pads_bottom_and_right
              simple_fnmatch sqrt_6_digits two_folders "*.tif" "*label*" None
              _ two_folders_wf eq_refl)
    as (pk & rasters & imgs & lbls & Hprep & _ & _ & _ & _ & Hi & _ & Hrows & _).
  exists pk, rasters, imgs.
  split; [reflexivity|]. split; [exact Hprep|].
  vm_compute in Hprep. inversion Hprep; subst pk.
  split; [reflexivity|]. split; [reflexivity|].
  vm_compute in Hi. inversion Hi; subst imgs.
  split; [reflexivity|]. split; [reflexivity|].
  intros k r Hk. destruct (Hrows k r Hk) as (packed & H1 & _ & H3 & _).
  exists packed. split; assumption.
Defined.

(** The claim as it stood, without the cast: a raster file with 32-bit
    values is a probed item like any other, and its row of /img does
    not hold the source pixel values. *)
Lemma wide_values_are_stored_wrapped :
  Forall (fun e => raster_wf (snd e)) wide_values /\
  exists f r packed,
    convert_img_to_h5 simple_fnmatch sqrt_6_digits wide_values
                      "img*" "*label*" None = Completed f /\
    fs_lookup wide_values (mk_path "a" "img.tif") = Some r /\
    h5_lookup f "/img" = Some (Int4 [packed]) /\
    pixels r = [ [[70000; -1; 65536]] ] /\
    packed = [ [[4464; 65535; 0]] ] /\
    px packed 0 0 0 <> px (pixels r) 0 0 0.
Proof.
  split.
  - repeat constructor; simpl; try lia; try reflexivity.
  - do 3 eexists.
    split; [reflexivity|]. split; [reflexivity|]. split; [reflexivity|].
    split; [reflexivity|]. split; [reflexivity|]. discriminate.
Qed.

(* ===================================================================== *)
(** ** C6                                                                 *)
(* ===================================================================== *)

Lemma mapM_derive_metadata fs ps rasters :
  Forall2 (fun p r => fs_lookup fs p = Some r) ps rasters ->
  mapM (_derive_metadata fs) ps = Ok (map metadata_of rasters).
Proof.
  induction 1 as [|p r ps rs Hpr _ IH]; simpl; [reflexivity|].
  unfold _derive_metadata at 1. rewrite (rio_open_found _ _ _ Hpr).
  cbn [bind]. rewrite IH. reflexivity.
Qed.

(** The preparation once discovery has found as many labels as images
    and at least one image. *)
Lemma convert_img_to_h5_prepare_found fnmatch fs file_glob label_glob
      image_bands rasters :
  let imgs := filter (fun i => negb (fnmatch (name i) label_glob))
                     (_rglob_with_links fnmatch fs file_glob) in
  let lbls := flat_map (fun i => glob fnmatch fs (parent i) label_glob) imgs in
  length imgs = length lbls ->
  Forall2 (fun p r => fs_lookup fs p = Some r) imgs rasters ->
  rasters <> [] ->
  convert_img_to_h5_prepare fnmatch fs file_glob label_glob image_bands
  = (bands <- check_number_bands image_bands (map count rasters) ;;
     max_w <- py_max (map width rasters) ;;
     max_h <- py_max (map height rasters) ;;
     Ok (mk_packing imgs lbls max_w max_h bands (map stem imgs)
                    (map epsg_code rasters)
                    (map (fun r => rio.to_gdal (transform r)) rasters))).
Proof.
  intros imgs lbls Hlen HF Hne. unfold convert_img_to_h5_prepare.
  fold imgs. fold lbls.
  rewrite Hlen, Nat.eqb_refl. cbn [assert bind].
  rewrite (mapM_derive_metadata fs imgs rasters HF). cbn [bind].
  destruct rasters as [|r rs]; [congruence|].
  cbn [map bind]. rewrite !map_map. reflexivity.
Qed.

Lemma nodup_all_equal (c : Z) (l : list Z) :
  l <> [] -> Forall (eq c) l -> nodup Z.eq_dec l = [c].
Proof.
  induction l as [|x tl IH]; intros Hne Hall; [congruence|].
  inversion Hall as [|? ? Hx Htl]; subst.
  simpl. destruct tl as [|y tl'].
  - reflexivity.
  - destruct (in_dec Z.eq_dec x (y :: tl')) as [_|Hn].
    + apply IH; [discriminate|assumption].
    + exfalso. apply Hn. left. now inversion Htl.
Qed.

Lemma one_distinct_true (l : list Z) :
  one_distinct l = true <-> l <> [] /\ exists c, Forall (eq c) l.
Proof.
  unfold one_distinct. split.
  - intros H. apply Nat.eqb_eq in H.
    destruct (nodup Z.eq_dec l) as [|c [|? ?]] eqn:E; try discriminate.
    split.
    + intros ->. discriminate.
    + exists c. apply Forall_forall. intros x Hx.
      apply (nodup_In Z.eq_dec) in Hx. rewrite E in Hx.
      destruct Hx as [Hx|[]]. exact Hx.
  - intros [Hne [c Hc]]. now rewrite (nodup_all_equal c l Hne Hc).
Qed.

Lemma range_elems_1_to (m : Z) :
  range_elems 1 (m + 1) 1 = map Z.of_nat (seq 1 (Z.to_nat m)).
Proof.
  unfold range_elems, range_len. change (0 <? 1) with true. cbv iota.
  rewrite <- seq_shift, map_map.
  destruct (Z.ltb_spec 1 (m + 1)).
  - rewrite Z.div_1_r. replace (m + 1 - 1 - 1 + 1) with m by lia.
    apply map_ext. intros k. lia.
  - replace (Z.to_nat m) with 0%nat by lia. reflexivity.
Qed.

Lemma py_max_nonempty (l : list Z) :
  l <> [] -> exists m, py_max l = Ok m.
Proof. destruct l; [congruence|]. intros _. eexists. reflexivity. Qed.

Lemma convert_img_to_h5_aborts fnmatch np_sqrt fs file_glob label_glob
      image_bands e :
  convert_img_to_h5_prepare fnmatch fs file_glob label_glob image_bands
  = Raise e ->
  convert_img_to_h5 fnmatch np_sqrt fs file_glob label_glob image_bands
  = Aborted e.
Proof. unfold convert_img_to_h5. now intros ->. Qed.

(** C6: with an explicit (non-empty) band list the conversion stops at
    an assertion, before the destination is opened, when the images do
    not all have the same band count and when a requested index exceeds
    that count; without a band list every band from 1 to the largest
    band count is selected. *)
Theorem band_selection_checked_before_writing :
  forall (fnmatch : string -> string -> bool) (np_sqrt : Q -> Q)
         (fs : filesystem) (file_glob label_glob : string)
         (rasters : list Raster) (b : Z) (bs : list Z),
    let imgs := filter (fun i => negb (fnmatch (name i) label_glob))
                       (_rglob_with_links fnmatch fs file_glob) in
    let lbls := flat_map (fun i => glob fnmatch fs (parent i) label_glob)
                         imgs in
    length imgs = length lbls ->
    Forall2 (fun p r => fs_lookup fs p = Some r) imgs rasters ->
    rasters <> [] ->
    let run := convert_img_to_h5 fnmatch np_sqrt fs file_glob label_glob in
    (~ (exists c, Forall (fun r => count r = c) rasters) ->
     run (Some (b :: bs))
     = Aborted (AssertionError "Number of bands differ across images.")) /\
    (forall c,
        Forall (fun r => count r = c) rasters ->
        (exists i, In i (b :: bs) /\ c < i) ->
        run (Some (b :: bs))
        = Aborted (AssertionError
                     "image_bands uses band indices higher than number of bands")) /\
    (exists pk m,
        convert_img_to_h5_prepare fnmatch fs file_glob label_glob None = Ok pk /\
        py_max (map count rasters) = Ok m /\
        selected_bands pk = map Z.of_nat (seq 1 (Z.to_nat m))).
Proof.
  intros fnmatch np_sqrt fs fg lg rasters b bs imgs lbls Hlen HF Hne run.
  assert (Hcne : map count rasters <> [])
    by (destruct rasters; [congruence|discriminate]).
  split; [|split].
  - intros Hdiff. unfold run. apply convert_img_to_h5_aborts.
    rewrite (convert_img_to_h5_prepare_found fnmatch fs fg lg _ rasters
               Hlen HF Hne).
    unfold check_number_bands.
    destruct (one_distinct (map count rasters)) eqn:E; [|reflexivity].
    exfalso. apply Hdiff. apply one_distinct_true in E.
    destruct E as [_ [c Hc]]. exists c.
    rewrite Forall_map in Hc. revert Hc. apply Forall_impl. congruence.
  - intros c Hall [i [Hi Hci]]. unfold run. apply convert_img_to_h5_aborts.
    rewrite (convert_img_to_h5_prepare_found fnmatch fs fg lg _ rasters
               Hlen HF Hne).
    unfold check_number_bands.
    assert (E : one_distinct (map count rasters) = true).
    { apply one_distinct_true. split; [exact Hcne|]. exists c.
      rewrite Forall_map. revert Hall. apply Forall_impl. congruence. }
    rewrite E. cbn [assert bind].
    destruct (py_max_nonempty _ Hcne) as [have Hhave]. rewrite Hhave.
    cbn [bind].
    destruct (py_max_nonempty (b :: bs) ltac:(discriminate)) as [want Hwant].
    rewrite Hwant. cbn [bind].
    destruct (py_max_spec _ _ Hhave) as [_ Hin].
    apply in_map_iff in Hin. destruct Hin as [r [Hr Hrin]].
    rewrite Forall_forall in Hall. rewrite (Hall r Hrin) in Hr.
    destruct (py_max_spec _ _ Hwant) as [Hle _].
    rewrite Forall_forall in Hle. specialize (Hle i Hi).
    destruct (Z.leb_spec want have); [lia|]. reflexivity.
  - rewrite (convert_img_to_h5_prepare_found fnmatch fs fg lg _ rasters
               Hlen HF Hne).
    unfold check_number_bands.
    destruct (py_max_nonempty _ Hcne) as [m Hm]. rewrite Hm. cbn [bind].
    destruct (py_max_nonempty (map width rasters)) as [mw Hmw];
      [destruct rasters; [congruence|discriminate]|].
    destruct (py_max_nonempty (map height rasters)) as [mh Hmh];
      [destruct rasters; [congruence|discriminate]|].
    rewrite Hmw, Hmh. cbn [bind].
    eexists _, m. split; [reflexivity|]. split; [reflexivity|].
    cbn [selected_bands]. apply range_elems_1_to.
Qed.

Lemma band_selection_checked_before_writing_witness :
  convert_img_to_h5 simple_fnmatch sqrt_6_digits mixed_bands
                    "*.tif" "*label*" (Some [1; 2])
  = Aborted (AssertionError "Number of bands differ across images.").
Proof.
  refine (proj1 (band_selection_checked_before_writing
                   simple_fnmatch sqrt_6_digits mixed_bands "*.tif" "*label*"
                   [ mk_raster 1 1 32601 north_up [ [[1]];  [[3]] ];
                     mk_raster 1 1 32601 north_up [ [[5]] ] ]
                   1 [2] _ _ _) _).
  - reflexivity.
  - repeat constructor.
  - discriminate.
  - intros [c Hc]. inversion Hc as [|? ? H1 Htl]; subst.
    inversion Htl as [|? ? H2 _]; subst. discriminate H2.
Defined.

(* ===================================================================== *)
(** ** What a successful load says about the file read                    *)
(* ===================================================================== *)

Lemma _load_img_inv fs p max_width max_height bands packed :
  Forall (fun e => raster_wf (snd e)) fs ->
  _load_img fs p max_width max_height bands = Ok packed ->
  exists r,
    fs_lookup fs p = Some r /\
    height r <= max_height /\ width r <= max_width /\
    Forall (fun i => 1 <= i <= count r) bands /\
    image_shape (length bands) (Z.to_nat max_height) (Z.to_nat max_width)
                packed /\
    forall c i j, (c < length bands)%nat ->
      px packed c i j
      = if (i <? Z.to_nat (height r))%nat && (j <? Z.to_nat (width r))%nat
        then px (pixels r) (Z.to_nat (nth c bands 0 - 1)) i j else 0.
Proof.
  intros Hfs Hload. assert (H := Hload). unfold _load_img in H.
  bind_inv H. apply rio_open_ok in Ha. rename a into r.
  bind_inv H. apply read_bands_inv in Ha0. destruct Ha0 as [Hb _].
  apply da_pad3_inv in H.
  assert (Hwf := fs_lookup_wf _ _ _ Hfs Ha).
  destruct (_load_img_spec fs p r max_width max_height bands Ha Hwf
                           ltac:(lia) ltac:(lia) Hb)
    as (packed' & E & Hs & Hpx).
  rewrite E in Hload. inversion Hload; subst packed'.
  exists r. split; [exact Ha|]. split; [lia|]. split; [lia|].
  split; [exact Hb|]. split; assumption.
Qed.

Lemma _load_lbl_inv fs p max_width max_height packed :
  Forall (fun e => raster_wf (snd e)) fs ->
  _load_lbl fs p max_width max_height = Ok packed ->
  exists l,
    fs_lookup fs (mk_path (parent p) "label.tif") = Some l /\
    height l <= max_height /\ width l <= max_width /\
    plane_shape (Z.to_nat max_height) (Z.to_nat max_width) packed /\
    forall i j,
      nth j (nth i packed []) 0
      = if (i <? Z.to_nat (height l))%nat && (j <? Z.to_nat (width l))%nat
        then px (pixels l) 0 i j else 0.
Proof.
  intros Hfs Hload. assert (H := Hload). unfold _load_lbl in H.
  bind_inv H. apply rio_open_ok in Ha. rename a into l.
  bind_inv H. apply da_pad2_inv in H.
  assert (Hwf := fs_lookup_wf _ _ _ Hfs Ha).
  destruct (_load_lbl_spec fs p l max_width max_height Ha Hwf
                           ltac:(lia) ltac:(lia))
    as (packed' & E & Hs & Hpx).
  rewrite E in Hload. inversion Hload; subst packed'.
  exists l. split; [exact Ha|]. split; [lia|]. split; [lia|].
  split; assumption.
Qed.

(* ===================================================================== *)
(** ** C7                                                                 *)
(* ===================================================================== *)

(** C7 as stated fails on /lbl: the labels are stacked as 2-D arrays, so
    the dataset has three axes, [N, H, W], not [N, 1, H, W]. *)
Lemma packed_labels_have_three_axes :
  exists f d,
    convert_img_to_h5 simple_fnmatch sqrt_6_digits two_folders
                      "*.tif" "*label*" None = Completed f /\
    h5_lookup f "/lbl" = Some d /\
    shape d = [2; 2; 2]%nat /\
    forall N H W : nat, shape d <> [N; 1; H; W]%nat.
Proof.
  eexists _, _. split; [reflexivity|]. split; [reflexivity|].
  split; [reflexivity|]. intros N H W. discriminate.
Qed.

Lemma check_number_bands_nonempty image_bands counts bands :
  Forall (fun c => 1 <= c) counts ->
  check_number_bands image_bands counts = Ok bands -> bands <> [].
Proof.
  intros Hc H.
  assert (Hdefault :
            (have <- py_max counts ;; Ok (range_elems 1 (have + 1) 1)) = Ok bands ->
            bands <> []).
  { intros Hd. bind_inv Hd. inversion Hd; subst bands.
    destruct (py_max_spec _ _ Ha) as [_ Hin].
    rewrite Forall_forall in Hc. specialize (Hc _ Hin).
    rewrite range_elems_1_to.
    destruct (Z.to_nat a) eqn:E; [lia|discriminate]. }
  unfold check_number_bands in H.
  destruct image_bands as [[|b bs]|]; try (now apply Hdefault).
  bind_inv H. bind_inv H. bind_inv H. bind_inv H.
  inversion H. discriminate.
Qed.

(** C7, amended: a successful conversion leaves exactly the datasets
    /img [N,C,H,W], /lbl [N,H,W], /path [N], /epsg [N], /affine [N,6],
    /img_means [C] and /img_stds [C]; every per-row dataset has leading
    length N. *)
Theorem packed_store_schema :
  forall (fnmatch : string -> string -> bool) (np_sqrt : Q -> Q)
         (fs : filesystem) (file_glob label_glob : string)
         (image_bands : option (list Z)) (f : h5file),
    Forall (fun e => raster_wf (snd e)) fs ->
    convert_img_to_h5 fnmatch np_sqrt fs file_glob label_glob image_bands
    = Completed f ->
    exists N C H W : nat,
      schema f = [ ("/img", [N; C; H; W]);
                   ("/lbl", [N; H; W]);
                   ("/path", [N]);
                   ("/epsg", [N]);
                   ("/affine", [N; 6]);
                   ("/img_means", [C]);
                   ("/img_stds", [C]) ]%string%nat.
Proof.
  intros fnmatch np_sqrt fs fg lg ib f Hfs Hrun.
  destruct (convert_img_to_h5_completed _ _ _ _ _ _ _ Hrun)
    as (pk & imgs & lbls & Hprep & Himgs & Hlbls & ->).
  destruct (convert_img_to_h5_prepare_ok _ _ _ _ _ _ Hprep)
    as (rasters & _ & _ & Hlen & Hne & HF & Hbands & Hmw & Hmh
        & Hpath & Hepsg & Haff).
  set (N := length (l_images pk)).
  set (C := length (selected_bands pk)).
  set (H := Z.to_nat (max_height pk)).
  set (W := Z.to_nat (max_width pk)).
  assert (Hwf : Forall raster_wf rasters).
  { clear -HF Hfs. induction HF; constructor; auto.
    eapply fs_lookup_wf; eassumption. }
  assert (HNr : length rasters = N) by (symmetry; apply (Forall2_length HF)).
  assert (HC : (0 < C)%nat).
  { assert (selected_bands pk <> []).
    { apply (check_number_bands_nonempty ib (map count rasters)); [|exact Hbands].
      rewrite Forall_map. revert Hwf. apply Forall_impl.
      intros r (_ & _ & Hc & _). unfold count. lia. }
    unfold C. destruct (selected_bands pk); [congruence|simpl; lia]. }
  assert (HH : (0 < H)%nat).
  { destruct (py_max_spec _ _ Hmh) as [_ Hin].
    apply in_map_iff in Hin. destruct Hin as [r [Hr Hrin]].
    rewrite Forall_forall in Hwf. destruct (Hwf r Hrin) as (_ & Hh & _).
    unfold H. lia. }
  assert (Hi : Forall (image_shape C H W) imgs).
  { apply mapM_Forall2 in Himgs. clear -Himgs Hfs.
    induction Himgs as [|p x ps xs Hpx _ IH]; constructor; auto.
    destruct (_load_img_inv _ _ _ _ _ _ Hfs Hpx) as (r & _ & _ & _ & _ & Hs & _).
    exact Hs. }
  assert (Hl : Forall (plane_shape H W) lbls).
  { apply mapM_Forall2 in Hlbls. clear -Hlbls Hfs.
    induction Hlbls as [|p x ps xs Hpx _ IH]; constructor; auto.
    destruct (_load_lbl_inv _ _ _ _ _ Hfs Hpx) as (l & _ & _ & _ & Hs & _).
    exact Hs. }
  assert (HNi : length imgs = N) by (apply (mapM_length _ _ _ Himgs)).
  assert (HNl : length lbls = N)
    by (rewrite (mapM_length _ _ _ Hlbls); unfold N; now symmetry).
  (* the stored arrays have the shapes of the loaded ones *)
  assert (Hi' : Forall (image_shape C H W)
                       (map (image_astype astype_uint16) imgs))
    by (apply Forall_map; revert Hi; apply Forall_impl; intros im;
        apply image_astype_shape).
  assert (Hl' : Forall (plane_shape H W) (map (map (map astype_uint16)) lbls))
    by (apply Forall_map; revert Hl; apply Forall_impl; intros p;
        apply plane_astype_shape).
  rewrite <- (length_map (image_astype astype_uint16)) in HNi.
  rewrite <- (length_map (map (map astype_uint16))) in HNl.
  clear Hi Hl Himgs Hlbls.
  set (simgs := map (image_astype astype_uint16) imgs) in *.
  set (slbls := map (map (map astype_uint16)) lbls) in *.
  clearbody simgs slbls. clear imgs lbls.
  rename simgs into imgs, slbls into lbls, Hi' into Hi, Hl' into Hl.
  exists N, C, H, W.
  unfold schema. cbn [map fst snd shape].
  rewrite HNi, HNl, Hpath, Hepsg, Haff, !length_map, HNr, length_seq.
  fold N.
  destruct imgs as [|im0 imgs']; [simpl in HNi; destruct rasters; [congruence|simpl in HNr; lia]|].
  destruct lbls as [|lb0 lbls']; [simpl in HNl; simpl in HNi; lia|].
  apply Forall_inv in Hi. apply Forall_inv in Hl.
  destruct (image_shape_dims _ _ _ _ Hi HC HH) as (Ec & Eh & Ew).
  cbn [block_c block_h block_w image_h image_w].
  rewrite Ec, Eh, Ew.
  destruct Hl as [Hlh Hlw]. unfold plane_h. rewrite Hlh.
  rewrite (plane_shape_w H W lb0 (conj Hlh Hlw) HH).
  destruct rasters as [|r0 rs]; [congruence|].
  reflexivity.
Qed.

Lemma packed_store_schema_witness :
  exists f N C H W,
    convert_img_to_h5 simple_fnmatch sqrt_6_digits two_folders
                      "*.tif" "*label*" None = Completed f /\
    schema f = [ ("/img", [N; C; H; W]);
                 ("/lbl", [N; H; W]);
                 ("/path", [N]);
                 ("/epsg", [N]);
                 ("/affine", [N; 6]);
                 ("/img_means", [C]);
                 ("/img_stds", [C]) ]%string%nat.
Proof.
  eexists.
  assert (Hwf : Forall (fun e => raster_wf (snd e)) two_folders).
  { repeat constructor; simpl; try lia; try reflexivity. }
  destruct (packed_store_schema simple_fnmatch sqrt_6_digits two_folders
              "*.tif" "*label*" None _ Hwf eq_refl) as (N & C & H & W & E).
  exists N, C, H, W. split; [reflexivity|exact E].
Defined.

(* ===================================================================== *)
(** ** C10                                                                *)
(* ===================================================================== *)

Lemma _derive_metadata_ext fs fs' p :
  fs_lookup fs p = fs_lookup fs' p ->
  _derive_metadata fs p = _derive_metadata fs' p.
Proof. unfold _derive_metadata, rio_open. now intros ->. Qed.

Lemma _load_img_ext fs fs' p W H bands :
  fs_lookup fs p = fs_lookup fs' p ->
  _load_img fs p W H bands = _load_img fs' p W H bands.
Proof. unfold _load_img, rio_open. now intros ->. Qed.

Lemma _load_lbl_ext fs fs' p W H :
  fs_lookup fs (mk_path (parent p) "label.tif")
  = fs_lookup fs' (mk_path (parent p) "label.tif") ->
  _load_lbl fs p W H = _load_lbl fs' p W H.
Proof. unfold _load_lbl, rio_open. now intros ->. Qed.

(** C10: the label pixels of a discovered label path come from the file
    "label.tif" of that path's directory, whatever the discovered file
    is called; loading fails when that file is absent; every file of an
    image's directory that matches the label glob is counted as a label;
    and the pixels of label files with another name never reach the
    result: changing them changes nothing. *)
Theorem label_pixels_come_from_label_tif :
  forall (fnmatch : string -> string -> bool) (np_sqrt : Q -> Q)
         (fs fs' : filesystem) (file_glob label_glob : string)
         (image_bands : option (list Z)),
    map fst fs = map fst fs' ->
    (forall p,
        fnmatch (name p) label_glob
        && negb (String.eqb (name p) "label.tif") = false ->
        fs_lookup fs p = fs_lookup fs' p) ->
    (forall p W H,
        _load_lbl fs p W H
        = _load_lbl fs (mk_path (parent p) "label.tif") W H) /\
    (forall p W H,
        fs_lookup fs (mk_path (parent p) "label.tif") = None ->
        _load_lbl fs p W H = Raise (RasterioIOError "label.tif")) /\
    (forall pk i q,
        convert_img_to_h5_prepare fnmatch fs file_glob label_glob image_bands
        = Ok pk ->
        In i (l_images pk) -> In q (map fst fs) ->
        parent q = parent i -> fnmatch (name q) label_glob = true ->
        In q (l_labels pk)) /\
    convert_img_to_h5 fnmatch np_sqrt fs file_glob label_glob image_bands
    = convert_img_to_h5 fnmatch np_sqrt fs' file_glob label_glob image_bands.
Proof.
  intros fnmatch np_sqrt fs fs' fg lg ib Hpaths Hsame.
  split; [|split; [|split]].
  - intros p W H. reflexivity.
  - intros p W H Hnone. unfold _load_lbl, rio_open. now rewrite Hnone.
  - intros pk i q Hprep Hi Hq Hpar Hm.
    destruct (convert_img_to_h5_prepare_ok _ _ _ _ _ _ Hprep)
      as (_ & _ & Hl & _).
    rewrite Hl. apply in_flat_map. exists i. split; [exact Hi|].
    unfold glob. apply filter_In. split; [exact Hq|].
    rewrite Hpar, String.eqb_refl, Hm. reflexivity.
  - assert (Himg : forall i,
               In i (filter (fun i => negb (fnmatch (name i) lg))
                            (_rglob_with_links fnmatch fs fg)) ->
               fs_lookup fs i = fs_lookup fs' i).
    { intros i Hi. apply filter_In in Hi. destruct Hi as [_ Hi].
      apply Hsame. apply negb_true_iff in Hi. now rewrite Hi. }
    assert (Hlbl : forall p,
               fs_lookup fs (mk_path (parent p) "label.tif")
               = fs_lookup fs' (mk_path (parent p) "label.tif")).
    { intros p. apply Hsame. cbn [name].
      rewrite String.eqb_refl. cbn [negb]. apply andb_false_r. }
    assert (Hprep :
              convert_img_to_h5_prepare fnmatch fs fg lg ib
              = convert_img_to_h5_prepare fnmatch fs' fg lg ib).
    { unfold convert_img_to_h5_prepare, _rglob_with_links, glob.
      rewrite <- Hpaths.
      rewrite (mapM_ext_in (_derive_metadata fs) (_derive_metadata fs')).
      - reflexivity.
      - intros i Hi. apply _derive_metadata_ext. now apply Himg. }
    unfold convert_img_to_h5. rewrite <- Hprep.
    destruct (convert_img_to_h5_prepare fnmatch fs fg lg ib) as [pk|e] eqn:E;
      [|reflexivity].
    destruct (convert_img_to_h5_prepare_ok _ _ _ _ _ _ E) as (_ & Hi & _).
    assert (Hstore : to_hdf5 fs pk = to_hdf5 fs' pk).
    { unfold to_hdf5.
      rewrite (mapM_ext_in
                 (fun p => _load_img fs p (max_width pk) (max_height pk)
                                     (selected_bands pk))
                 (fun p => _load_img fs' p (max_width pk) (max_height pk)
                                     (selected_bands pk))).
      2:{ intros i Hin. apply _load_img_ext. apply Himg. now rewrite <- Hi. }
      rewrite (mapM_ext_in
                 (fun p => _load_lbl fs p (max_width pk) (max_height pk))
                 (fun p => _load_lbl fs' p (max_width pk) (max_height pk))).
      2:{ intros p _. apply _load_lbl_ext, Hlbl. }
      reflexivity. }
    now rewrite Hstore.
Qed.

Lemma label_pixels_come_from_label_tif_witness :
  convert_img_to_h5 simple_fnmatch sqrt_6_digits (masked_folder 1)
                    "img*" "*mask*" None
  = convert_img_to_h5 simple_fnmatch sqrt_6_digits (masked_folder 2)
                      "img*" "*mask*" None /\
  exists f,
    convert_img_to_h5 simple_fnmatch sqrt_6_digits (masked_folder 1)
                      "img*" "*mask*" None = Completed f /\
    h5_lookup f "/lbl" = Some (Int3 [ [[3]] ]).
Proof.
  split.
  - refine (proj2 (proj2 (proj2
              (label_pixels_come_from_label_tif
                 simple_fnmatch sqrt_6_digits
                 (masked_folder 1) (masked_folder 2) "img*" "*mask*" None
                 eq_refl _)))).
    intros [dir nm] Hp. cbn [name] in Hp.
    unfold masked_folder, fs_lookup, path_eqb. cbn [parent name].
    destruct (String.eqb "a" dir); cbn [andb]; [|reflexivity].
    destruct (String.eqb "img.tif" nm); [reflexivity|].
    destruct (String.eqb "mask.tif" nm) eqn:E; [|reflexivity].
    apply String.eqb_eq in E. subst nm. discriminate Hp.
  - eexists. split; reflexivity.
Defined.

(** The label of the folder is found under another name only: it is
    counted, and the load fails for want of "label.tif". *)
Example label_tif_absent :
  convert_img_to_h5 simple_fnmatch sqrt_6_digits
    [ (mk_path "a" "img.tif", mk_raster 1 1 32601 north_up [ [[9]] ]);
      (mk_path "a" "mask.tif", mk_raster 1 1 32601 north_up [ [[1]] ]) ]%string
    "img*" "*mask*" None
  = Interrupted (RasterioIOError "label.tif").
Proof. reflexivity. Qed.

(* ===================================================================== *)
(** ** C4                                                                 *)
(* ===================================================================== *)

(** C4 as stated fails: every item is padded to the largest height and
    width of the set and the original size is not kept, so in a set of
    ten rasters of which one is larger, the nine smaller ones come back
    at the size of the largest. *)
Lemma mixed_sizes_do_not_round_trip :
  length (discovered_images simple_fnmatch ten_folders "*.tif" "*label*")
  = 10%nat /\
  ~ roundtrip_identity simple_fnmatch sqrt_6_digits ten_folders
      "*.tif" "*label*".
Proof.
  split; [reflexivity|].
  intros [f [Hrun Hrows]].
  vm_compute in Hrun. injection Hrun as <-.
  destruct (Hrows 0%nat (mk_path "image_0" "img_0.tif")
                  (mk_path "image_0" "label.tif") eq_refl eq_refl)
    as (r_img & r_lbl & out_lbl & Hi & _ & Hout & _).
  vm_compute in Hi. injection Hi as <-.
  vm_compute in Hout. discriminate Hout.
Qed.

Lemma py_max_const (v : Z) (l : list Z) :
  l <> [] -> Forall (eq v) l -> py_max l = Ok v.
Proof.
  intros Hne Hall. destruct (py_max_nonempty l Hne) as [m Hm].
  destruct (py_max_spec _ _ Hm) as [_ Hin].
  rewrite Forall_forall in Hall. now rewrite (Hall m Hin).
Qed.

Lemma mapM_of_Forall2 {A B} (f : A -> result B) (l : list A) (ys : list B) :
  Forall2 (fun x y => f x = Ok y) l ys -> mapM f l = Ok ys.
Proof.
  induction 1 as [|x y l ys Hxy _ IH]; simpl; [reflexivity|].
  now rewrite Hxy, IH.
Qed.

Lemma pad_plane_nothing (w : nat) (p : plane) : pad_plane w 0 0 p = p.
Proof.
  unfold pad_plane. simpl. rewrite app_nil_r.
  induction p as [|r tl IH]; simpl; [reflexivity|].
  now rewrite app_nil_r, IH.
Qed.

(** Reading bands 1..c of a raster with c bands returns its pixels. *)
Lemma all_bands_in_order (l : image) :
  map (fun i => nth (Z.to_nat (i - 1)) l [])
      (map Z.of_nat (seq 1 (length l))) = l.
Proof.
  rewrite map_map.
  rewrite <- seq_shift, map_map.
  rewrite (map_ext _ (fun k => nth k l [])).
  2:{ intros k. f_equal. lia. }
  induction l as [|p tl IH]; [reflexivity|].
  simpl. f_equal. rewrite <- seq_shift, map_map. exact IH.
Qed.

Lemma image_astype_uint16_id (im : image) :
  in_uint16 im -> image_astype astype_uint16 im = im.
Proof.
  unfold in_uint16, image_astype. intros H.
  rewrite <- (map_id im) at 2. apply map_ext_in. intros p Hp.
  rewrite Forall_forall in H. specialize (H p Hp).
  rewrite <- (map_id p) at 2. apply map_ext_in. intros r Hr.
  rewrite Forall_forall in H. specialize (H r Hr).
  rewrite <- (map_id r) at 2. apply map_ext_in. intros v Hv.
  rewrite Forall_forall in H. now apply astype_uint16_id, H.
Qed.

Lemma from_gdal_to_gdal (t : rio.Affine) :
  rio.from_gdal (rio.to_gdal t) = Ok t.
Proof. now destruct t. Qed.

Lemma h5_index_nat {A} (l : list A) (k : nat) (x : A) :
  nth_error l k = Some x -> h5_index l (Z.of_nat k) = Ok x.
Proof.
  intros H. unfold h5_index.
  assert (Hk : (k < length l)%nat) by (apply nth_error_Some; congruence).
  destruct (Z.ltb_spec (Z.of_nat k) 0); [lia|].
  destruct (Z.leb_spec 0 (Z.of_nat k)); [|lia].
  destruct (Z.ltb_spec (Z.of_nat k) (Z.of_nat (length l))); [|lia].
  cbn [andb]. now rewrite Nat2Z.id, H.
Qed.

Lemma Forall2_nth_error_l {A B} (R : A -> B -> Prop) l1 l2 i x :
  Forall2 R l1 l2 -> nth_error l1 i = Some x ->
  exists y, nth_error l2 i = Some y /\ R x y.
Proof. apply Forall2_nth_error. Qed.

Lemma raster_dims (r : Raster) :
  raster_wf r ->
  Z.of_nat (image_h (pixels r)) = height r /\
  Z.of_nat (image_w (pixels r)) = width r.
Proof.
  intros (Hw & Hh & Hc & Hs).
  destruct (image_shape_dims _ _ _ _ Hs Hc ltac:(lia)) as (_ & Eh & Ew).
  rewrite Eh, Ew. lia.
Qed.

Lemma _load_img_exact fs p r :
  fs_lookup fs p = Some r ->
  _load_img fs p (width r) (height r)
            (map Z.of_nat (seq 1 (length (pixels r))))
  = Ok (pixels r).
Proof.
  intros Hp. unfold _load_img. rewrite (rio_open_found _ _ _ Hp).
  cbn [bind]. rewrite read_bands_ok.
  2:{ apply Forall_forall. intros i Hi. apply in_map_iff in Hi.
      destruct Hi as [k [<- Hk]]. apply in_seq in Hk. unfold count. lia. }
  cbn [bind]. rewrite all_bands_in_order, !Z.sub_diag.
  unfold da_pad3. cbn.
  f_equal. rewrite (map_ext _ (fun pl => pl)).
  - apply map_id.
  - intros pl. apply pad_plane_nothing.
Qed.

Lemma _load_lbl_exact fs p l :
  fs_lookup fs (mk_path (parent p) "label.tif") = Some l ->
  (0 < length (pixels l))%nat ->
  _load_lbl fs p (width l) (height l) = Ok (nth 0 (pixels l) []).
Proof.
  intros Hp Hc. unfold _load_lbl. rewrite (rio_open_found _ _ _ Hp).
  cbn [bind]. rewrite read_band_ok by (unfold count; lia).
  cbn [bind]. rewrite !Z.sub_diag. unfold da_pad2. cbn.
  f_equal. apply pad_plane_nothing.
Qed.

(** C4, amended: when all images and labels of the set have one common
    height and width, all images have the same number of bands, every
    image's label is the single-band file label.tif of its directory,
    and all pixel values fit an unsigned 16-bit integer, converting with
    the default band selection and reconstructing row k gives back the
    k-th image file unchanged (pixels, width, height, CRS, geotransform)
    and the pixels of its label. *)
Theorem uniform_set_round_trips :
  forall (fnmatch : string -> string -> bool) (np_sqrt : Q -> Q)
         (fs : filesystem) (file_glob label_glob : string)
         (rasters labels : list Raster) (h w c : Z),
    let imgs := discovered_images fnmatch fs file_glob label_glob in
    let lbls := discovered_labels fnmatch fs file_glob label_glob in
    imgs <> [] ->
    lbls = map (fun p => mk_path (parent p) "label.tif") imgs ->
    Forall2 (fun p r => fs_lookup fs p = Some r) imgs rasters ->
    Forall2 (fun p l => fs_lookup fs p = Some l) lbls labels ->
    Forall (fun r => raster_wf r /\ height r = h /\ width r = w /\
                     count r = c /\ in_uint16 (pixels r)) rasters ->
    Forall (fun l => raster_wf l /\ height l = h /\ width l = w /\
                     count l = 1 /\ in_uint16 (pixels l)) labels ->
    roundtrip_identity fnmatch np_sqrt fs file_glob label_glob.
Proof.
  intros fnmatch np_sqrt fs fg lg rasters labels h w c imgs lbls
         Hne Hlbls HFi HFl Hri Hrl.
  assert (Hlen : length imgs = length lbls)
    by (rewrite Hlbls; now rewrite length_map).
  assert (Hrne : rasters <> []).
  { intros ->. inversion HFi. congruence. }
  (* the preparation *)
  assert (Hprep :
            convert_img_to_h5_prepare fnmatch fs fg lg None
            = Ok (mk_packing imgs lbls w h
                             (map Z.of_nat (seq 1 (Z.to_nat c)))
                             (map stem imgs) (map epsg_code rasters)
                             (map (fun r => rio.to_gdal (transform r)) rasters))).
  { rewrite (convert_img_to_h5_prepare_found fnmatch fs fg lg None rasters
               Hlen HFi Hrne).
    unfold check_number_bands.
    rewrite (py_max_const c), (py_max_const w), (py_max_const h);
      try (destruct rasters; [congruence|discriminate]);
      try (rewrite Forall_map; revert Hri; apply Forall_impl;
           intros r (_ & ? & ? & ? & _); congruence).
    cbn [bind]. now rewrite range_elems_1_to. }
  (* the rows written *)
  assert (Himgs :
            mapM (fun p => _load_img fs p w h (map Z.of_nat (seq 1 (Z.to_nat c))))
                 imgs = Ok (map pixels rasters)).
  { apply mapM_of_Forall2. clear -HFi Hri.
    induction HFi as [|p r ps rs Hpr _ IH]; simpl; constructor.
    - apply Forall_inv in Hri. destruct Hri as (_ & <- & <- & <- & _).
      unfold count. rewrite Nat2Z.id. now apply _load_img_exact.
    - apply IH. now apply Forall_inv_tail in Hri. }
  assert (Hlbl :
            mapM (fun p => _load_lbl fs p w h) lbls
            = Ok (map (fun l => nth 0 (pixels l) []) labels)).
  { apply mapM_of_Forall2.
    assert (Hpar : Forall (fun p => p = mk_path (parent p) "label.tif") lbls).
    { rewrite Hlbls. apply Forall_map, Forall_forall. intros; reflexivity. }
    clear -HFl Hrl Hpar.
    induction HFl as [|p l ps ls Hpl _ IH]; simpl; constructor.
    - apply Forall_inv in Hrl. destruct Hrl as (Hwf & <- & <- & _).
      apply Forall_inv in Hpar. rewrite Hpar in Hpl.
      apply _load_lbl_exact; [exact Hpl|]. now destruct Hwf as (_ & _ & ? & _).
    - apply IH; [now apply Forall_inv_tail in Hrl
                |now apply Forall_inv_tail in Hpar]. }
  (* values that fit 16 unsigned bits are stored as they are *)
  assert (Hcast_i : map (image_astype astype_uint16) (map pixels rasters)
                    = map pixels rasters).
  { rewrite map_map. apply map_ext_in. intros r Hr.
    rewrite Forall_forall in Hri.
    destruct (Hri r Hr) as (_ & _ & _ & _ & Hu).
    now apply image_astype_uint16_id. }
  assert (Hcast_l : map (map (map astype_uint16))
                        (map (fun l => nth 0 (pixels l) []) labels)
                    = map (fun l => nth 0 (pixels l) []) labels).
  { rewrite map_map. apply map_ext_in. intros l Hl.
    rewrite Forall_forall in Hrl.
    destruct (Hrl l Hl) as (_ & _ & _ & Ecl & Hul).
    assert (Hl1 : pixels l = [nth 0 (pixels l) []]).
    { unfold count in Ecl. destruct (pixels l) as [|x [|y tl]];
        simpl in Ecl; try lia. reflexivity. }
    rewrite Hl1 in Hul. apply image_astype_uint16_id in Hul.
    unfold image_astype in Hul. cbn [map] in Hul. now injection Hul. }
  eexists. split.
  { unfold convert_img_to_h5. rewrite Hprep. unfold to_hdf5.
    cbn [l_images l_labels max_width max_height selected_bands path_arr
         epsg_arr affine_arr].
    rewrite Himgs, Hlbl. cbn [bind]. rewrite Hcast_i, Hcast_l.
    cbn. reflexivity. }
  intros k p_img p_lbl Hk Hkl.
  fold imgs in Hk. fold lbls in Hkl.
  destruct (Forall2_nth_error _ _ _ _ _ HFi Hk) as (r & Hkr & Hpr).
  destruct (Forall2_nth_error _ _ _ _ _ HFl Hkl) as (l & Hkl' & Hpl).
  rewrite Forall_forall in Hri, Hrl.
  destruct (Hri r (nth_error_In _ _ Hkr)) as (Hwf & Eh & Ew & Ec & Hu).
  destruct (Hrl l (nth_error_In _ _ Hkl')) as (Hwfl & Ehl & Ewl & Ecl & Hul).
  assert (Hl1 : pixels l = [nth 0 (pixels l) []]).
  { unfold count in Ecl. destruct (pixels l) as [|x [|y tl]];
      simpl in Ecl; try lia. reflexivity. }
  exists r, l, (mk_raster (width r) (height r) (epsg_code r) (transform r)
                          (pixels l)).
  split; [exact Hpr|]. split; [exact Hpl|]. split; [|reflexivity].
  unfold _create_raster. cbn [h5_get abs_name h5_lookup String.eqb Ascii.eqb
                              Bool.eqb bind].
  cbn.
  rewrite (h5_index_nat (map pixels rasters) k (pixels r))
    by (rewrite nth_error_map, Hkr; reflexivity).
  cbn [bind].
  rewrite (h5_index_nat (map (fun l => nth 0 (pixels l) []) labels) k
                        (nth 0 (pixels l) []))
    by (rewrite nth_error_map, Hkl'; reflexivity).
  cbn [bind].
  rewrite (h5_index_nat (map stem imgs) k (stem p_img))
    by (rewrite nth_error_map, Hk; reflexivity).
  cbn [bind].
  rewrite (h5_index_nat (map epsg_code rasters) k (epsg_code r))
    by (rewrite nth_error_map, Hkr; reflexivity).
  cbn [bind].
  rewrite (h5_index_nat (map (fun r => rio.to_gdal (transform r)) rasters) k
                        (rio.to_gdal (transform r)))
    by (rewrite nth_error_map, Hkr; reflexivity).
  cbn [bind].
  rewrite from_gdal_to_gdal. cbn [bind].
  destruct (raster_dims r Hwf) as [Eih Eiw].
  destruct (raster_dims l Hwfl) as [Elh Elw].
  rewrite Hl1 in Elh, Elw. cbn [image_h image_w] in Elh, Elw.
  assert (Hh : plane_h (nth 0 (pixels l) []) = image_h (pixels r)) by lia.
  assert (Hw' : plane_w (nth 0 (pixels l) []) = image_w (pixels r)) by lia.
  cbn [image_c image_h image_w length].
  rewrite Hh, Hw', !Nat.eqb_refl. cbn [andb].
  rewrite Eih, Eiw.
  rewrite (image_astype_uint16_id _ Hu).
  rewrite <- Hl1. rewrite (image_astype_uint16_id _ Hul).
  destruct r. reflexivity.
Qed.

Lemma uniform_image_ok (k : Z) :
  0 <= k <= 9 ->
  raster_wf (uniform_image k) /\ height (uniform_image k) = 1 /\
  width (uniform_image k) = 2 /\ count (uniform_image k) = 2 /\
  in_uint16 (pixels (uniform_image k)).
Proof.
  intros Hk. unfold raster_wf, in_uint16, image_shape, plane_shape. cbn.
  repeat match goal with
         | |- _ /\ _ => split
         | |- Forall _ (_ :: _) => constructor
         | |- Forall _ [] => constructor
         end; try reflexivity; lia.
Qed.

Lemma uniform_label_ok (k : Z) :
  0 <= k <= 9 ->
  raster_wf (uniform_label k) /\ height (uniform_label k) = 1 /\
  width (uniform_label k) = 2 /\ count (uniform_label k) = 1 /\
  in_uint16 (pixels (uniform_label k)).
Proof.
  intros Hk. unfold raster_wf, in_uint16, image_shape, plane_shape. cbn.
  repeat match goal with
         | |- _ /\ _ => split
         | |- Forall _ (_ :: _) => constructor
         | |- Forall _ [] => constructor
         end; try reflexivity; lia.
Qed.

Lemma range_10_bounds (k : Z) : In k (range_elems 0 10 1) -> 0 <= k <= 9.
Proof.
  cbn. intros H.
  repeat (destruct H as [<-|H]; [lia|]). destruct H.
Qed.

Lemma uniform_set_round_trips_witness :
  roundtrip_identity simple_fnmatch sqrt_6_digits (uniform_folders 10)
                     "*.tif" "*label*".
Proof.
  apply (uniform_set_round_trips
           simple_fnmatch sqrt_6_digits (uniform_folders 10) "*.tif" "*label*"
           (map uniform_image (range_elems 0 10 1))
           (map uniform_label (range_elems 0 10 1))
           1 2 2).
  - vm_compute. discriminate.
  - vm_compute. reflexivity.
  - vm_compute. repeat constructor.
  - vm_compute. repeat constructor.
  - apply Forall_map, Forall_forall. intros k Hk.
    apply uniform_image_ok, range_10_bounds, Hk.
  - apply Forall_map, Forall_forall. intros k Hk.
    apply uniform_label_ok, range_10_bounds, Hk.
Defined.

(* ===================================================================== *)
(** ** C2                                                                 *)
(* ===================================================================== *)

Lemma nth_error_app_uniform {A} (l1 l2 : list A) (i : nat) :
  nth_error (l1 ++ l2) (length l1 + i) = nth_error l2 i.
Proof.
  rewrite nth_error_app2 by lia. f_equal. lia.
Qed.

(** Row [k * m + i] of a concatenation of blocks of length [m] is row
    [i] of block [k]. *)
Lemma nth_error_concat_uniform {A} (ll : list (list A)) (m k i : nat) (l : list A) :
  Forall (fun x => length x = m) ll ->
  nth_error ll k = Some l -> (i < m)%nat ->
  nth_error (concat ll) (k * m + i) = nth_error l i.
Proof.
  intros Hall. revert k. induction Hall as [|x tl Hx _ IH]; intros k Hk Hi.
  - destruct k; discriminate.
  - destruct k as [|k]; simpl in Hk.
    + inversion Hk; subst. simpl. apply nth_error_app1. lia.
    + cbn [concat]. replace (S k * m + i)%nat with (length x + (k * m + i))%nat
        by (rewrite Hx; lia).
      rewrite nth_error_app_uniform. now apply IH.
Qed.

Lemma _tile_paths_value path n x out :
  _tile_paths path n x = Ok out ->
  out = flat_map (fun p => map (fun i => (p ++ "_" ++ format_0w i
                                               (String.length (str n)))%string)
                               (range_elems 0 n 1)) path.
Proof.
  unfold _tile_paths. intros H. bind_inv H. bind_inv H. now inversion H.
Qed.

Lemma _tile_epsgs_value epsg n x out :
  _tile_epsgs epsg n x = Ok out ->
  out = flat_map (fun e => repeat e (Z.to_nat n)) epsg.
Proof.
  unfold _tile_epsgs. destruct (n <? 0); [discriminate|].
  intros H. bind_inv H. now inversion H.
Qed.

Lemma tile_origins_length (target_size tile_size overlap : Z) :
  0 < overlap -> tile_size <= target_size ->
  length (tile_origins target_size tile_size overlap)
  = (Z.to_nat (n_side target_size tile_size overlap)
     * Z.to_nat (n_side target_size tile_size overlap))%nat.
Proof.
  intros Hov Hts. unfold tile_origins.
  rewrite length_prod, range_elems_from_0 by lia.
  rewrite length_map, length_seq.
  replace (target_size - tile_size + 1 - 1) with (target_size - tile_size) by lia.
  reflexivity.
Qed.

(** With parameters in their domain and a well-formed store the Tiler
    completes, and this is the file it writes. *)
Lemma tile_img_h5_valid_run (s : Store) (N c h w : nat)
      (tile_size overlap target_size : Z) :
  (0 < N)%nat ->
  length (s_img s) = N -> length (s_lbl s) = N -> length (s_path s) = N ->
  length (s_epsg s) = N -> length (s_affine s) = N ->
  Forall (image_shape c h w) (s_img s) ->
  Forall (plane_shape h w) (s_lbl s) ->
  Forall (fun a => length a = 6%nat) (s_affine s) ->
  (0 < c)%nat -> (0 < h)%nat -> (0 < w)%nat ->
  Z.of_nat h <= target_size -> Z.of_nat w <= target_size ->
  0 < overlap -> 0 < tile_size <= target_size ->
  let n := Z.to_nat (n_side target_size tile_size overlap) in
  let size := Z.to_nat tile_size in
  let step := Z.to_nat overlap in
  let tiles := fun im =>
    map (fun i => window size (canvas (Z.to_nat target_size) h w im)
                         ((i / n) * step)%nat ((i mod n) * step)%nat)
        (seq 0 (n * n)) in
  let count_tiles := (n_side target_size tile_size overlap) ^ 2 in
  exists affs,
    Forall2 (fun a out =>
               Forall2 (fun o t => _affine_from_rowcol a (fst o) (snd o) = Ok t)
                       (tile_origins target_size tile_size overlap) out)
            (s_affine s) affs /\
    tile_img_h5 (store_file s) tile_size overlap target_size
    = Completed
        [ ("/img", Int4 (concat (map (fun item =>
                                        tiles (image_astype astype_int16 item))
                                     (s_img s))));
          ("/lbl", Int4 (concat (map (fun p =>
                                        tiles [map (map astype_int16) p])
                                     (s_lbl s))));
          ("/img_means", Int1 (map float_astype_int16 (s_means s)));
          ("/img_stds", Int1 (map float_astype_int16 (s_stds s)));
          ("/path",
           Str1 (flat_map
                   (fun p => map (fun i => (p ++ "_" ++ format_0w i
                                              (String.length (str count_tiles)))%string)
                                 (range_elems 0 count_tiles 1))
                   (s_path s)));
          ("/epsg", Int1 (flat_map (fun e => repeat e (Z.to_nat count_tiles))
                                   (s_epsg s)));
          ("/affine", Float2 (concat affs)) ]%string.
Proof.
  intros HN Hi Hl Hp He Ha Hsi Hsl Hsa Hc Hh Hw HhP HwP Hov Hts
         n size step tiles count_tiles.
  assert (Hside : 1 <= n_side target_size tile_size overlap).
  { unfold n_side.
    assert (0 <= (target_size - tile_size) / overlap)
      by (apply Z.div_pos; lia). lia. }
  assert (Hnt : count_tiles = Z.of_nat (n * n)).
  { unfold count_tiles, n. rewrite Z.pow_2_r. nia. }
  assert (Hnt0 : 0 <= count_tiles) by lia.
  (* geotransforms *)
  destruct (mapM_ok_Forall2
              (fun a => _tile_one_affine a target_size tile_size overlap)
              (fun a out =>
                 Forall2 (fun o t => _affine_from_rowcol a (fst o) (snd o) = Ok t)
                         (tile_origins target_size tile_size overlap) out)
              (s_affine s)) as [affs [Haffs HF]].
  { intros a Hin. rewrite Forall_forall in Hsa.
    apply _tile_one_affine_origins; [now apply Hsa|lia]. }
  exists affs. split; [exact HF|].
  assert (Haffs_len : length (concat affs) = (N * (n * n))%nat).
  { rewrite (length_concat_uniform affs (n * n)).
    - now rewrite <- (Forall2_length HF), Ha.
    - clear -HF Hov Hts. induction HF as [|a out l1 l2 Hao _ IH];
        constructor; auto.
      rewrite <- (Forall2_length Hao).
      apply tile_origins_length; lia. }
  unfold tile_img_h5.
  rewrite (tile_img_h5_prepare_store s tile_size overlap target_size) by lia.
  cbv zeta. fold count_tiles.
  set (img_t := map_blocks_tile_array
                  (map (image_astype astype_int16) (s_img s)) _ _ _ count_tiles).
  set (lbl_t := map_blocks_tile_array _ _ _ _ count_tiles).
  assert (Hs : shape0 img_t = Z.of_nat N * count_tiles).
  { unfold img_t. cbn [map_blocks_tile_array shape0].
    now rewrite length_map, Hi. }
  destruct (_tile_paths_count (s_path s) count_tiles img_t) as [pt Hpt];
    [destruct (s_path s); [simpl in Hp; lia|discriminate] | lia
     | now rewrite Hp |].
  destruct (_tile_epsgs_count (s_epsg s) count_tiles img_t) as [et Het];
    [lia | now rewrite He |].
  rewrite Hpt, Het. cbn [bind].
  rewrite (_tile_paths_value _ _ _ _ Hpt), (_tile_epsgs_value _ _ _ _ Het).
  unfold _tile_affines. rewrite Haffs. cbn [bind].
  rewrite Hs, Haffs_len.
  destruct (Z.eqb_spec (Z.of_nat N * count_tiles) (Z.of_nat (N * (n * n))))
    as [_|Hne]; [|nia].
  cbn [assert bind].
  (* the two datasets can be created *)
  assert (Hsl0 : shape0 lbl_t = Z.of_nat N * count_tiles).
  { unfold lbl_t. cbn [map_blocks_tile_array shape0].
    now rewrite !length_map, Hl. }
  rewrite tile_img_h5_persist_created
    by (cbn [img_tiled lbl_tiled]; rewrite ?Hs, ?Hsl0; nia).
  (* the two tiled arrays *)
  cbn [n_tiles img_tiled lbl_tiled img_means img_stds path_tiled epsg_tiled
       affine_tiled].
  assert (Hstore : forall (c' : nat) (x : list image),
             (0 < c')%nat ->
             Forall (image_shape c' h w) x ->
             da_store (map_blocks_tile_array x tile_size overlap target_size
                                             count_tiles) count_tiles
             = Ok (concat (map tiles x))).
  { intros c' x Hc' Hx. unfold da_store. cbn [map_blocks_tile_array blocks].
    rewrite mapM_map.
    rewrite (mapM_all_ok _ tiles); [reflexivity|].
    intros item Hin. rewrite Forall_forall in Hx.
    rewrite (_tile_array_item item c' h w tile_size overlap target_size
                              (Hx item Hin)) by assumption.
    cbn [bind]. fold n size step. fold (tiles item).
    unfold tiles at 1. rewrite length_map, length_seq.
    rewrite Hnt, Z.eqb_refl. reflexivity. }
  unfold img_t, lbl_t.
  rewrite (Hstore c).
  2:{ exact Hc. }
  2:{ apply Forall_map. revert Hsi. apply Forall_impl.
      intros im. apply image_astype_shape. }
  cbn [bind]. rewrite (Hstore 1%nat).
  2:{ lia. }
  2:{ apply Forall_map, Forall_map. revert Hsl. apply Forall_impl.
      intros p [Hph Hpw]. split; [reflexivity|]. constructor; [|constructor].
      split; [now rewrite length_map|].
      apply Forall_map. revert Hpw. apply Forall_impl. intros r Hr.
      now rewrite length_map. }
  cbn [bind]. rewrite !map_map. reflexivity.
Qed.

Lemma nth_error_flat_map_uniform {A B} (g : A -> list B) (l : list A)
      (m k i : nat) (x : A) :
  (forall y, In y l -> length (g y) = m) ->
  nth_error l k = Some x -> (i < m)%nat ->
  nth_error (flat_map g l) (k * m + i) = nth_error (g x) i.
Proof.
  intros Hlen Hk Hi. rewrite flat_map_concat_map.
  apply nth_error_concat_uniform; [|now rewrite nth_error_map, Hk|exact Hi].
  apply Forall_map, Forall_forall. exact Hlen.
Qed.

Lemma range_count_nth (n : Z) (i : nat) :
  Z.of_nat i < n -> nth_error (range_elems 0 n 1) i = Some (Z.of_nat i).
Proof.
  intros Hi. rewrite range_elems_from_0 by lia.
  rewrite nth_error_map_seq by (rewrite Z.div_1_r; lia).
  f_equal. lia.
Qed.

(* ===================================================================== *)
(** ** The parameter domain of the Tiler                                  *)
(* ===================================================================== *)

Lemma slice_step_neg_nonempty {A} (step : Z) (l : list A) :
  step < 0 -> l <> [] -> slice_step step l <> [].
Proof.
  intros Hs Hl. unfold slice_step.
  destruct (Z.ltb_spec 0 step); [lia|].
  set (len := Z.of_nat (length l)).
  assert (Hlen : 1 <= len) by (unfold len; destruct l; [congruence|simpl; lia]).
  unfold range_elems, range_len.
  destruct (Z.ltb_spec 0 step); [lia|].
  destruct (Z.ltb_spec (-1) (len - 1)); [|lia].
  assert (Hq : 0 <= (len - 1 - -1 - 1) / - step) by (apply Z.div_pos; lia).
  destruct (Z.to_nat ((len - 1 - -1 - 1) / - step + 1)) as [|m] eqn:E; [lia|].
  cbn [seq map flat_map].
  replace (Z.to_nat (len - 1 + Z.of_nat 0 * step)) with (length l - 1)%nat
    by (unfold len; lia).
  destruct (nth_error l (length l - 1)) as [x|] eqn:Ex.
  - discriminate.
  - apply nth_error_None in Ex. unfold len in Hlen. lia.
Qed.

Lemma range_elems_backwards_empty (stop step : Z) :
  step < 0 -> 0 <= stop -> range_elems 0 stop step = [].
Proof.
  intros Hs Hstop. unfold range_elems, range_len.
  destruct (Z.ltb_spec 0 step); [lia|].
  destruct (Z.ltb_spec stop 0); [lia|]. reflexivity.
Qed.

(** What a block that [_tile_array] accepts says about the parameters. *)
Lemma _tile_array_ok_domain (item : image) (c h w : nat)
      (tile_size overlap pad_size : Z) (tiles : list image) :
  image_shape c h w item -> (0 < c)%nat -> (0 < h)%nat ->
  _tile_array [item] tile_size overlap pad_size = Ok tiles ->
  Z.of_nat h <= pad_size /\ Z.of_nat w <= pad_size /\
  0 < tile_size <= pad_size /\ overlap <> 0 /\
  (overlap < 0 -> tiles <> []).
Proof.
  intros Hsh Hc Hh H.
  destruct (image_shape_dims _ _ _ _ Hsh Hc Hh) as (Ec & Eh & Ew).
  unfold _tile_array in H. cbn [block_h block_w block_c] in H.
  rewrite Ec, Eh, Ew in H.
  bind_inv H. unfold np_pad in Ha.
  destruct (Z.ltb_spec (pad_size - Z.of_nat h) 0); [discriminate|].
  destruct (Z.ltb_spec (pad_size - Z.of_nat w) 0); [discriminate|].
  cbn [orb map block_w] in Ha. rewrite Ew in Ha.
  replace (Z.to_nat (pad_size - Z.of_nat h)) with (Z.to_nat pad_size - h)%nat
    in Ha by lia.
  replace (Z.to_nat (pad_size - Z.of_nat w)) with (Z.to_nat pad_size - w)%nat
    in Ha by lia.
  fold (canvas (Z.to_nat pad_size) h w item) in Ha.
  injection Ha as <-.
  assert (Hcv := canvas_shape (Z.to_nat pad_size) c h w item Hsh
                              ltac:(lia) ltac:(lia)).
  destruct (image_shape_dims _ _ _ _ Hcv Hc ltac:(lia)) as (_ & Eh' & Ew').
  bind_inv H. unfold sliding_window_view in Ha.
  cbn [block_h block_w] in Ha. rewrite Eh', Ew' in Ha.
  destruct (Z.ltb_spec tile_size 0); [discriminate|].
  destruct (Z.ltb_spec (Z.of_nat (Z.to_nat pad_size)) tile_size);
    [discriminate|].
  cbn [orb map] in Ha. injection Ha as <-.
  bind_inv H. unfold slice_overlap in Ha.
  destruct (Z.eqb_spec overlap 0); [discriminate|].
  cbn [map] in Ha. injection Ha as <-.
  unfold reshape_tiles in H.
  destruct (Z.eqb_spec (Z.of_nat c * tile_size * tile_size) 0);
    [discriminate|].
  injection H as <-.
  repeat split; try lia.
  intros Hneg. cbn [map concat]. rewrite !app_nil_r.
  set (size := Z.to_nat tile_size).
  set (L := (Z.to_nat pad_size - size + 1)%nat).
  set (grid := map _ (seq 0 L)).
  assert (Hgrid : grid <> []).
  { unfold grid, L. rewrite Nat.add_1_r. discriminate. }
  assert (Hrows : Forall (fun r => r <> []) grid).
  { unfold grid. apply Forall_map, Forall_forall. intros r _.
    unfold L. rewrite Nat.add_1_r. discriminate. }
  assert (Hsl := slice_step_neg_nonempty overlap grid Hneg Hgrid).
  destruct (slice_step overlap grid) as [|r0 rest] eqn:E; [congruence|].
  assert (Hr0 : r0 <> []).
  { assert (Hin : In r0 (slice_step overlap grid)) by (rewrite E; now left).
    unfold slice_step in Hin. apply in_flat_map in Hin.
    destruct Hin as [ix [_ Hin]].
    destruct (nth_error grid (Z.to_nat ix)) as [r|] eqn:En; [|destruct Hin].
    destruct Hin as [<-|[]]. rewrite Forall_forall in Hrows.
    apply Hrows. eapply nth_error_In, En. }
  cbn [map concat].
  assert (Hs0 := slice_step_neg_nonempty overlap r0 Hneg Hr0).
  destruct (slice_step overlap r0); [congruence|discriminate].
Qed.

Lemma _tile_one_affine_backwards affine P ts ov :
  ov < 0 -> ts <= P -> _tile_one_affine affine P ts ov = Ok [].
Proof.
  intros Hov Hts. unfold _tile_one_affine.
  rewrite !py_range_ok by lia.
  rewrite range_elems_backwards_empty by lia. reflexivity.
Qed.

(** The Tiler completes only with parameters in their domain: the items
    fit the target size, 0 < tile_size <= target_size and overlap > 0. *)
Lemma tile_img_h5_completed_domain (s : Store) (N c h w : nat)
      (tile_size overlap target_size : Z) (f : h5file) :
  (0 < N)%nat -> length (s_img s) = N ->
  Forall (image_shape c h w) (s_img s) -> (0 < c)%nat -> (0 < h)%nat ->
  tile_img_h5 (store_file s) tile_size overlap target_size = Completed f ->
  Z.of_nat h <= target_size /\ Z.of_nat w <= target_size /\
  0 < tile_size <= target_size /\ 0 < overlap.
Proof.
  intros HN Hi Hsi Hc Hh Hrun.
  assert (Hov := tile_img_h5_completed_overlap _ _ _ _ _ Hrun).
  destruct (tile_img_h5_completed _ _ _ _ _ Hrun) as [t [Hprep Hpers]].
  rewrite (tile_img_h5_prepare_store s _ _ _ Hov) in Hprep.
  cbv zeta in Hprep.
  apply bind_ok in Hprep. destruct Hprep as [pt [_ Hprep]].
  apply bind_ok in Hprep. destruct Hprep as [et [_ Hprep]].
  apply bind_ok in Hprep. destruct Hprep as [at_ [Haff Hprep]].
  injection Hprep as <-.
  apply tile_img_h5_persist_stores in Hpers.
  destruct Hpers as (_ & _ & Hpers).
  cbn [n_tiles img_tiled lbl_tiled] in Hpers.
  apply bind_ok in Hpers. destruct Hpers as [img_rows [Hstore _]].
  unfold da_store in Hstore. cbn [map_blocks_tile_array blocks] in Hstore.
  apply bind_ok in Hstore. destruct Hstore as [written [Hblocks _]].
  destruct (s_img s) as [|im0 rest] eqn:Eimg; [simpl in Hi; lia|].
  cbn [map mapM] in Hblocks.
  apply bind_ok in Hblocks. destruct Hblocks as [tiles0 [Hblock0 _]].
  apply bind_ok in Hblock0. destruct Hblock0 as [tiles [Htiles Hfit]].
  match type of Hfit with
  | (if ?x =? ?y then _ else _) = _ =>
      destruct (Z.eqb_spec x y) as [Elen|]; [|discriminate]
  end.
  change (Z.pow_pos (n_side target_size tile_size overlap) 2)
    with (n_side target_size tile_size overlap ^ 2) in *.
  clear Hfit.
  apply Forall_inv in Hsi.
  destruct (_tile_array_ok_domain _ c h w _ _ _ _
              (image_astype_shape astype_int16 c h w im0 Hsi) Hc Hh Htiles)
    as (H1 & H2 & H3 & _ & Hneg).
  repeat split; try lia.
  destruct (Z.lt_trichotomy overlap 0) as [Hlt|[Heq|Hgt]]; [|lia|exact Hgt].
  exfalso.
  (* a negative overlap leaves no geotransform, hence no row *)
  unfold _tile_affines in Haff.
  apply bind_ok in Haff. destruct Haff as [per_item [Hper Haff]].
  apply bind_ok in Haff. destruct Haff as [u [Hassert _]].
  apply assert_ok, Z.eqb_eq in Hassert.
  cbn [map_blocks_tile_array shape0] in Hassert.
  rewrite length_map in Hassert. cbn [length] in Hassert.
  assert (Hempty : concat per_item = []).
  { apply mapM_Forall2 in Hper. clear -Hper Hlt H3.
    induction Hper as [|x y l1 l2 Hxy _ IH]; [reflexivity|].
    rewrite _tile_one_affine_backwards in Hxy by lia.
    injection Hxy as <-. exact IH. }
  rewrite Hempty in Hassert. cbn [length] in Hassert.
  assert (Hz : n_side target_size tile_size overlap ^ 2 = 0) by lia.
  rewrite Hz in Elen.
  apply (Hneg Hlt). destruct tiles; [reflexivity|simpl in Elen; lia].
Qed.

(* ===================================================================== *)
(** ** C2, the theorem                                                    *)
(* ===================================================================== *)

(** C2: the Tiler enumerates tiles in row-major order, and the image,
    label and metadata arrays of its output agree on that order.  For a
    well-formed store:
    (1) for every item of height and width at most target_size,
    [_tile_array] returns n_side^2 tiles, and tile i is the
    tile_size x tile_size crop of the item's zero-padded
    target_size x target_size canvas at row offset
    overlap * (i div n_side) and column offset overlap * (i mod n_side);
    (2) with the items no larger than target_size, a positive overlap
    and 0 < tile_size <= target_size the run completes;
    (3) every completed run had its parameters in that domain, and for
    item k and tile index i, row k * n_side^2 + i of /img and of /lbl is
    tile i of the block of item k as the Tiler read it, the identifier
    of that row carries index i, its EPSG code is the one of item k and
    its geotransform is the one of the origin of tile i. *)
Theorem tiles_row_major :
  forall (s : Store) (N c h w : nat) (tile_size overlap target_size : Z),
    (0 < N)%nat ->
    length (s_img s) = N -> length (s_lbl s) = N -> length (s_path s) = N ->
    length (s_epsg s) = N -> length (s_affine s) = N ->
    Forall (image_shape c h w) (s_img s) ->
    Forall (plane_shape h w) (s_lbl s) ->
    Forall (fun a => length a = 6%nat) (s_affine s) ->
    (0 < c)%nat -> (0 < h)%nat -> (0 < w)%nat ->
    let n := n_side target_size tile_size overlap in
    let size := Z.to_nat tile_size in
    let row_offset := fun i : nat => overlap * (Z.of_nat i / n) in
    let col_offset := fun i : nat => overlap * (Z.of_nat i mod n) in
    let in_domain :=
      Z.of_nat h <= target_size /\ Z.of_nat w <= target_size /\
      0 < tile_size <= target_size /\ 0 < overlap in
    let run := tile_img_h5 (store_file s) tile_size overlap target_size in
    (* (1) the tiles of one item *)
    (forall (c' : nat) (item : image),
        (0 < c')%nat -> image_shape c' h w item -> in_domain ->
        exists tiles,
          _tile_array [item] tile_size overlap target_size = Ok tiles /\
          Z.of_nat (length tiles) = n * n /\
          forall i : nat,
            Z.of_nat i < n * n ->
            exists tile,
              nth_error tiles i = Some tile /\
              image_shape c' size size tile /\
              forall b y x,
                (b < c')%nat -> (y < size)%nat -> (x < size)%nat ->
                px tile b y x
                = if (Z.to_nat (row_offset i) + y <? h)%nat
                     && (Z.to_nat (col_offset i) + x <? w)%nat
                  then px item b (Z.to_nat (row_offset i) + y)
                          (Z.to_nat (col_offset i) + x)
                  else 0) /\
    (* (2) the run completes *)
    (in_domain -> exists f, run = Completed f) /\
    (* (3) the rows of the tiled store *)
    (forall f,
        run = Completed f ->
        in_domain /\
        exists img_rows lbl_rows path_rows epsg_rows affine_rows,
          h5_lookup f "/img" = Some (Int4 img_rows) /\
          h5_lookup f "/lbl" = Some (Int4 lbl_rows) /\
          h5_lookup f "/path" = Some (Str1 path_rows) /\
          h5_lookup f "/epsg" = Some (Int1 epsg_rows) /\
          h5_lookup f "/affine" = Some (Float2 affine_rows) /\
          forall (k i : nat) item lbl p e a,
            nth_error (s_img s) k = Some item ->
            nth_error (s_lbl s) k = Some lbl ->
            nth_error (s_path s) k = Some p ->
            nth_error (s_epsg s) k = Some e ->
            nth_error (s_affine s) k = Some a ->
            Z.of_nat i < n * n ->
            let row := (k * Z.to_nat (n * n) + i)%nat in
            (exists tiles,
                _tile_array [image_astype astype_int16 item]
                            tile_size overlap target_size = Ok tiles /\
                (i < length tiles)%nat /\
                nth_error img_rows row = nth_error tiles i) /\
            (exists tiles,
                _tile_array [[map (map astype_int16) lbl]]
                            tile_size overlap target_size = Ok tiles /\
                (i < length tiles)%nat /\
                nth_error lbl_rows row = nth_error tiles i) /\
            nth_error path_rows row
            = Some (p ++ "_"
                      ++ format_0w (Z.of_nat i)
                                   (String.length (str (n ^ 2))))%string /\
            nth_error epsg_rows row = Some e /\
            exists t,
              nth_error affine_rows row = Some t /\
              _affine_from_rowcol a (row_offset i) (col_offset i) = Ok t).
Proof.
  intros s N c h w ts ov P HN Hi Hl Hp He Ha Hsi Hsl Hsa Hc Hh Hw
         n size row_offset col_offset in_domain run.
  split; [|split].
  - intros c' item Hc' Hitem (HhP & HwP & Hts & Hov).
    exists (map (fun i => window size (canvas (Z.to_nat P) h w item)
                                 ((i / Z.to_nat n) * Z.to_nat ov)%nat
                                 ((i mod Z.to_nat n) * Z.to_nat ov)%nat)
                (seq 0 (Z.to_nat n * Z.to_nat n))).
    assert (Hside : 1 <= n).
    { unfold n, n_side.
      assert (0 <= (P - ts) / ov) by (apply Z.div_pos; lia). lia. }
    split; [now apply (_tile_array_item item c' h w)|].
    split; [rewrite length_map, length_seq; nia|].
    intros i Hlt.
    destruct (_tile_array_row_major item c' h w 0 0 0 0 0 0 ts ov P i
                Hitem Hc' Hh Hw HhP HwP Hov Hts Hlt)
      as (tiles & tile & _ & _ & Et & _ & Hnth & _ & Hshape & Hpx & _).
    rewrite (_tile_array_item item c' h w ts ov P Hitem) in Et by assumption.
    injection Et as <-.
    exists tile. split; [exact Hnth|]. split; [exact Hshape|exact Hpx].
  - intros (HhP & HwP & Hts & Hov).
    destruct (tile_img_h5_valid_run s N c h w ts ov P HN Hi Hl Hp He Ha
                Hsi Hsl Hsa Hc Hh Hw HhP HwP Hov Hts)
      as (affs & _ & Hrun).
    eexists. exact Hrun.
  - intros f Hf.
    destruct (tile_img_h5_completed_domain s N c h w ts ov P f HN Hi Hsi Hc Hh Hf)
      as (HhP & HwP & Hts & Hov).
    split; [repeat split; lia|].
    assert (Hside : 1 <= n).
    { unfold n, n_side.
      assert (0 <= (P - ts) / ov) by (apply Z.div_pos; lia). lia. }
    destruct (tile_img_h5_valid_run s N c h w ts ov P HN Hi Hl Hp He Ha
                Hsi Hsl Hsa Hc Hh Hw HhP HwP Hov Hts)
      as (affs & HF & Hrun).
    unfold run in Hf. rewrite Hrun in Hf. injection Hf as <-.
    do 5 eexists.
    do 5 (split; [reflexivity|]).
    intros k i item lbl p e a Hki Hkl Hkp Hke Hka Hlt row.
    assert (Hnn : Z.to_nat (n * n) = (Z.to_nat n * Z.to_nat n)%nat) by nia.
    assert (Hpow : Z.to_nat (n ^ 2) = (Z.to_nat n * Z.to_nat n)%nat)
      by (rewrite Z.pow_2_r; nia).
    assert (Him : (i < Z.to_nat n * Z.to_nat n)%nat) by nia.
    assert (Hlt2 : Z.of_nat i < n ^ 2) by (rewrite Z.pow_2_r; lia).
    assert (H0n : 0 <= n ^ 2) by (rewrite Z.pow_2_r; nia).
    assert (Him2 : (i < Z.to_nat (n ^ 2))%nat) by (rewrite Hpow; exact Him).
    unfold row. rewrite Hnn. fold n.
    split; [|split; [|split; [|split]]].
    + eexists. split.
      * apply (_tile_array_item _ c h w); try assumption.
        apply image_astype_shape.
        rewrite Forall_forall in Hsi. apply Hsi. eapply nth_error_In, Hki.
      * rewrite length_map, length_seq. split; [exact Him|].
        erewrite (nth_error_concat_uniform _ (Z.to_nat n * Z.to_nat n) k i);
          [reflexivity| | |exact Him].
        -- apply Forall_map, Forall_forall. intros.
           now rewrite length_map, length_seq.
        -- rewrite nth_error_map, Hki. reflexivity.
    + eexists. split.
      * apply (_tile_array_item _ 1%nat h w); try assumption; try lia.
        rewrite Forall_forall in Hsl.
        destruct (Hsl lbl (nth_error_In _ _ Hkl)) as [Hph Hpw].
        split; [reflexivity|]. constructor; [|constructor].
        split; [now rewrite length_map|].
        apply Forall_map. revert Hpw. apply Forall_impl. intros r Hr.
        now rewrite length_map.
      * rewrite length_map, length_seq. split; [exact Him|].
        erewrite (nth_error_concat_uniform _ (Z.to_nat n * Z.to_nat n) k i);
          [reflexivity| | |exact Him].
        -- apply Forall_map, Forall_forall. intros.
           now rewrite length_map, length_seq.
        -- rewrite nth_error_map, Hkl. reflexivity.
    + rewrite (nth_error_flat_map_uniform _ _ (Z.to_nat n * Z.to_nat n) k i p).
      * rewrite nth_error_map, range_count_nth by exact Hlt2.
        reflexivity.
      * intros y _. rewrite length_map, range_elems_length_count
          by exact H0n. exact Hpow.
      * exact Hkp.
      * exact Him.
    + rewrite (nth_error_flat_map_uniform _ _ (Z.to_nat n * Z.to_nat n) k i e).
      * apply nth_error_repeat. exact Him2.
      * intros y _. now rewrite repeat_length.
      * exact Hke.
      * exact Him.
    + destruct (Forall2_nth_error _ _ _ _ _ HF Hka) as (out & Hout & Ho).
      assert (Horig := tile_origins_nth P ts ov i Hov ltac:(lia) Hlt).
      destruct (Forall2_nth_error _ _ _ _ _ Ho Horig) as (t & Ht & Hrt).
      exists t. split; [|exact Hrt].
      rewrite (nth_error_concat_uniform _ (Z.to_nat n * Z.to_nat n) k i out);
        [exact Ht| |exact Hout|exact Him].
      clear -HF Hov Hts. induction HF as [|a' out' l1 l2 Hao _ IH];
        constructor; auto.
      rewrite <- (Forall2_length Hao). apply tile_origins_length; lia.
Qed.

Lemma small_store_shapes :
  Forall (image_shape 1 2 3) (s_img small_store) /\
  Forall (plane_shape 2 3) (s_lbl small_store) /\
  Forall (fun a => length a = 6%nat) (s_affine small_store).
Proof.
  unfold image_shape, plane_shape. cbn.
  repeat match goal with
         | |- _ /\ _ => split
         | |- Forall _ (_ :: _) => constructor
         | |- Forall _ [] => constructor
         end; reflexivity.
Qed.

Lemma tiles_row_major_witness :
  exists f img_rows path_rows affine_rows tiles t,
    tile_img_h5 (store_file small_store) 2 2 4 = Completed f /\
    h5_lookup f "/img" = Some (Int4 img_rows) /\
    h5_lookup f "/path" = Some (Str1 path_rows) /\
    h5_lookup f "/affine" = Some (Float2 affine_rows) /\
    _tile_array [image_astype astype_int16 [ [[1; 2; 3]; [4; 5; 40000]] ]]
                2 2 4 = Ok tiles /\
    nth_error img_rows 1 = nth_error tiles 1 /\
    nth_error path_rows 1 = Some "img_1"%string /\
    nth_error affine_rows 1 = Some t /\
    _affine_from_rowcol (rio.to_gdal north_up) 0 2 = Ok t.
Proof.
  destruct small_store_shapes as (Hi & Hl & Ha).
  destruct (tiles_row_major small_store 1 1 2 3 2 2 4) as (_ & Hrun & H);
    try reflexivity; try assumption; try lia.
  destruct Hrun as [f Hrun]; [repeat split; lia|].
  destruct (H f Hrun)
    as (_ & img_rows & lbl_rows & path_rows & epsg_rows & affine_rows
        & Li & _ & Lp & _ & La & Hrows).
  destruct (Hrows 0%nat 1%nat _ _ _ _ _ eq_refl eq_refl eq_refl eq_refl eq_refl
                  eq_refl)
    as ((tiles & Ht & _ & Hr) & _ & Hpath & _ & (t & Haff & Hcell)).
  exists f, img_rows, path_rows, affine_rows, tiles, t.
  repeat split; assumption.
Defined.

(* ===================================================================== *)
(** ** Remarks                                                            *)
(* ===================================================================== *)

(** [if image_bands:] does not tell an empty band list from no band
    list. *)
Remark empty_band_list_is_default (counts : list Z) :
  check_number_bands (Some []) counts = check_number_bands None counts.
Proof. reflexivity. Qed.

(** A tile index has as many digits as n_tiles needs, e.g. 49 tiles are
    numbered 00 to 48. *)
Example tile_name_zero_padded :
  (String.length (str 49) = 2)%nat /\
  format_0w 7 2 = "07"%string /\ format_0w 48 2 = "48"%string.
Proof. repeat split. Qed.

(* ===================================================================== *)
(** ** Tiles on the ground and on the canvas                              *)
(* ===================================================================== *)

(** X1: the geotransform [_affine_from_rowcol] derives for the tile at
    (row, col) places every pixel (y, x) of the tile where the parent's
    geotransform places pixel (row + y, col + x). *)
Theorem tile_transform_keeps_pixel_positions :
  forall (a0 a1 a2 a3 a4 a5 : Q) (row col : Z),
    exists gt parent_t tile_t,
      _affine_from_rowcol [a0; a1; a2; a3; a4; a5] row col = Ok gt /\
      rio.from_gdal [a0; a1; a2; a3; a4; a5] = Ok parent_t /\
      rio.from_gdal gt = Ok tile_t /\
      forall y x : Z,
        (fst (rio.xy_ul tile_t y x)
         == fst (rio.xy_ul parent_t (row + y) (col + x)))%Q /\
        (snd (rio.xy_ul tile_t y x)
         == snd (rio.xy_ul parent_t (row + y) (col + x)))%Q.
Proof.
  intros a0 a1 a2 a3 a4 a5 row col.
  do 3 eexists.
  split; [reflexivity|]. split; [reflexivity|]. split; [reflexivity|].
  intros y x.
  unfold rio.xy_ul, rio.mul_point. cbn [fst snd rio.a rio.b rio.c rio.d rio.e rio.f].
  rewrite !inject_Z_plus. split; ring.
Qed.

(** X2: when [overlap] does not exceed [tile_size] and divides
    [target_size - tile_size], the tiles of an item leave no pixel of
    the padded canvas out: every canvas position lies in some tile, at
    the place the tile's offsets say, with the item's value (zero in the
    padding). *)
Theorem tiles_cover_the_canvas :
  forall (item : image) (c h w : nat) (tile_size overlap target_size : Z),
    image_shape c h w item ->
    (0 < c)%nat -> (0 < h)%nat -> (0 < w)%nat ->
    Z.of_nat h <= target_size -> Z.of_nat w <= target_size ->
    0 < overlap <= tile_size -> tile_size <= target_size ->
    (target_size - tile_size) mod overlap = 0 ->
    let n := n_side target_size tile_size overlap in
    exists tiles,
      _tile_array [item] tile_size overlap target_size = Ok tiles /\
      forall b y x : nat,
        (b < c)%nat -> Z.of_nat y < target_size -> Z.of_nat x < target_size ->
        exists (i : nat) (tile : image) (y' x' : nat),
          nth_error tiles i = Some tile /\
          (y' < Z.to_nat tile_size)%nat /\ (x' < Z.to_nat tile_size)%nat /\
          Z.of_nat y = overlap * (Z.of_nat i / n) + Z.of_nat y' /\
          Z.of_nat x = overlap * (Z.of_nat i mod n) + Z.of_nat x' /\
          px tile b y' x'
          = if (y <? h)%nat && (x <? w)%nat then px item b y x else 0.
Proof.
  intros item c h w ts ov P Hsh Hc Hh Hw HhP HwP Hov Hts Hdiv n.
  assert (Hts' : 0 < ts <= P) by lia.
  assert (Hov' : 0 < ov) by lia.
  assert (Hq0 : 0 <= (P - ts) / ov) by (apply Z.div_pos; lia).
  assert (Hn : 1 <= n) by (unfold n, n_side; lia).
  assert (Hlast : ov * (n - 1) = P - ts).
  { unfold n, n_side.
    replace ((P - ts) / ov + 1 - 1) with ((P - ts) / ov) by lia.
    pose proof (Z.div_mod (P - ts) ov ltac:(lia)). lia. }
  destruct (_tile_array_row_major item c h w 0 0 0 0 0 0 ts ov P 0
              Hsh Hc Hh Hw HhP HwP Hov' Hts' ltac:(fold n; nia))
    as (tiles & _ & _ & _ & Et & _).
  exists tiles. split; [exact Et|].
  intros b y x Hb Hy Hx.
  (* the last tile row and column that start at or before the pixel *)
  assert (Hpick : forall v : nat, Z.of_nat v < P ->
             exists r : Z, 0 <= r < n /\
                           ov * r <= Z.of_nat v < ov * r + ts).
  { intros v Hv. exists (Z.min (Z.of_nat v / ov) (n - 1)).
    assert (0 <= Z.of_nat v / ov) by (apply Z.div_pos; lia).
    pose proof (Z.mul_div_le (Z.of_nat v) ov Hov').
    pose proof (Z.mul_succ_div_gt (Z.of_nat v) ov Hov').
    destruct (Z.min_spec (Z.of_nat v / ov) (n - 1)) as [[Hlt ->]|[Hge ->]].
    - split; [lia|]. split; [lia|]. nia.
    - split; [lia|]. split; [|lia]. nia. }
  destruct (Hpick y Hy) as (r & Hr & Hry).
  destruct (Hpick x Hx) as (q & Hq & Hqx).
  set (i := Z.to_nat (r * n + q)).
  assert (Hi : Z.of_nat i = r * n + q) by (unfold i; nia).
  assert (Hidiv : Z.of_nat i / n = r).
  { rewrite Hi. symmetry. apply (Z.div_unique_pos _ _ r q); lia. }
  assert (Himod : Z.of_nat i mod n = q).
  { rewrite Hi. symmetry. apply (Z.mod_unique_pos _ _ r q); lia. }
  destruct (_tile_array_row_major item c h w 0 0 0 0 0 0 ts ov P i
              Hsh Hc Hh Hw HhP HwP Hov' Hts' ltac:(fold n; nia))
    as (tiles' & tile & _ & _ & Et' & _ & Hnth & _ & _ & Hpx & _).
  rewrite Et in Et'. injection Et' as <-.
  fold n in Hpx. rewrite Hidiv, Himod in Hpx.
  exists i, tile, (Z.to_nat (Z.of_nat y - ov * r)),
         (Z.to_nat (Z.of_nat x - ov * q)).
  split; [exact Hnth|]. split; [lia|]. split; [lia|].
  rewrite Hidiv, Himod. split; [lia|]. split; [lia|].
  rewrite Hpx by lia.
  replace (Z.to_nat (ov * r) + Z.to_nat (Z.of_nat y - ov * r))%nat with y by lia.
  replace (Z.to_nat (ov * q) + Z.to_nat (Z.of_nat x - ov * q))%nat with x by lia.
  reflexivity.
Qed.

Lemma tiles_cover_the_canvas_witness :
  exists tiles,
    _tile_array [small_item] 2 2 4 = Ok tiles /\
    forall b y x : nat,
      (b < 2)%nat -> Z.of_nat y < 4 -> Z.of_nat x < 4 ->
      exists (i : nat) (tile : image) (y' x' : nat),
        nth_error tiles i = Some tile /\
        (y' < Z.to_nat 2)%nat /\ (x' < Z.to_nat 2)%nat /\
        Z.of_nat y = 2 * (Z.of_nat i / n_side 4 2 2) + Z.of_nat y' /\
        Z.of_nat x = 2 * (Z.of_nat i mod n_side 4 2 2) + Z.of_nat x' /\
        px tile b y' x'
        = if (y <? 2)%nat && (x <? 3)%nat then px small_item b y x else 0.
Proof.
  apply (tiles_cover_the_canvas small_item 2 2 3 2 2 4);
    [exact small_item_shape|lia|lia|lia|simpl; lia|simpl; lia|lia|lia
    |reflexivity].
Defined.

(* ===================================================================== *)
(** ** Reconstructing from a tiled store                                  *)
(* ===================================================================== *)

Lemma astype_uint16_int16 (v : Z) :
  0 <= v < 65536 -> astype_uint16 (astype_int16 v) = v.
Proof.
  intros Hv. unfold astype_uint16, astype_int16.
  rewrite Zminus_mod_idemp_l.
  replace (v + 32768 - 32768) with v by lia.
  now apply Z.mod_small.
Qed.

Lemma image_astype_window (cast : Z -> Z) (size : nat) (im : image) (r q : nat) :
  image_astype cast (window size im r q)
  = window size (image_astype cast im) r q.
Proof.
  unfold image_astype, window. rewrite !map_map.
  apply map_ext. intros p.
  rewrite skipn_map, firstn_map, !map_map.
  apply map_ext. intros row.
  now rewrite skipn_map, firstn_map.
Qed.

Lemma image_astype_canvas (cast : Z -> Z) (size h w : nat) (im : image) :
  cast 0 = 0 ->
  image_astype cast (canvas size h w im)
  = canvas size h w (image_astype cast im).
Proof.
  intros H0. unfold image_astype, canvas. rewrite !map_map.
  apply map_ext. intros p. unfold pad_plane.
  rewrite map_app, !map_map, !map_repeat, H0.
  f_equal. apply map_ext. intros row.
  now rewrite map_app, map_repeat, H0.
Qed.

Lemma image_astype_uint16_int16 (im : image) :
  in_uint16 im ->
  image_astype astype_uint16 (image_astype astype_int16 im) = im.
Proof.
  unfold in_uint16, image_astype. intros H.
  rewrite map_map. rewrite <- (map_id im) at 2.
  apply map_ext_in. intros p Hp.
  rewrite Forall_forall in H. specialize (H p Hp).
  rewrite map_map. rewrite <- (map_id p) at 2.
  apply map_ext_in. intros row Hrow.
  rewrite Forall_forall in H. specialize (H row Hrow).
  rewrite map_map. rewrite <- (map_id row) at 2.
  apply map_ext_in. intros v Hv.
  rewrite Forall_forall in H. apply astype_uint16_int16. now apply H.
Qed.

Lemma nat_tile_offsets (i : nat) (n ov : Z) :
  0 < n -> 0 < ov ->
  ((i / Z.to_nat n) * Z.to_nat ov)%nat = Z.to_nat (ov * (Z.of_nat i / n)) /\
  ((i mod Z.to_nat n) * Z.to_nat ov)%nat = Z.to_nat (ov * (Z.of_nat i mod n)).
Proof.
  intros Hn Hov.
  assert (0 <= Z.of_nat i / n) by (apply Z.div_pos; lia).
  assert (0 <= Z.of_nat i mod n < n) by (apply Z.mod_pos_bound; lia).
  split; apply Nat2Z.inj.
  - rewrite Nat2Z.inj_mul, Nat2Z.inj_div, !Z2Nat.id by nia. ring.
  - rewrite Nat2Z.inj_mul, Nat2Z.inj_mod, !Z2Nat.id by nia. ring.
Qed.

(** Row [k * n_tiles + i] of every dataset of a tiled store. *)
Lemma tile_img_h5_row (s : Store) (N c h w : nat)
      (tile_size overlap target_size : Z) (k i : nat)
      (item : image) (lbl : plane) (p : string) (e : Z) (a : list Q) :
  (0 < N)%nat ->
  length (s_img s) = N -> length (s_lbl s) = N -> length (s_path s) = N ->
  length (s_epsg s) = N -> length (s_affine s) = N ->
  Forall (image_shape c h w) (s_img s) ->
  Forall (plane_shape h w) (s_lbl s) ->
  Forall (fun a => length a = 6%nat) (s_affine s) ->
  (0 < c)%nat -> (0 < h)%nat -> (0 < w)%nat ->
  Z.of_nat h <= target_size -> Z.of_nat w <= target_size ->
  0 < overlap -> 0 < tile_size <= target_size ->
  nth_error (s_img s) k = Some item ->
  nth_error (s_lbl s) k = Some lbl ->
  nth_error (s_path s) k = Some p ->
  nth_error (s_epsg s) k = Some e ->
  nth_error (s_affine s) k = Some a ->
  let n := n_side target_size tile_size overlap in
  Z.of_nat i < n * n ->
  let row := (k * Z.to_nat (n * n) + i)%nat in
  let size := Z.to_nat tile_size in
  let row_offset := overlap * (Z.of_nat i / n) in
  let col_offset := overlap * (Z.of_nat i mod n) in
  exists img_rows lbl_rows path_rows epsg_rows affine_rows t,
    tile_img_h5 (store_file s) tile_size overlap target_size
    = Completed [ ("/img", Int4 img_rows);
                  ("/lbl", Int4 lbl_rows);
                  ("/img_means", Int1 (map float_astype_int16 (s_means s)));
                  ("/img_stds", Int1 (map float_astype_int16 (s_stds s)));
                  ("/path", Str1 path_rows);
                  ("/epsg", Int1 epsg_rows);
                  ("/affine", Float2 affine_rows) ]%string /\
    nth_error img_rows row
    = Some (window size (canvas (Z.to_nat target_size) h w
                                (image_astype astype_int16 item))
                   (Z.to_nat row_offset) (Z.to_nat col_offset)) /\
    nth_error lbl_rows row
    = Some (window size (canvas (Z.to_nat target_size) h w
                                [map (map astype_int16) lbl])
                   (Z.to_nat row_offset) (Z.to_nat col_offset)) /\
    nth_error path_rows row
    = Some (p ++ "_" ++ format_0w (Z.of_nat i)
                                  (String.length (str (n ^ 2))))%string /\
    nth_error epsg_rows row = Some e /\
    nth_error affine_rows row = Some t /\
    _affine_from_rowcol a row_offset col_offset = Ok t.
Proof.
  intros HN Hi Hl Hp He Ha Hsi Hsl Hsa Hc Hh Hw HhP HwP Hov Hts
         Hki Hkl Hkp Hke Hka n Hlt row size row_offset col_offset.
  assert (Hside : 1 <= n).
  { unfold n, n_side.
    assert (0 <= (target_size - tile_size) / overlap)
      by (apply Z.div_pos; lia). lia. }
  destruct (tile_img_h5_valid_run s N c h w tile_size overlap target_size
              HN Hi Hl Hp He Ha Hsi Hsl Hsa Hc Hh Hw HhP HwP Hov Hts)
    as (affs & HF & Hrun).
  fold n in Hrun.
  assert (Hnn : Z.to_nat (n * n) = (Z.to_nat n * Z.to_nat n)%nat) by nia.
  assert (Hpow : Z.to_nat (n ^ 2) = (Z.to_nat n * Z.to_nat n)%nat)
    by (rewrite Z.pow_2_r; nia).
  assert (Him : (i < Z.to_nat n * Z.to_nat n)%nat) by nia.
  assert (Hlt2 : Z.of_nat i < n ^ 2) by (rewrite Z.pow_2_r; lia).
  assert (H0n : 0 <= n ^ 2) by (rewrite Z.pow_2_r; nia).
  assert (Him2 : (i < Z.to_nat (n ^ 2))%nat) by (rewrite Hpow; exact Him).
  destruct (nat_tile_offsets i n overlap ltac:(lia) Hov) as [Er Eq].
  destruct (Forall2_nth_error _ _ _ _ _ HF Hka) as (out & Hout & Ho).
  assert (Horig := tile_origins_nth target_size tile_size overlap i
                     Hov ltac:(lia) Hlt).
  destruct (Forall2_nth_error _ _ _ _ _ Ho Horig) as (t & Ht & Hrt).
  do 5 eexists. exists t.
  split; [exact Hrun|].
  unfold row. rewrite Hnn.
  split; [|split; [|split; [|split; [|split]]]].
  - erewrite (nth_error_concat_uniform _ (Z.to_nat n * Z.to_nat n) k i);
      [| | |exact Him].
    3:{ rewrite nth_error_map, Hki. reflexivity. }
    2:{ apply Forall_map, Forall_forall. intros.
        now rewrite length_map, length_seq. }
    rewrite nth_error_map_seq by exact Him. cbv beta.
    unfold row_offset, col_offset. now rewrite Er, Eq.
  - erewrite (nth_error_concat_uniform _ (Z.to_nat n * Z.to_nat n) k i);
      [| | |exact Him].
    3:{ rewrite nth_error_map, Hkl. reflexivity. }
    2:{ apply Forall_map, Forall_forall. intros.
        now rewrite length_map, length_seq. }
    rewrite nth_error_map_seq by exact Him. cbv beta.
    unfold row_offset, col_offset. now rewrite Er, Eq.
  - rewrite (nth_error_flat_map_uniform _ _ (Z.to_nat n * Z.to_nat n) k i p).
    + rewrite nth_error_map, range_count_nth by exact Hlt2.
      reflexivity.
    + intros y _. rewrite length_map, range_elems_length_count
        by exact H0n. exact Hpow.
    + exact Hkp.
    + exact Him.
  - rewrite (nth_error_flat_map_uniform _ _ (Z.to_nat n * Z.to_nat n) k i e).
    + apply nth_error_repeat. exact Him2.
    + intros y _. now rewrite repeat_length.
    + exact Hke.
    + exact Him.
  - rewrite (nth_error_concat_uniform _ (Z.to_nat n * Z.to_nat n) k i out);
      [exact Ht| |exact Hout|exact Him].
    clear -HF Hov Hts. induction HF as [|a' out' l1 l2 Hao _ IH];
      constructor; auto.
    rewrite <- (Forall2_length Hao). apply tile_origins_length; lia.
  - exact Hrt.
Qed.

Lemma tile_offset_bound (P ts ov j : Z) :
  0 < ov -> 0 < ts <= P -> 0 <= j < n_side P ts ov ->
  (Z.to_nat (ov * j) + Z.to_nat ts <= Z.to_nat P)%nat.
Proof.
  intros Hov Hts Hj. unfold n_side in Hj.
  assert (Hmul := Z.mul_div_le (P - ts) ov Hov). nia.
Qed.

Lemma window_canvas_dims (c h w size : nat) (P : Z) (item : image) (r q : nat) :
  image_shape c h w item -> (0 < c)%nat -> (0 < size)%nat ->
  Z.of_nat h <= P -> Z.of_nat w <= P ->
  (r + size <= Z.to_nat P)%nat -> (q + size <= Z.to_nat P)%nat ->
  let tile := window size (canvas (Z.to_nat P) h w item) r q in
  image_c tile = c /\ image_h tile = size /\ image_w tile = size.
Proof.
  intros Hsh Hc Hs HhP HwP Hr Hq tile.
  apply (image_shape_dims c size size); [|exact Hc|exact Hs].
  apply (window_shape size c (Z.to_nat P) (Z.to_nat P)); [|exact Hr|exact Hq].
  apply canvas_shape; [exact Hsh|lia|lia].
Qed.

(** X3: reconstructing row [k * n_tiles + i] of a tiled store writes the
    i-th tile of item k as a raster of [tile_size] by [tile_size]
    pixels with the item's CRS and the tile's geotransform.  When the
    item's pixels fit 16 unsigned bits, the raster holds the window of
    the item's zero-padded canvas unchanged: the cast to uint16 undoes
    the Tiler's cast to int16. *)
Theorem tiles_reconstruct_as_windows :
  forall (s : Store) (N c h w : nat) (tile_size overlap target_size : Z)
         (k i : nat) (item : image) (lbl : plane) (p : string) (e : Z)
         (a : list Q),
    (0 < N)%nat ->
    length (s_img s) = N -> length (s_lbl s) = N -> length (s_path s) = N ->
    length (s_epsg s) = N -> length (s_affine s) = N ->
    Forall (image_shape c h w) (s_img s) ->
    Forall (plane_shape h w) (s_lbl s) ->
    Forall (fun a => length a = 6%nat) (s_affine s) ->
    (0 < c)%nat -> (0 < h)%nat -> (0 < w)%nat ->
    Z.of_nat h <= target_size -> Z.of_nat w <= target_size ->
    0 < overlap -> 0 < tile_size <= target_size ->
    nth_error (s_img s) k = Some item ->
    nth_error (s_lbl s) k = Some lbl ->
    nth_error (s_path s) k = Some p ->
    nth_error (s_epsg s) k = Some e ->
    nth_error (s_affine s) k = Some a ->
    in_uint16 item -> in_uint16 [lbl] ->
    let n := n_side target_size tile_size overlap in
    Z.of_nat i < n * n ->
    let row := (k * Z.to_nat (n * n) + i)%nat in
    let size := Z.to_nat tile_size in
    let row_offset := overlap * (Z.of_nat i / n) in
    let col_offset := overlap * (Z.of_nat i mod n) in
    let tile_name :=
      (p ++ "_" ++ format_0w (Z.of_nat i) (String.length (str (n ^ 2))))%string in
    exists f gt t,
      tile_img_h5 (store_file s) tile_size overlap target_size = Completed f /\
      _affine_from_rowcol a row_offset col_offset = Ok gt /\
      rio.from_gdal gt = Ok t /\
      _create_raster (Z.of_nat row) f
      = Ok [ ((tile_name ++ ".tif")%string,
              mk_raster tile_size tile_size e t
                        (window size (canvas (Z.to_nat target_size) h w item)
                                (Z.to_nat row_offset) (Z.to_nat col_offset)));
             ((tile_name ++ "_label.tif")%string,
              mk_raster tile_size tile_size e t
                        (window size (canvas (Z.to_nat target_size) h w [lbl])
                                (Z.to_nat row_offset) (Z.to_nat col_offset))) ].
Proof.
  intros s N c h w ts ov P k i item lbl p e a
         HN Hi Hl Hp He Ha Hsi Hsl Hsa Hc Hh Hw HhP HwP Hov Hts
         Hki Hkl Hkp Hke Hka Hu16 Hl16 n Hlt row size row_offset col_offset
         tile_name.
  destruct (tile_img_h5_row s N c h w ts ov P k i item lbl p e a
              HN Hi Hl Hp He Ha Hsi Hsl Hsa Hc Hh Hw HhP HwP Hov Hts
              Hki Hkl Hkp Hke Hka Hlt)
    as (img_rows & lbl_rows & path_rows & epsg_rows & affine_rows & gt
        & Hrun & Himg & Hlbl & Hpath & Hepsg & Haff & Hgt).
  fold n row size row_offset col_offset in Himg, Hlbl, Hpath, Hepsg, Haff, Hgt.
  fold tile_name in Hpath.
  (* the tile's geotransform has six terms *)
  assert (Ha6 : length a = 6%nat).
  { rewrite Forall_forall in Hsa. apply Hsa. eapply nth_error_In, Hka. }
  destruct a as [|a0 [|a1 [|a2 [|a3 [|a4 [|a5 [|]]]]]]]; try discriminate.
  destruct (_affine_from_rowcol_spec a0 a1 a2 a3 a4 a5 row_offset col_offset)
    as (gt' & Hgt' & x & y & Egt & _).
  rewrite Hgt in Hgt'. injection Hgt' as <-.
  (* offsets of the tile on the canvas *)
  assert (Hside : 1 <= n).
  { unfold n, n_side.
    assert (0 <= (P - ts) / ov) by (apply Z.div_pos; lia). lia. }
  assert (Hq : 0 <= Z.of_nat i / n) by (apply Z.div_pos; lia).
  assert (Hm : 0 <= Z.of_nat i mod n < n) by (apply Z.mod_pos_bound; lia).
  assert (Hqn : Z.of_nat i / n < n) by (apply Z.div_lt_upper_bound; lia).
  assert (Hmul := Z.mul_div_le (P - ts) ov Hov).
  assert (Hro : (Z.to_nat row_offset + size <= Z.to_nat P)%nat)
    by (apply tile_offset_bound; fold n; lia).
  assert (Hco : (Z.to_nat col_offset + size <= Z.to_nat P)%nat)
    by (apply tile_offset_bound; fold n; lia).
  assert (Hitem : image_shape c h w (image_astype astype_int16 item)).
  { apply image_astype_shape. rewrite Forall_forall in Hsi.
    apply Hsi. eapply nth_error_In, Hki. }
  assert (Hlblsh : image_shape 1 h w [map (map astype_int16) lbl]).
  { apply (image_astype_shape astype_int16 1 h w [lbl]).
    split; [reflexivity|]. constructor; [|constructor].
    rewrite Forall_forall in Hsl. apply Hsl. eapply nth_error_In, Hkl. }
  destruct (window_canvas_dims c h w size P _ _ _ Hitem Hc ltac:(unfold size; lia)
              HhP HwP Hro Hco) as (_ & Eih & Eiw).
  destruct (window_canvas_dims 1 h w size P _ _ _ Hlblsh ltac:(lia)
              ltac:(unfold size; lia) HhP HwP Hro Hco) as (Elc & Elh & Elw).
  exists [ ("/img", Int4 img_rows);
           ("/lbl", Int4 lbl_rows);
           ("/img_means", Int1 (map float_astype_int16 (s_means s)));
           ("/img_stds", Int1 (map float_astype_int16 (s_stds s)));
           ("/path", Str1 path_rows);
           ("/epsg", Int1 epsg_rows);
           ("/affine", Float2 affine_rows) ]%string.
  subst gt. exists [x; a1; a2; y; a4; a5]. eexists.
  split; [exact Hrun|]. split; [exact Hgt|]. split; [reflexivity|].
  unfold _create_raster, h5_get. cbn [abs_name h5_lookup String.eqb Ascii.eqb
                                      Bool.eqb bind].
  rewrite (h5_index_nat _ _ _ Himg), (h5_index_nat _ _ _ Hlbl),
    (h5_index_nat _ _ _ Hpath), (h5_index_nat _ _ _ Hepsg),
    (h5_index_nat _ _ _ Haff).
  cbn [bind rio.from_gdal].
  rewrite Eih, Eiw, Elc, Elh, Elw, !Nat.eqb_refl. cbn [andb].
  unfold size. rewrite Z2Nat.id by lia. fold size.
  rewrite !image_astype_window, !image_astype_canvas by reflexivity.
  rewrite (image_astype_uint16_int16 item Hu16).
  change [map (map astype_int16) lbl] with (image_astype astype_int16 [lbl]).
  rewrite (image_astype_uint16_int16 [lbl] Hl16).
  reflexivity.
Qed.

Lemma small_store_in_uint16 :
  in_uint16 [ [[1; 2; 3]; [4; 5; 40000]] ] /\
  in_uint16 [ [[1; 0; 1]; [0; 1; 0]] ].
Proof.
  unfold in_uint16.
  repeat match goal with
         | |- _ /\ _ => split
         | |- Forall _ (_ :: _) => constructor
         | |- Forall _ [] => constructor
         end; lia.
Qed.

Lemma tiles_reconstruct_as_windows_witness :
  exists f gt t,
    tile_img_h5 (store_file small_store) 2 2 4 = Completed f /\
    _affine_from_rowcol (rio.to_gdal north_up) 0 2 = Ok gt /\
    rio.from_gdal gt = Ok t /\
    _create_raster 1 f
    = Ok [ ("img_1.tif"%string,
            mk_raster 2 2 32601 t [ [[3; 0]; [40000; 0]] ]);
           ("img_1_label.tif"%string,
            mk_raster 2 2 32601 t [ [[1; 0]; [0; 0]] ]) ].
Proof.
  destruct small_store_shapes as (Hi & Hl & Ha).
  destruct small_store_in_uint16 as (Hu & Hv).
  apply (tiles_reconstruct_as_windows small_store 1 1 2 3 2 2 4 0 1
           [ [[1; 2; 3]; [4; 5; 40000]] ] [[1; 0; 1]; [0; 1; 0]]
           "img"%string 32601 (rio.to_gdal north_up));
    try reflexivity; try assumption; try lia.
Defined.

(* ===================================================================== *)
(** ** Runs of the Tiler that do not complete                             *)
(* ===================================================================== *)

(** X4: the output of [tile_img_h5] is no input for it: /lbl of a tiled
    store has four axes, and reading it with three-axis chunks raises
    before anything is written. *)
Theorem tiled_store_is_not_tiled_again :
  forall (src : h5file) (tile_size overlap target_size : Z) (f : h5file)
         (tile_size' overlap' target_size' : Z),
    tile_img_h5 src tile_size overlap target_size = Completed f ->
    tile_img_h5 f tile_size' overlap' target_size'
    = Aborted (ValueError "chunks do not match the number of axes").
Proof.
  intros src ts ov P f ts' ov' P' Hrun.
  destruct (tile_img_h5_completed _ _ _ _ _ Hrun) as (t & _ & Hper).
  apply tile_img_h5_persist_stores in Hper.
  destruct Hper as (_ & _ & Hper). bind_inv Hper. bind_inv Hper.
  injection Hper as <-. reflexivity.
Qed.

Lemma tiled_store_is_not_tiled_again_witness :
  exists f,
    tile_img_h5 (store_file small_store) 2 2 4 = Completed f /\
    tile_img_h5 f 1 1 2
    = Aborted (ValueError "chunks do not match the number of axes").
Proof.
  eexists. split; [reflexivity|].
  apply (tiled_store_is_not_tiled_again (store_file small_store) 2 2 4).
  reflexivity.
Defined.

(** X5: a store without rows is not tiled: [_tile_paths] takes the
    maximum of the identifier lengths, which raises on an empty
    sequence, before the destination is opened. *)
Theorem empty_store_is_not_tiled :
  forall (s : Store) (tile_size overlap target_size : Z),
    s_path s = [] -> overlap <> 0 ->
    tile_img_h5 (store_file s) tile_size overlap target_size
    = Aborted (ValueError "max() arg is an empty sequence").
Proof.
  intros s ts ov P Hp Hov. unfold tile_img_h5.
  rewrite (tile_img_h5_prepare_store s ts ov P Hov).
  cbv zeta. unfold _tile_paths. rewrite Hp. reflexivity.
Qed.

Lemma empty_store_is_not_tiled_witness :
  tile_img_h5 (store_file (mk_store [] [] [] [] [] [] [])) 2 2 4
  = Aborted (ValueError "max() arg is an empty sequence").
Proof.
  apply (empty_store_is_not_tiled (mk_store [] [] [] [] [] [] []) 2 2 4);
    [reflexivity|lia].
Defined.

(** What [tile_img_h5] has built when it opens the destination, for
    parameters that pass the three row-count checks. *)
Lemma tile_img_h5_prepare_valid (s : Store) (N : nat)
      (tile_size overlap target_size : Z) :
  (0 < N)%nat ->
  length (s_img s) = N -> length (s_path s) = N ->
  length (s_epsg s) = N -> length (s_affine s) = N ->
  Forall (fun a => length a = 6%nat) (s_affine s) ->
  0 < overlap -> tile_size <= target_size ->
  let count_tiles := (n_side target_size tile_size overlap) ^ 2 in
  exists path_t epsg_t affine_t,
    tile_img_h5_prepare (store_file s) tile_size overlap target_size
    = Ok (mk_tiled count_tiles
            (map_blocks_tile_array
               (map (image_astype astype_int16) (s_img s))
               tile_size overlap target_size count_tiles)
            (map_blocks_tile_array
               (map (fun p => [p]) (map (map (map astype_int16)) (s_lbl s)))
               tile_size overlap target_size count_tiles)
            (map float_astype_int16 (s_means s))
            (map float_astype_int16 (s_stds s))
            path_t epsg_t affine_t).
Proof.
  intros HN Hi Hp He Ha Hsa Hov Hts count_tiles.
  set (n := Z.to_nat (n_side target_size tile_size overlap)).
  assert (Hside : 1 <= n_side target_size tile_size overlap).
  { unfold n_side.
    assert (0 <= (target_size - tile_size) / overlap)
      by (apply Z.div_pos; lia). lia. }
  assert (Hnt : count_tiles = Z.of_nat (n * n)).
  { unfold count_tiles, n. rewrite Z.pow_2_r. nia. }
  destruct (mapM_ok_Forall2
              (fun a => _tile_one_affine a target_size tile_size overlap)
              (fun a out =>
                 Forall2 (fun o t => _affine_from_rowcol a (fst o) (snd o) = Ok t)
                         (tile_origins target_size tile_size overlap) out)
              (s_affine s)) as [affs [Haffs HF]].
  { intros a Hin. rewrite Forall_forall in Hsa.
    apply _tile_one_affine_origins; [now apply Hsa|lia]. }
  assert (Haffs_len : length (concat affs) = (N * (n * n))%nat).
  { rewrite (length_concat_uniform affs (n * n)).
    - now rewrite <- (Forall2_length HF), Ha.
    - clear -HF Hov Hts. induction HF as [|a out l1 l2 Hao _ IH];
        constructor; auto.
      rewrite <- (Forall2_length Hao).
      apply tile_origins_length; lia. }
  rewrite (tile_img_h5_prepare_store s tile_size overlap target_size) by lia.
  cbv zeta. fold count_tiles.
  set (img_t := map_blocks_tile_array
                  (map (image_astype astype_int16) (s_img s)) _ _ _ count_tiles).
  assert (Hs : shape0 img_t = Z.of_nat N * count_tiles).
  { unfold img_t. cbn [map_blocks_tile_array shape0].
    now rewrite length_map, Hi. }
  destruct (_tile_paths_count (s_path s) count_tiles img_t) as [pt Hpt];
    [destruct (s_path s); [simpl in Hp; lia|discriminate] | lia
     | now rewrite Hp |].
  destruct (_tile_epsgs_count (s_epsg s) count_tiles img_t) as [et Het];
    [lia | now rewrite He |].
  rewrite Hpt, Het. cbn [bind].
  unfold _tile_affines. rewrite Haffs. cbn [bind].
  rewrite Hs, Haffs_len.
  destruct (Z.eqb_spec (Z.of_nat N * count_tiles) (Z.of_nat (N * (n * n))))
    as [_|Hne]; [|nia].
  cbn [assert bind]. do 3 eexists. reflexivity.
Qed.

(** X6: an item higher or wider than [target_size] is not cropped: the
    checks before writing pass, and the first block fails on its
    negative pad width, after the destination was created. *)
Theorem oversized_items_are_not_cropped :
  forall (s : Store) (N c h w : nat) (tile_size overlap target_size : Z),
    (0 < N)%nat ->
    length (s_img s) = N -> length (s_path s) = N ->
    length (s_epsg s) = N -> length (s_affine s) = N ->
    Forall (image_shape c h w) (s_img s) ->
    Forall (fun a => length a = 6%nat) (s_affine s) ->
    (0 < c)%nat -> (0 < h)%nat ->
    0 < overlap -> 0 < tile_size <= target_size ->
    target_size < Z.of_nat h \/ target_size < Z.of_nat w ->
    tile_img_h5 (store_file s) tile_size overlap target_size
    = Interrupted (ValueError "index can't contain negative values").
Proof.
  intros s N c h w ts ov P HN Hi Hp He Ha Hsi Hsa Hc Hh Hov Hts Hbig.
  destruct (tile_img_h5_prepare_valid s N ts ov P HN Hi Hp He Ha Hsa Hov
              ltac:(lia)) as (pt & et & at_ & Hprep).
  unfold tile_img_h5. rewrite Hprep.
  unfold tile_img_h5_persist.
  rewrite create_dataset_ok.
  2:{ cbn [img_tiled map_blocks_tile_array shape0].
      rewrite length_map, Hi, Z.pow_2_r.
      assert (1 <= n_side P ts ov).
      { unfold n_side.
        assert (0 <= (P - ts) / ov) by (apply Z.div_pos; lia). lia. }
      nia. }
  cbn [bind]. unfold da_store.
  cbn [img_tiled n_tiles map_blocks_tile_array blocks].
  destruct (s_img s) as [|item rest]; [simpl in Hi; lia|].
  apply Forall_inv in Hsi.
  apply (image_astype_shape astype_int16) in Hsi.
  destruct (image_shape_dims _ _ _ _ Hsi Hc Hh) as (_ & Eh & Ew).
  cbn [map mapM]. unfold _tile_array at 1.
  cbn [block_h block_w]. rewrite Eh, Ew. unfold np_pad.
  assert (Hneg : (P - Z.of_nat h <? 0) || (P - Z.of_nat w <? 0) = true).
  { apply orb_true_iff. destruct Hbig; [left|right]; apply Z.ltb_lt; lia. }
  rewrite Hneg. reflexivity.
Qed.

Lemma oversized_items_are_not_cropped_witness :
  tile_img_h5 (store_file small_store) 2 2 2
  = Interrupted (ValueError "index can't contain negative values").
Proof.
  destruct small_store_shapes as (Hi & _ & Ha).
  apply (oversized_items_are_not_cropped small_store 1 1 2 3 2 2 2);
    try reflexivity; try assumption; try lia.
Defined.

(* ===================================================================== *)
(** ** From the source folder to the tiled store                          *)
(* ===================================================================== *)

Lemma nth_error_0_hd {A} (l : list A) (x : A) :
  nth_error l 0 = Some x -> exists tl, l = x :: tl.
Proof.
  destruct l as [|y tl]; simpl; [discriminate|].
  intros H. injection H as ->. now exists tl.
Qed.

(** The datasets of a tiled store and their shapes. *)
Lemma tile_img_h5_schema (s : Store) (N c h w : nat)
      (tile_size overlap target_size : Z) :
  (0 < N)%nat ->
  length (s_img s) = N -> length (s_lbl s) = N -> length (s_path s) = N ->
  length (s_epsg s) = N -> length (s_affine s) = N ->
  Forall (image_shape c h w) (s_img s) ->
  Forall (plane_shape h w) (s_lbl s) ->
  Forall (fun a => length a = 6%nat) (s_affine s) ->
  (0 < c)%nat -> (0 < h)%nat -> (0 < w)%nat ->
  Z.of_nat h <= target_size -> Z.of_nat w <= target_size ->
  0 < overlap -> 0 < tile_size <= target_size ->
  let n_rows := (N * Z.to_nat ((n_side target_size tile_size overlap) ^ 2))%nat in
  let size := Z.to_nat tile_size in
  exists f,
    tile_img_h5 (store_file s) tile_size overlap target_size = Completed f /\
    schema f = [ ("/img", [n_rows; c; size; size]);
                 ("/lbl", [n_rows; 1; size; size]);
                 ("/img_means", [length (s_means s)]);
                 ("/img_stds", [length (s_stds s)]);
                 ("/path", [n_rows]);
                 ("/epsg", [n_rows]);
                 ("/affine", [n_rows; 6]) ]%string%nat.
Proof.
  intros HN Hi Hl Hp He Ha Hsi Hsl Hsa Hc Hh Hw HhP HwP Hov Hts n_rows size.
  set (n := n_side target_size tile_size overlap).
  assert (Hside : 1 <= n).
  { unfold n, n_side.
    assert (0 <= (target_size - tile_size) / overlap)
      by (apply Z.div_pos; lia). lia. }
  destruct (s_img s) as [|item imgs] eqn:Eimg; [simpl in Hi; lia|].
  destruct (s_lbl s) as [|lbl lbls] eqn:Elbl; [simpl in Hl; lia|].
  destruct (s_path s) as [|p paths] eqn:Epath; [simpl in Hp; lia|].
  destruct (s_epsg s) as [|e epsgs] eqn:Eepsg; [simpl in He; lia|].
  destruct (s_affine s) as [|a affs] eqn:Eaff; [simpl in Ha; lia|].
  rewrite <- Eimg in Hi, Hsi. rewrite <- Elbl in Hl, Hsl.
  rewrite <- Epath in Hp. rewrite <- Eepsg in He. rewrite <- Eaff in Ha, Hsa.
  destruct (tile_img_h5_row s N c h w tile_size overlap target_size 0 0
              item lbl p e a HN Hi Hl Hp He Ha Hsi Hsl Hsa Hc Hh Hw HhP HwP
              Hov Hts)
    as (img_rows & lbl_rows & path_rows & epsg_rows & affine_rows & t
        & Hrun & Himg & Hlbl & _ & _ & Haff & Ht);
    try (rewrite ?Eimg, ?Elbl, ?Epath, ?Eepsg, ?Eaff; reflexivity).
  { fold n. nia. }
  fold n in Himg, Hlbl, Haff, Ht.
  cbn [Nat.mul Nat.add] in Himg, Hlbl, Haff.
  (* the row counts *)
  destruct (tile_img_h5_completed _ _ _ _ _ Hrun) as (td & Hprep & Hper).
  destruct (tile_img_h5_prepare_counts s N tile_size overlap target_size td
              Hi Hl ltac:(lia) Hprep)
    as (Hnt & Hbi & Hbl & _ & _ & Hlp & Hle & Hla).
  fold n in Hnt, Hlp, Hle, Hla.
  apply tile_img_h5_persist_stores in Hper.
  destruct Hper as (_ & _ & Hper).
  apply bind_ok in Hper. destruct Hper as (ir & Ha0 & Hper).
  apply bind_ok in Hper. destruct Hper as (lr & Ha2 & Hper).
  injection Hper as <- <- _ _ <- <- <-.
  apply da_store_length in Ha0, Ha2. rewrite Hnt in Ha0, Ha2.
  rewrite Hbi in Ha0. rewrite Hbl in Ha2.
  assert (H0n : 0 <= n ^ 2) by (rewrite Z.pow_2_r; nia).
  assert (Hrows : forall m : nat, Z.of_nat m = Z.of_nat N * n ^ 2 -> m = n_rows).
  { intros m Hm. unfold n_rows. fold n. nia. }
  apply Hrows in Ha0, Ha2, Hlp, Hle, Hla.
  (* the first row of the three arrays with more than one axis *)
  destruct (nth_error_0_hd _ _ Himg) as (ti & Ei).
  destruct (nth_error_0_hd _ _ Hlbl) as (tl & El).
  destruct (nth_error_0_hd _ _ Haff) as (ta & Eaf).
  assert (Hitem : image_shape c h w (image_astype astype_int16 item)).
  { apply image_astype_shape. rewrite Forall_forall in Hsi.
    apply Hsi. rewrite Eimg. now left. }
  assert (Hlblsh : image_shape 1 h w [map (map astype_int16) lbl]).
  { apply (image_astype_shape astype_int16 1 h w [lbl]).
    split; [reflexivity|]. constructor; [|constructor].
    rewrite Forall_forall in Hsl. apply Hsl. rewrite Elbl. now left. }
  assert (Hq : 0 <= Z.of_nat 0 / n < n)
    by (rewrite Z.div_0_l by lia; lia).
  assert (Hm : 0 <= Z.of_nat 0 mod n < n)
    by (rewrite Z.mod_0_l by lia; lia).
  assert (Hro := tile_offset_bound target_size tile_size overlap _ Hov Hts Hq).
  assert (Hco := tile_offset_bound target_size tile_size overlap _ Hov Hts Hm).
  destruct (window_canvas_dims c h w size target_size _ _ _ Hitem Hc
              ltac:(unfold size; lia) HhP HwP Hro Hco) as (Eic & Eih & Eiw).
  destruct (window_canvas_dims 1 h w size target_size _ _ _ Hlblsh ltac:(lia)
              ltac:(unfold size; lia) HhP HwP Hro Hco) as (Elc & Elh & Elw).
  assert (Ht6 : length t = 6%nat).
  { assert (Ha6 : length a = 6%nat).
    { rewrite Forall_forall in Hsa. apply Hsa. rewrite Eaff. now left. }
    destruct a as [|a0 [|a1 [|a2 [|a3 [|a4 [|a5 [|]]]]]]]; try discriminate.
    destruct (_affine_from_rowcol_spec a0 a1 a2 a3 a4 a5
                (overlap * (Z.of_nat 0 / n)) (overlap * (Z.of_nat 0 mod n)))
      as (t' & Ht' & x & y & Et & _).
    rewrite Ht in Ht'. injection Ht' as <-. now rewrite Et. }
  eexists. split; [exact Hrun|].
  unfold schema. cbn [map fst snd shape].
  rewrite Ha0, Ha2, Hlp, Hle, Hla, !length_map.
  rewrite Ei, El, Eaf. cbn [block_c block_h block_w].
  unfold size in *.
  rewrite Eic, Eih, Eiw, Elc, Elh, Elw, Ht6.
  reflexivity.
Qed.

(** What a completed conversion has stored, as a [Store]. *)
Lemma convert_img_to_h5_store fnmatch np_sqrt fs file_glob label_glob
      image_bands f :
  Forall (fun e => raster_wf (snd e)) fs ->
  convert_img_to_h5 fnmatch np_sqrt fs file_glob label_glob image_bands
  = Completed f ->
  exists pk rasters imgs lbls,
    let N := length (l_images pk) in
    let C := length (selected_bands pk) in
    let H := Z.to_nat (max_height pk) in
    let W := Z.to_nat (max_width pk) in
    convert_img_to_h5_prepare fnmatch fs file_glob label_glob image_bands
    = Ok pk /\
    l_images pk = discovered_images fnmatch fs file_glob label_glob /\
    Forall2 (fun p r => fs_lookup fs p = Some r) (l_images pk) rasters /\
    Forall raster_wf rasters /\
    mapM (fun p => _load_img fs p (max_width pk) (max_height pk)
                             (selected_bands pk)) (l_images pk) = Ok imgs /\
    mapM (fun p => _load_lbl fs p (max_width pk) (max_height pk))
         (l_labels pk) = Ok lbls /\
    py_max (map width rasters) = Ok (max_width pk) /\
    py_max (map height rasters) = Ok (max_height pk) /\
    let stored := map (image_astype astype_uint16) imgs in
    f = store_file
          (mk_store stored (map (map (map astype_uint16)) lbls)
                    (map stem (l_images pk))
                    (map epsg_code rasters)
                    (map (fun r => rio.to_gdal (transform r)) rasters)
                    (map (fun b => np_mean (band_values stored b)) (seq 0 C))
                    (map (fun b => np_sqrt (np_var (band_values stored b)))
                         (seq 0 C))) /\
    (0 < N)%nat /\ (0 < C)%nat /\ (0 < H)%nat /\ (0 < W)%nat /\
    length rasters = N /\ length imgs = N /\ length lbls = N /\
    Forall (image_shape C H W) imgs /\
    Forall (plane_shape H W) lbls.
Proof.
  intros Hfs Hrun.
  destruct (convert_img_to_h5_completed _ _ _ _ _ _ _ Hrun)
    as (pk & imgs & lbls & Hprep & Himgs & Hlbls & ->).
  destruct (convert_img_to_h5_prepare_ok _ _ _ _ _ _ Hprep)
    as (rasters & Hdisc & _ & Hlen & Hne & HF & Hbands & Hmw & Hmh
        & Hpath & Hepsg & Haff).
  exists pk, rasters, imgs, lbls.
  intros N C H W.
  assert (Hwf : Forall raster_wf rasters).
  { clear -HF Hfs. induction HF; constructor; auto.
    eapply fs_lookup_wf; eassumption. }
  assert (HNr : length rasters = N) by (symmetry; apply (Forall2_length HF)).
  assert (HN : (0 < N)%nat).
  { rewrite <- HNr. destruct rasters; [congruence|simpl; lia]. }
  assert (HC : (0 < C)%nat).
  { assert (selected_bands pk <> []).
    { apply (check_number_bands_nonempty image_bands (map count rasters));
        [|exact Hbands].
      rewrite Forall_map. revert Hwf. apply Forall_impl.
      intros r (_ & _ & Hc & _). unfold count. lia. }
    unfold C. destruct (selected_bands pk); [congruence|simpl; lia]. }
  assert (HH : (0 < H)%nat).
  { destruct (py_max_spec _ _ Hmh) as [_ Hin].
    apply in_map_iff in Hin. destruct Hin as [r [Hr Hrin]].
    rewrite Forall_forall in Hwf. destruct (Hwf r Hrin) as (_ & Hh & _).
    unfold H. lia. }
  assert (HW : (0 < W)%nat).
  { destruct (py_max_spec _ _ Hmw) as [_ Hin].
    apply in_map_iff in Hin. destruct Hin as [r [Hr Hrin]].
    rewrite Forall_forall in Hwf. destruct (Hwf r Hrin) as (Hw & _).
    unfold W. lia. }
  assert (Hi : Forall (image_shape C H W) imgs).
  { apply mapM_Forall2 in Himgs. clear -Himgs Hfs.
    induction Himgs as [|p x ps xs Hpx _ IH]; constructor; auto.
    destruct (_load_img_inv _ _ _ _ _ _ Hfs Hpx) as (r & _ & _ & _ & _ & Hs & _).
    exact Hs. }
  assert (Hl : Forall (plane_shape H W) lbls).
  { apply mapM_Forall2 in Hlbls. clear -Hlbls Hfs.
    induction Hlbls as [|p x ps xs Hpx _ IH]; constructor; auto.
    destruct (_load_lbl_inv _ _ _ _ _ Hfs Hpx) as (l & _ & _ & _ & Hs & _).
    exact Hs. }
  assert (HNi : length imgs = N) by (apply (mapM_length _ _ _ Himgs)).
  assert (HNl : length lbls = N)
    by (rewrite (mapM_length _ _ _ Hlbls); unfold N; now symmetry).
  assert (Ebc : block_c (map (image_astype astype_uint16) imgs) = C).
  { destruct imgs as [|im0 imgs']; [simpl in HNi; lia|].
    apply Forall_inv in Hi.
    apply (image_astype_shape astype_uint16) in Hi.
    now destruct (image_shape_dims _ _ _ _ Hi HC HH) as (Ec & _). }
  cbv zeta.
  repeat match goal with |- _ /\ _ => split end; try assumption.
  unfold store_file. cbn [s_img s_lbl s_path s_epsg s_affine s_means s_stds].
  now rewrite Hpath, Hepsg, Haff, Ebc.
Qed.

(** X7: the store a completed conversion leaves behind can be tiled
    whenever every discovered image fits [target_size]: for
    [0 < overlap] and [0 < tile_size <= target_size] the Tiler completes
    on it, and the tiled store holds n_tiles rows per image, tiles of
    [tile_size] by [tile_size] pixels with the selected bands, and six
    geotransform terms per tile. *)
Theorem packed_store_is_tiled :
  forall (fnmatch : string -> string -> bool) (np_sqrt : Q -> Q)
         (fs : filesystem) (file_glob label_glob : string)
         (image_bands : option (list Z)) (f : h5file)
         (tile_size overlap target_size : Z),
    Forall (fun e => raster_wf (snd e)) fs ->
    convert_img_to_h5 fnmatch np_sqrt fs file_glob label_glob image_bands
    = Completed f ->
    (forall p r,
        In p (discovered_images fnmatch fs file_glob label_glob) ->
        fs_lookup fs p = Some r ->
        height r <= target_size /\ width r <= target_size) ->
    0 < overlap -> 0 < tile_size <= target_size ->
    let N := length (discovered_images fnmatch fs file_glob label_glob) in
    let n_rows := (N * Z.to_nat ((n_side target_size tile_size overlap) ^ 2))%nat in
    let size := Z.to_nat tile_size in
    exists (f' : h5file) (C : nat),
      option_map shape (h5_lookup f "/img_means") = Some [C] /\
      tile_img_h5 f tile_size overlap target_size = Completed f' /\
      schema f' = [ ("/img", [n_rows; C; size; size]);
                    ("/lbl", [n_rows; 1; size; size]);
                    ("/img_means", [C]);
                    ("/img_stds", [C]);
                    ("/path", [n_rows]);
                    ("/epsg", [n_rows]);
                    ("/affine", [n_rows; 6]) ]%string%nat.
Proof.
  intros fnmatch np_sqrt fs fg lg ib f ts ov P Hfs Hrun Hfit Hov Hts
         N n_rows size.
  destruct (convert_img_to_h5_store _ _ _ _ _ _ _ Hfs Hrun)
    as (pk & rasters & imgs & lbls & Hprep & Hdisc & HF & Hwf & Himgs & Hlbls
        & Hmw & Hmh & -> & HN & HC & HH & HW & HNr & HNi & HNl & Hi & Hl).
  cbv zeta.
  set (s := mk_store _ _ _ _ _ _ _).
  assert (Hi' : Forall (image_shape (length (selected_bands pk))
                                    (Z.to_nat (max_height pk))
                                    (Z.to_nat (max_width pk)))
                       (map (image_astype astype_uint16) imgs))
    by (apply Forall_map; revert Hi; apply Forall_impl; intros im;
        apply image_astype_shape).
  assert (Hl' : Forall (plane_shape (Z.to_nat (max_height pk))
                                    (Z.to_nat (max_width pk)))
                       (map (map (map astype_uint16)) lbls))
    by (apply Forall_map; revert Hl; apply Forall_impl; intros p;
        apply plane_astype_shape).
  assert (Hmax : max_height pk <= P /\ max_width pk <= P).
  { destruct (py_max_spec _ _ Hmh) as [_ Hinh].
    destruct (py_max_spec _ _ Hmw) as [_ Hinw].
    apply in_map_iff in Hinh. destruct Hinh as (rh & Erh & Hrh).
    apply in_map_iff in Hinw. destruct Hinw as (rw & Erw & Hrw).
    assert (Hall : forall r, In r rasters -> height r <= P /\ width r <= P).
    { intros r Hr. apply In_nth_error in Hr. destruct Hr as [k Hk].
      assert (Hfl := Forall2_flip HF).
      destruct (Forall2_nth_error _ _ _ _ _ Hfl Hk) as (p & Hp & Hlook).
      apply (Hfit p r); [|exact Hlook].
      rewrite <- Hdisc. eapply nth_error_In, Hp. }
    destruct (Hall rh Hrh) as [? _]. destruct (Hall rw Hrw) as [_ ?].
    lia. }
  destruct (tile_img_h5_schema s (length (l_images pk))
              (length (selected_bands pk))
              (Z.to_nat (max_height pk)) (Z.to_nat (max_width pk)) ts ov P)
    as (f' & Hrun' & Hschema); try assumption;
    try (unfold s; cbn [s_img s_lbl s_path s_epsg s_affine];
         rewrite ?length_map; assumption || reflexivity).
  - unfold s. cbn [s_affine]. apply Forall_map, Forall_forall.
    intros r _. reflexivity.
  - lia.
  - lia.
  - exists f', (length (selected_bands pk)).
    split.
    { unfold s. cbn [store_file h5_lookup String.eqb Ascii.eqb Bool.eqb
                     s_means option_map shape].
      now rewrite length_map, length_seq. }
    split; [exact Hrun'|].
    rewrite Hschema. unfold s. cbn [s_means s_stds].
    rewrite !length_map, length_seq.
    unfold n_rows, N. now rewrite <- Hdisc.
Qed.

Lemma packed_store_is_tiled_witness :
  exists f f' C,
    convert_img_to_h5 simple_fnmatch sqrt_6_digits two_folders
                      "*.tif" "*label*" None = Completed f /\
    option_map shape (h5_lookup f "/img_means") = Some [C] /\
    tile_img_h5 f 1 1 2 = Completed f' /\
    schema f' = [ ("/img", [8; C; 1; 1]);
                  ("/lbl", [8; 1; 1; 1]);
                  ("/img_means", [C]);
                  ("/img_stds", [C]);
                  ("/path", [8]);
                  ("/epsg", [8]);
                  ("/affine", [8; 6]) ]%string%nat.
Proof.
  eexists.
  destruct (packed_store_is_tiled simple_fnmatch sqrt_6_digits two_folders
              "*.tif" "*label*" None _ 1 1 2 two_folders_wf eq_refl)
    as (f' & C & Hc & Hrun & Hs); [|lia|lia|].
  - intros p r Hin Hl. cbv in Hin.
    destruct Hin as [<-|[<-|[]]]; cbv in Hl; injection Hl as <-; simpl; lia.
  - exists f', C. split; [reflexivity|]. split; [exact Hc|].
    split; [exact Hrun|exact Hs].
Defined.

(* ===================================================================== *)
(** ** Band statistics                                                    *)
(* ===================================================================== *)

Lemma sumZ_app (l1 l2 : list Z) : sumZ (l1 ++ l2) = sumZ l1 + sumZ l2.
Proof.
  unfold sumZ. induction l1 as [|x tl IH]; cbn [app fold_right]; lia.
Qed.

Lemma sumZ_repeat_0 (k : nat) : sumZ (repeat 0 k) = 0.
Proof. unfold sumZ. induction k as [|k IH]; cbn [repeat fold_right]; lia. Qed.

Lemma sumZ_flat_map {A} (g : A -> list Z) (l : list A) :
  sumZ (flat_map g l) = sumZ (map (fun x => sumZ (g x)) l).
Proof.
  induction l as [|x tl IH]; [reflexivity|].
  cbn [flat_map map]. rewrite sumZ_app, IH. reflexivity.
Qed.

(** Padding adds zeros only, and a zero is cast to zero. *)
Lemma sumZ_cast_pad_plane (cast : Z -> Z) (w pad_h pad_w : nat) (p : plane) :
  cast 0 = 0 ->
  sumZ (map cast (concat (pad_plane w pad_h pad_w p)))
  = sumZ (map cast (concat p)).
Proof.
  intros C0. unfold pad_plane. rewrite concat_app, map_app, sumZ_app.
  assert (Hz : forall k, sumZ (map cast (repeat 0 k)) = 0)
    by (intros k; now rewrite map_repeat, C0, sumZ_repeat_0).
  assert (H0 : sumZ (map cast (concat (repeat (repeat 0 (w + pad_w)%nat)
                                              pad_h))) = 0).
  { induction pad_h as [|k IH]; [reflexivity|].
    cbn [repeat concat]. rewrite map_app, sumZ_app, Hz, IH. reflexivity. }
  rewrite H0, Z.add_0_r.
  induction p as [|r tl IH]; [reflexivity|].
  cbn [map concat]. rewrite !map_app, !sumZ_app, Hz, IH. lia.
Qed.

(** Band [c] of a cast image, flattened. *)
Lemma concat_band_astype (cast : Z -> Z) (im : image) (c : nat) :
  concat (nth c (image_astype cast im) [])
  = map cast (concat (nth c im [])).
Proof.
  unfold image_astype.
  change (@nil (list Z)) with (map (map cast) (@nil (list Z))) at 1.
  now rewrite map_nth, concat_map.
Qed.

Lemma map_astype_uint16_id (l : list Z) :
  Forall (fun v => 0 <= v < 65536) l -> map astype_uint16 l = l.
Proof.
  intros H. rewrite <- (map_id l) at 2. apply map_ext_in. intros v Hv.
  rewrite Forall_forall in H. now apply astype_uint16_id, H.
Qed.

Lemma Forall2_common_left {A B C} (P : A -> B -> Prop) (Q : A -> C -> Prop)
      (l : list A) (xs : list B) (ys : list C) :
  Forall2 P l xs -> Forall2 Q l ys ->
  Forall2 (fun x y => exists a, P a x /\ Q a y) xs ys.
Proof.
  intros HP. revert ys. induction HP as [|a x l xs Hax _ IH]; intros ys HQ.
  - inversion HQ. constructor.
  - inversion HQ as [|a' y l' ys' Hay Hrest]; subst.
    constructor; [now exists a|now apply IH].
Qed.

(** The stored band [c] of an item is the padded band of the raster. *)
Lemma _load_img_band fs p r max_width max_height bands packed c band :
  fs_lookup fs p = Some r ->
  _load_img fs p max_width max_height bands = Ok packed ->
  nth_error bands c = Some band ->
  exists w pad_h pad_w,
    nth c packed []
    = pad_plane w pad_h pad_w (nth (Z.to_nat (band - 1)) (pixels r) []).
Proof.
  intros Hl Hload Hc. unfold _load_img in Hload.
  rewrite (rio_open_found _ _ _ Hl) in Hload. cbn [bind] in Hload.
  apply bind_ok in Hload. destruct Hload as (data & Hdata & Hpad).
  destruct (read_bands_inv _ _ _ Hdata) as [_ ->].
  unfold da_pad3 in Hpad.
  destruct ((max_height - height r <? 0) || (max_width - width r <? 0));
    [discriminate|].
  injection Hpad as <-.
  do 3 eexists.
  assert (Hlt : (c < length bands)%nat)
    by (apply nth_error_Some; congruence).
  rewrite (nth_map_lt _ _ _ _ []) by (now rewrite length_map).
  rewrite (nth_map_lt _ _ _ _ 0) by exact Hlt.
  rewrite (nth_error_nth _ _ _ Hc). reflexivity.
Qed.

(** X8: the band means of a packed store are taken over the stored
    arrays, padding included: the mean of the c-th selected band is the
    sum of that band's pixels, cast to uint16, over all source rasters,
    divided by N * H * W, the number of entries of the padded band, not
    by the number of source pixels.  For rasters whose values fit 16
    unsigned bits the sum is that of the source pixels. *)
Theorem band_means_average_over_the_padding :
  forall (fnmatch : string -> string -> bool) (np_sqrt : Q -> Q)
         (fs : filesystem) (file_glob label_glob : string)
         (image_bands : option (list Z)) (f : h5file),
    Forall (fun e => raster_wf (snd e)) fs ->
    convert_img_to_h5 fnmatch np_sqrt fs file_glob label_glob image_bands
    = Completed f ->
    exists pk rasters means,
      convert_img_to_h5_prepare fnmatch fs file_glob label_glob image_bands
      = Ok pk /\
      Forall2 (fun p r => fs_lookup fs p = Some r) (l_images pk) rasters /\
      h5_lookup f "/img_means" = Some (Float1 means) /\
      length means = length (selected_bands pk) /\
      let entries := Z.of_nat (length rasters) * max_height pk * max_width pk in
      let band_of := fun (band : Z) (r : Raster) =>
        concat (nth (Z.to_nat (band - 1)) (pixels r) []) in
      (forall (c : nat) (band : Z),
          nth_error (selected_bands pk) c = Some band ->
          nth_error means c
          = Some (inject_Z
                    (sumZ (map (fun r => sumZ (map astype_uint16 (band_of band r)))
                               rasters))
                  / inject_Z entries)%Q) /\
      (Forall (fun r => in_uint16 (pixels r)) rasters ->
       forall (c : nat) (band : Z),
          nth_error (selected_bands pk) c = Some band ->
          nth_error means c
          = Some (inject_Z
                    (sumZ (map (fun r => sumZ (band_of band r)) rasters))
                  / inject_Z entries)%Q).
Proof.
  intros fnmatch np_sqrt fs fg lg ib f Hfs Hrun.
  destruct (convert_img_to_h5_store _ _ _ _ _ _ _ Hfs Hrun)
    as (pk & rasters & imgs & lbls & Hprep & Hdisc & HF & Hwf & Himgs & Hlbls
        & Hmw & Hmh & -> & HN & HC & HH & HW & HNr & HNi & HNl & Hi & Hl).
  exists pk, rasters,
    (map (fun b => np_mean (band_values
                              (map (image_astype astype_uint16) imgs) b))
         (seq 0 (length (selected_bands pk)))).
  split; [exact Hprep|]. split; [exact HF|].
  split; [reflexivity|].
  split; [now rewrite length_map, length_seq|].
  cbv zeta.
  assert (Hcast : forall (c : nat) (band : Z),
             nth_error (selected_bands pk) c = Some band ->
             nth_error
               (map (fun b => np_mean (band_values
                                         (map (image_astype astype_uint16) imgs)
                                         b))
                    (seq 0 (length (selected_bands pk)))) c
             = Some (inject_Z
                       (sumZ (map (fun r =>
                                     sumZ (map astype_uint16
                                               (concat (nth (Z.to_nat (band - 1))
                                                            (pixels r) []))))
                                  rasters))
                     / inject_Z (Z.of_nat (length rasters)
                                 * max_height pk * max_width pk))%Q).
  { intros c band Hc.
    assert (Hlt : (c < length (selected_bands pk))%nat)
      by (apply nth_error_Some; congruence).
    rewrite nth_error_map_seq by exact Hlt.
    unfold np_mean. do 3 f_equal.
    - (* the sum *)
      unfold band_values. rewrite sumZ_flat_map, map_map. f_equal.
      assert (HR := Forall2_common_left _ _ _ _ _ HF
                      (mapM_Forall2 _ _ _ Himgs)).
      clear -HR Hc. induction HR as [|r im rs ims (p & Hp & Hload) _ IH];
        [reflexivity|].
      cbn [map]. rewrite IH. f_equal.
      rewrite concat_band_astype.
      destruct (_load_img_band _ _ _ _ _ _ _ _ _ Hp Hload Hc)
        as (w & ph & pw & ->).
      now apply sumZ_cast_pad_plane.
    - (* the number of entries *)
      unfold band_values.
      rewrite (length_flat_map_uniform _ _ (Z.to_nat (max_height pk)
                                            * Z.to_nat (max_width pk))).
      + rewrite length_map, HNi, HNr. nia.
      + intros im Him. apply in_map_iff in Him.
        destruct Him as (im0 & <- & Him0).
        rewrite Forall_forall in Hi.
        destruct (image_astype_shape astype_uint16 _ _ _ _ (Hi im0 Him0))
          as [Hlen Hplanes].
        rewrite Forall_forall in Hplanes.
        assert (Hin : In (nth c (image_astype astype_uint16 im0) [])
                         (image_astype astype_uint16 im0))
          by (apply nth_In; rewrite Hlen; exact Hlt).
        destruct (Hplanes _ Hin) as [Hh Hrow].
        rewrite (length_concat_uniform _ (Z.to_nat (max_width pk)) Hrow).
        now rewrite Hh. }
  split; [exact Hcast|].
  intros Hu c band Hc. rewrite (Hcast c band Hc).
  do 4 f_equal. apply map_ext_in. intros r Hr. f_equal.
  apply map_astype_uint16_id, Forall_concat.
  rewrite Forall_forall in Hu.
  apply Forall_nth_default; [exact (Hu r Hr)|constructor].
Qed.

Lemma band_means_average_over_the_padding_witness :
  exists f pk rasters means,
    convert_img_to_h5 simple_fnmatch sqrt_6_digits wide_values
                      "img*" "*label*" None = Completed f /\
    convert_img_to_h5_prepare simple_fnmatch wide_values "img*" "*label*" None
    = Ok pk /\
    Forall2 (fun p r => fs_lookup wide_values p = Some r) (l_images pk) rasters /\
    h5_lookup f "/img_means" = Some (Float1 means) /\
    length means = length (selected_bands pk) /\
    (forall (c : nat) (band : Z),
        nth_error (selected_bands pk) c = Some band ->
        nth_error means c
        = Some (inject_Z
                  (sumZ (map (fun r =>
                                sumZ (map astype_uint16
                                          (concat (nth (Z.to_nat (band - 1))
                                                       (pixels r) []))))
                             rasters))
                / inject_Z (Z.of_nat (length rasters)
                            * max_height pk * max_width pk))%Q) /\
    (Forall (fun r => in_uint16 (pixels r)) rasters ->
     forall (c : nat) (band : Z),
        nth_error (selected_bands pk) c = Some band ->
        nth_error means c
        = Some (inject_Z
                  (sumZ (map (fun r =>
                                sumZ (concat (nth (Z.to_nat (band - 1))
                                                  (pixels r) [])))
                             rasters))
                / inject_Z (Z.of_nat (length rasters)
                            * max_height pk * max_width pk))%Q).
Proof.
  assert (Hwf : Forall (fun e => raster_wf (snd e)) wide_values)
    by (repeat constructor; simpl; try lia; try reflexivity).
  eexists.
  destruct (band_means_average_over_the_padding
              simple_fnmatch sqrt_6_digits wide_values "img*" "*label*" None
              _ Hwf eq_refl) as (pk & rasters & means & H).
  exists pk, rasters, means. split; [reflexivity|exact H].
Defined.

(** The first band of the two folders: 1 + 2 + 5 + 6 over 2 * 2 * 2
    entries, although the two rasters hold four pixels. *)
Example band_mean_two_folders :
  exists f,
    convert_img_to_h5 simple_fnmatch sqrt_6_digits two_folders
                      "*.tif" "*label*" None = Completed f /\
    h5_lookup f "/img_means"
    = Some (Float1 [ (inject_Z 14 / inject_Z 8)%Q;
                     (inject_Z 22 / inject_Z 8)%Q ]).
Proof. eexists. split; reflexivity. Qed.

(** The band of 32-bit values 70000, -1 and 65536 is stored as 4464,
    65535 and 0: its mean is 69999 / 3. *)
Example band_mean_wide_values :
  exists f,
    convert_img_to_h5 simple_fnmatch sqrt_6_digits wide_values
                      "img*" "*label*" None = Completed f /\
    h5_lookup f "/img" = Some (Int4 [ [ [[4464; 65535; 0]] ] ]) /\
    h5_lookup f "/img_means"
    = Some (Float1 [ (inject_Z 69999 / inject_Z 3)%Q ]).
Proof. eexists. split; [reflexivity|]. split; reflexivity. Qed.

(* ===================================================================== *)
(** ** Conversions that do not complete                                   *)
(* ===================================================================== *)

(** X9: when no file below the source folder is an image (none matches
    [file_glob] without matching [label_glob]), the conversion raises
    while unpacking the empty metadata list; nothing is written. *)
Theorem no_image_found_aborts :
  forall (fnmatch : string -> string -> bool) (np_sqrt : Q -> Q)
         (fs : filesystem) (file_glob label_glob : string)
         (image_bands : option (list Z)),
    (forall p, In p (map fst fs) ->
               fnmatch (name p) file_glob = false \/
               fnmatch (name p) label_glob = true) ->
    discovered_images fnmatch fs file_glob label_glob = [] /\
    convert_img_to_h5 fnmatch np_sqrt fs file_glob label_glob image_bands
    = Aborted (ValueError "not enough values to unpack").
Proof.
  intros fnmatch np_sqrt fs fg lg ib Hnone.
  assert (Hd : discovered_images fnmatch fs fg lg = []).
  { unfold discovered_images, _rglob_with_links.
    induction (map fst fs) as [|p ps IH]; [reflexivity|].
    cbn [filter].
    destruct (Hnone p (or_introl eq_refl)) as [Hf|Hlb].
    - rewrite Hf. apply IH. intros q Hq. apply Hnone. now right.
    - destruct (fnmatch (name p) fg); [|apply IH; intros q Hq; apply Hnone;
                                        now right].
      cbn [filter]. rewrite Hlb. cbn [negb].
      apply IH. intros q Hq. apply Hnone. now right. }
  split; [exact Hd|].
  apply convert_img_to_h5_aborts.
  unfold convert_img_to_h5_prepare.
  unfold discovered_images in Hd. rewrite Hd. reflexivity.
Qed.

Lemma no_image_found_aborts_witness :
  discovered_images simple_fnmatch two_folders "*.vrt" "*label*" = [] /\
  convert_img_to_h5 simple_fnmatch sqrt_6_digits two_folders
                    "*.vrt" "*label*" None
  = Aborted (ValueError "not enough values to unpack").
Proof.
  apply (no_image_found_aborts simple_fnmatch sqrt_6_digits two_folders
           "*.vrt" "*label*" None).
  intros p Hin. cbv in Hin.
  destruct Hin as [<-|[<-|[<-|[<-|[]]]]]; left; reflexivity.
Defined.

Lemma read_bands_out_of_range (r : Raster) (indexes : list Z) :
  (exists i, In i indexes /\ ~ (1 <= i <= count r)) ->
  read_bands r indexes = Raise (IndexError "band index out of range").
Proof.
  unfold read_bands. induction indexes as [|j tl IH]; intros (i & Hin & Hbad).
  - destruct Hin.
  - cbn [mapM]. unfold read_band at 1.
    destruct ((1 <=? j) && (j <=? count r)) eqn:E; [|reflexivity].
    cbn [bind].
    destruct Hin as [->|Hin]; [lia|].
    rewrite IH by (exists i; split; assumption). reflexivity.
Qed.

(** X10: a band index below 1 is not caught by the band check, which
    only compares the largest requested index with the band count: the
    conversion goes on to create the destination and fails when the
    first image is read, leaving the destination incomplete. *)
Theorem band_index_below_one_fails_while_writing :
  forall (fnmatch : string -> string -> bool) (np_sqrt : Q -> Q)
         (fs : filesystem) (file_glob label_glob : string)
         (rasters : list Raster) (c b : Z) (bs : list Z),
    let imgs := discovered_images fnmatch fs file_glob label_glob in
    let lbls := discovered_labels fnmatch fs file_glob label_glob in
    length imgs = length lbls ->
    Forall2 (fun p r => fs_lookup fs p = Some r) imgs rasters ->
    rasters <> [] ->
    Forall (fun r => count r = c) rasters ->
    Forall (fun i => i <= c) (b :: bs) ->
    (exists i, In i (b :: bs) /\ i < 1) ->
    convert_img_to_h5 fnmatch np_sqrt fs file_glob label_glob (Some (b :: bs))
    = Interrupted (IndexError "band index out of range").
Proof.
  intros fnmatch np_sqrt fs fg lg rasters c b bs imgs lbls
         Hlen HF Hne Hc Hle (i & Hin & Hi).
  unfold convert_img_to_h5.
  rewrite (convert_img_to_h5_prepare_found fnmatch fs fg lg (Some (b :: bs))
             rasters Hlen HF Hne).
  unfold check_number_bands.
  assert (Hcounts : Forall (eq c) (map count rasters)).
  { apply Forall_map. revert Hc. apply Forall_impl. intros r Hr. now symmetry. }
  assert (Hne' : map count rasters <> [])
    by (destruct rasters; [congruence|discriminate]).
  assert (H1 : one_distinct (map count rasters) = true).
  { apply one_distinct_true. split; [exact Hne'|]. now exists c. }
  rewrite H1, (py_max_const c _ Hne' Hcounts). cbn [assert bind].
  destruct (py_max_nonempty (b :: bs) ltac:(discriminate)) as [want Hwant].
  rewrite Hwant. cbn [bind].
  destruct (py_max_spec _ _ Hwant) as [_ Hwin].
  rewrite Forall_forall in Hle.
  destruct (Z.leb_spec want c) as [_|Hgt]; [|specialize (Hle _ Hwin); lia].
  cbn [assert bind].
  destruct (py_max_nonempty (map width rasters)) as [mw ->];
    [destruct rasters; [congruence|discriminate]|].
  destruct (py_max_nonempty (map height rasters)) as [mh ->];
    [destruct rasters; [congruence|discriminate]|].
  cbn [bind]. unfold to_hdf5.
  cbn [l_images max_width max_height selected_bands].
  fold (discovered_images fnmatch fs fg lg). fold imgs.
  destruct HF as [|p r ps rs Hp _]; [congruence|].
  cbn [mapM]. unfold _load_img at 1.
  rewrite (rio_open_found _ _ _ Hp). cbn [bind].
  rewrite read_bands_out_of_range; [reflexivity|].
  exists i. split; [exact Hin|]. lia.
Qed.

Lemma band_index_below_one_fails_while_writing_witness :
  convert_img_to_h5 simple_fnmatch sqrt_6_digits two_folders
                    "*.tif" "*label*" (Some [0; 1])
  = Interrupted (IndexError "band index out of range").
Proof.
  apply (band_index_below_one_fails_while_writing
           simple_fnmatch sqrt_6_digits two_folders "*.tif" "*label*"
           [ mk_raster 2 1 32601 north_up [ [[1; 2]];  [[3; 4]] ];
             mk_raster 1 2 32601 north_up [ [[5]; [6]];  [[7]; [8]] ] ]
           2 0 [1]).
  - reflexivity.
  - repeat constructor.
  - discriminate.
  - repeat constructor.
  - repeat constructor; lia.
  - exists 0. split; [now left|lia].
Defined.

(* ===================================================================== *)
(** ** Identifiers                                                        *)
(* ===================================================================== *)

Lemma string_length_app (s1 s2 : string) :
  String.length (s1 ++ s2) = (String.length s1 + String.length s2)%nat.
Proof. induction s1 as [|ch s1 IH]; simpl; [reflexivity|now rewrite IH]. Qed.

Lemma substring_prefix (s1 s2 : string) :
  substring 0 (String.length s1) (s1 ++ s2) = s1.
Proof.
  induction s1 as [|ch s1 IH]; simpl.
  - now destruct s2.
  - now rewrite IH.
Qed.

Lemma rfind_dot_app (s1 s2 : string) (i : nat) (last : option nat) :
  rfind_dot (s1 ++ s2) i last
  = rfind_dot s2 (i + String.length s1) (rfind_dot s1 i last).
Proof.
  revert i last. induction s1 as [|ch s1 IH]; intros i last; simpl.
  - now rewrite Nat.add_0_r.
  - rewrite IH. f_equal. lia.
Qed.

Lemma rfind_dot_none (s : string) (i : nat) (last : option nat) :
  ~ In "."%char (list_ascii_of_string s) -> rfind_dot s i last = last.
Proof.
  revert i last. induction s as [|ch s IH]; intros i last Hno; simpl.
  - reflexivity.
  - simpl in Hno. destruct (Ascii.eqb_spec ch "."%char) as [->|Hne].
    + exfalso. apply Hno. now left.
    + apply IH. intros Hin. apply Hno. now right.
Qed.

Lemma stem_base (dir base ext : string) :
  base <> EmptyString -> ext <> EmptyString ->
  ~ In "."%char (list_ascii_of_string ext) ->
  stem (mk_path dir (base ++ "." ++ ext)) = base.
Proof.
  intros Hb He Hno. unfold stem. cbn [name].
  rewrite rfind_dot_app. cbn [append rfind_dot Ascii.eqb Bool.eqb].
  rewrite (rfind_dot_none ext _ _ Hno).
  rewrite string_length_app. cbn [String.length].
  assert (0 < String.length base)%nat
    by (destruct base; [congruence|simpl; lia]).
  assert (0 < String.length ext)%nat
    by (destruct ext; [congruence|simpl; lia]).
  cbn [Nat.add].
  destruct (Nat.ltb_spec 0 (String.length base)) as [_|]; [|lia].
  destruct (Nat.ltb_spec (String.length base)
              (String.length base + S (String.length ext) - 1)) as [_|]; [|lia].
  cbn [andb]. apply substring_prefix.
Qed.

(** X11: the identifiers a conversion stores in /path are the names of
    the discovered image files without directory and without their last
    suffix, in discovery order. *)
Theorem identifiers_are_names_without_suffix :
  forall (fnmatch : string -> string -> bool) (np_sqrt : Q -> Q)
         (fs : filesystem) (file_glob label_glob : string)
         (image_bands : option (list Z)) (f : h5file),
    convert_img_to_h5 fnmatch np_sqrt fs file_glob label_glob image_bands
    = Completed f ->
    exists ids,
      h5_lookup f "/path" = Some (Str1 ids) /\
      Forall2 (fun p id =>
                 id = stem p /\
                 forall base ext,
                   name p = (base ++ "." ++ ext)%string ->
                   base <> EmptyString -> ext <> EmptyString ->
                   ~ In "."%char (list_ascii_of_string ext) ->
                   id = base)
              (discovered_images fnmatch fs file_glob label_glob) ids.
Proof.
  intros fnmatch np_sqrt fs fg lg ib f Hrun.
  destruct (convert_img_to_h5_completed _ _ _ _ _ _ _ Hrun)
    as (pk & imgs & lbls & Hprep & _ & _ & ->).
  destruct (convert_img_to_h5_prepare_ok _ _ _ _ _ _ Hprep)
    as (rasters & Hdisc & _ & _ & _ & _ & _ & _ & _ & Hpath & _).
  exists (path_arr pk). split; [reflexivity|].
  rewrite Hpath. unfold discovered_images. rewrite <- Hdisc.
  clear. generalize (l_images pk). intros l.
  induction l as [|p ps IH]; cbn [map]; constructor; [|exact IH].
  split; [reflexivity|].
  intros base ext Hname Hb He Hno.
  destruct p as [dir nm]. cbn [name] in Hname. subst nm.
  now apply stem_base.
Qed.

Lemma identifiers_are_names_without_suffix_witness :
  exists f ids,
    convert_img_to_h5 simple_fnmatch sqrt_6_digits two_folders
                      "*.tif" "*label*" None = Completed f /\
    h5_lookup f "/path" = Some (Str1 ids) /\
    Forall2 (fun p id =>
               id = stem p /\
               forall base ext,
                 name p = (base ++ "." ++ ext)%string ->
                 base <> EmptyString -> ext <> EmptyString ->
                 ~ In "."%char (list_ascii_of_string ext) ->
                 id = base)
            (discovered_images simple_fnmatch two_folders "*.tif" "*label*")
            ids.
Proof.
  eexists.
  destruct (identifiers_are_names_without_suffix
              simple_fnmatch sqrt_6_digits two_folders "*.tif" "*label*" None
              _ eq_refl) as (ids & H1 & H2).
  exists ids. split; [reflexivity|]. split; assumption.
Defined.

(** The decimal digits of a non-negative integer, and back. *)
Lemma str_digits (i : Z) :
  0 <= i ->
  exists u, str i = NilEmpty.string_of_uint u /\ Z.of_uint u = i.
Proof.
  intros Hi. unfold str. destruct i as [|p|p]; [| |lia].
  - exists (Decimal.D0 Decimal.Nil). split; reflexivity.
  - exists (Pos.to_uint p). split.
    + cbn [Z.to_int NilZero.string_of_int]. unfold NilZero.string_of_uint.
      pose proof (DecimalPos.Unsigned.to_uint_nonnil p) as Hn.
      destruct (Pos.to_uint p); [congruence|reflexivity..].
    + exact (DecimalZ.of_to (Zpos p)).
Qed.

Lemma zeros_digits (k : nat) (u : Decimal.uint) :
  exists u', (zeros k ++ NilEmpty.string_of_uint u)%string
             = NilEmpty.string_of_uint u' /\
             Z.of_uint u' = Z.of_uint u.
Proof.
  induction k as [|k (u' & E & V)].
  - now exists u.
  - exists (Decimal.D0 u'). split; [|exact V].
    cbn [zeros append NilEmpty.string_of_uint]. now rewrite E.
Qed.

Lemma format_0w_digits (i : Z) (w : nat) :
  0 <= i ->
  exists u, format_0w i w = NilEmpty.string_of_uint u /\ Z.of_uint u = i.
Proof.
  intros Hi. unfold format_0w.
  destruct (Z.ltb_spec i 0) as [|_]; [lia|].
  destruct (str_digits i Hi) as (u & E & V).
  cbv zeta. set (k := (w - String.length (str i))%nat). rewrite E.
  destruct (zeros_digits k u) as (u' & E' & V').
  exists u'. split; [exact E'|congruence].
Qed.

Lemma format_0w_inj (i j : Z) (w : nat) :
  0 <= i -> 0 <= j -> format_0w i w = format_0w j w -> i = j.
Proof.
  intros Hi Hj E.
  destruct (format_0w_digits i w Hi) as (u & Eu & Vu).
  destruct (format_0w_digits j w Hj) as (v & Ev & Vv).
  rewrite Eu, Ev in E.
  assert (Some u = Some v)
    by (rewrite <- (NilEmpty.usu u), <- (NilEmpty.usu v); now rewrite E).
  congruence.
Qed.

Lemma digits_no_underscore (u : Decimal.uint) :
  ~ In "_"%char (list_ascii_of_string (NilEmpty.string_of_uint u)).
Proof.
  induction u; simpl; [intros []|intros [H|H]; [discriminate|auto]..].
Qed.

(** A name [p ++ "_" ++ d] with [d] free of underscores splits in one
    way only. *)
Lemma split_at_last_underscore (p1 p2 d1 d2 : string) :
  ~ In "_"%char (list_ascii_of_string d1) ->
  ~ In "_"%char (list_ascii_of_string d2) ->
  (p1 ++ "_" ++ d1 = p2 ++ "_" ++ d2)%string -> p1 = p2 /\ d1 = d2.
Proof.
  intros H1 H2. revert p2.
  assert (Hmid : forall p d, In "_"%char (list_ascii_of_string (p ++ "_" ++ d))).
  { intros p d. induction p as [|ch p IH]; simpl; auto. }
  induction p1 as [|ch p1 IH]; intros [|ch2 p2] E; simpl in E.
  - injection E as ->. now split.
  - injection E as <- ->. exfalso. apply H1. apply Hmid.
  - injection E as -> <-. exfalso. apply H2. apply Hmid.
  - injection E as -> E. destruct (IH _ E) as [-> ->]. now split.
Qed.

Lemma range_count_NoDup (n : Z) : NoDup (range_elems 0 n 1).
Proof.
  unfold range_elems.
  apply NoDup_map_NoDup_ForallPairs; [|apply seq_NoDup].
  intros a b _ _ E. lia.
Qed.

Lemma range_count_nonneg (n i : Z) : In i (range_elems 0 n 1) -> 0 <= i.
Proof.
  unfold range_elems. rewrite in_map_iff. intros (k & <- & _). lia.
Qed.

(** X12: tile identifiers can be read back: the parent identifier and
    the tile index of a name [p_i] are determined by the name, whatever
    underscores or digits [p] holds.  So the tiles of a store with
    distinct identifiers have distinct identifiers. *)
Theorem tile_identifiers_are_unique :
  forall (path : list string) (n : Z) (x : dask_array) (out : list string),
    _tile_paths path n x = Ok out ->
    let tile_name := fun (p : string) (i : Z) =>
      (p ++ "_" ++ format_0w i (String.length (str n)))%string in
    (forall p i p' i',
        0 <= i -> 0 <= i' -> tile_name p i = tile_name p' i' ->
        p = p' /\ i = i') /\
    (NoDup path -> NoDup out).
Proof.
  intros path n x out Hout tile_name.
  assert (Hinj : forall p i p' i',
             0 <= i -> 0 <= i' -> tile_name p i = tile_name p' i' ->
             p = p' /\ i = i').
  { intros p i p' i' Hi Hi' E. unfold tile_name in E.
    destruct (format_0w_digits i (String.length (str n)) Hi) as (u & Eu & _).
    destruct (format_0w_digits i' (String.length (str n)) Hi') as (v & Ev & _).
    destruct (split_at_last_underscore p p'
                (format_0w i (String.length (str n)))
                (format_0w i' (String.length (str n)))
                ltac:(rewrite Eu; apply digits_no_underscore)
                ltac:(rewrite Ev; apply digits_no_underscore) E)
      as [Ep Ed].
    split; [exact Ep|].
    exact (format_0w_inj i i' (String.length (str n)) Hi Hi' Ed). }
  split; [exact Hinj|].
  intros Hnd. rewrite (_tile_paths_value _ _ _ _ Hout).
  fold tile_name. clear Hout.
  induction Hnd as [|p ps Hnotin _ IH]; [constructor|].
  cbn [flat_map]. apply NoDup_app.
  - apply NoDup_map_NoDup_ForallPairs; [|apply range_count_NoDup].
    intros a b Ha Hb E.
    apply (Hinj p a p b); [eapply range_count_nonneg, Ha
                          |eapply range_count_nonneg, Hb|exact E].
  - exact IH.
  - intros nm Hin1 Hin2.
    apply in_map_iff in Hin1. destruct Hin1 as (i & <- & Hi).
    apply in_flat_map in Hin2. destruct Hin2 as (p' & Hp' & Hin2).
    apply in_map_iff in Hin2. destruct Hin2 as (i' & E & Hi').
    destruct (Hinj p' i' p i) as [-> _];
      [eapply range_count_nonneg, Hi'|eapply range_count_nonneg, Hi|exact E|].
    contradiction.
Qed.

Lemma tile_identifiers_are_unique_witness :
  exists out,
    _tile_paths ["a"; "a_0"]%string 12
                (mk_dask 24 []) = Ok out /\
    (forall p i p' i',
        0 <= i -> 0 <= i' ->
        (p ++ "_" ++ format_0w i (String.length (str 12)))%string
        = (p' ++ "_" ++ format_0w i' (String.length (str 12)))%string ->
        p = p' /\ i = i') /\
    (NoDup ["a"; "a_0"]%string -> NoDup out).
Proof.
  eexists. split; [reflexivity|].
  apply (tile_identifiers_are_unique ["a"; "a_0"]%string 12 (mk_dask 24 [])).
  reflexivity.
Defined.

(* ===================================================================== *)
(** ** Reconstruction                                                     *)
(* ===================================================================== *)

Lemma write_file_names (folder : list (string * Raster)) (file : string * Raster)
      (nm : string) :
  In nm (map fst (write_file folder file))
  <-> nm = fst file \/ In nm (map fst folder).
Proof.
  induction folder as [|[k r] tl IH]; cbn [write_file map fst In].
  - intuition.
  - destruct (String.eqb_spec k (fst file)) as [->|Hne]; cbn [map fst In].
    + intuition.
    + rewrite IH. intuition.
Qed.

Lemma write_file_NoDup (folder : list (string * Raster)) (file : string * Raster) :
  NoDup (map fst folder) -> NoDup (map fst (write_file folder file)).
Proof.
  induction folder as [|[k r] tl IH]; cbn [write_file map fst]; intros Hnd.
  - constructor; [intros []|constructor].
  - inversion Hnd as [|k' l' Hnotin Hrest]; subst.
    destruct (String.eqb_spec k (fst file)) as [->|Hne]; cbn [map fst].
    + now constructor.
    + constructor; [|now apply IH].
      rewrite write_file_names. intros [E|Hin]; [congruence|contradiction].
Qed.

Lemma write_file_In (folder : list (string * Raster)) (file e : string * Raster) :
  In e (write_file folder file) -> e = file \/ In e folder.
Proof.
  induction folder as [|[k r] tl IH]; cbn [write_file In].
  - intuition.
  - destruct (String.eqb_spec k (fst file)) as [->|Hne]; cbn [In].
    + intuition.
    + intros [E|Hin]; [now right; left|].
      destruct (IH Hin); [now left|now right; right].
Qed.

Lemma write_file_new (folder : list (string * Raster)) (file : string * Raster) :
  ~ In (fst file) (map fst folder) -> write_file folder file = folder ++ [file].
Proof.
  induction folder as [|[k r] tl IH]; cbn [write_file map fst In app];
    intros Hnot; [reflexivity|].
  destruct (String.eqb_spec k (fst file)) as [->|Hne].
  - exfalso. apply Hnot. now left.
  - rewrite IH; [reflexivity|]. intros Hin. apply Hnot. now right.
Qed.

Lemma fold_write_file (files folder : list (string * Raster)) :
  NoDup (map fst folder) ->
  let out := fold_left write_file files folder in
  NoDup (map fst out) /\
  (forall nm, In nm (map fst out)
              <-> In nm (map fst folder) \/ In nm (map fst files)) /\
  (forall e, In e out -> In e folder \/ In e files) /\
  (NoDup (map fst (folder ++ files)) -> out = folder ++ files).
Proof.
  revert folder. induction files as [|file tl IH]; intros folder Hnd;
    cbn [fold_left].
  - split; [exact Hnd|]. split; [intros nm; cbn; intuition|].
    split; [intros e He; now left|]. intros _. now rewrite app_nil_r.
  - destruct (IH (write_file folder file) (write_file_NoDup _ _ Hnd))
      as (H1 & H2 & H3 & H4).
    split; [exact H1|]. split; [|split].
    + intros nm. rewrite H2, write_file_names. cbn [map In]. intuition.
    + intros e He. destruct (H3 e He) as [Hin|Hin].
      * apply write_file_In in Hin. destruct Hin as [->|Hin];
          [right; now left|now left].
      * right. now right.
    + intros Hall.
      assert (Hnew : ~ In (fst file) (map fst folder)).
      { rewrite map_app in Hall. cbn [map] in Hall.
        apply NoDup_remove_2 in Hall. intros Hin. apply Hall.
        apply in_or_app. now left. }
      rewrite (write_file_new _ _ Hnew) in H4 |- *.
      rewrite <- app_assoc in H4. apply H4. exact Hall.
Qed.

(** X13: reconstructing a list of rows writes the files of those rows
    and no others, one file per name.  When the names are distinct the
    folder holds every file as [_create_raster] made it, and every file
    of a subset run is a file of any run over a larger list of rows
    with distinct names. *)
Theorem reconstruction_writes_the_selected_rows :
  forall (src : h5file) (index_list : list Z)
         (files : list (list (string * Raster))),
    mapM (fun i => _create_raster i src) index_list = Ok files ->
    exists folder,
      convert_h5_to_img src (IndexList index_list) = Ok folder /\
      NoDup (map fst folder) /\
      (forall nm, In nm (map fst folder) <-> In nm (map fst (concat files))) /\
      (forall e, In e folder ->
                 exists i, In i index_list /\
                           exists fl, _create_raster i src = Ok fl /\ In e fl) /\
      (NoDup (map fst (concat files)) -> folder = concat files) /\
      (forall index_list' files' folder',
          mapM (fun i => _create_raster i src) index_list' = Ok files' ->
          convert_h5_to_img src (IndexList index_list') = Ok folder' ->
          incl index_list index_list' ->
          NoDup (map fst (concat files')) ->
          incl folder folder').
Proof.
  intros src idx files Hfiles.
  destruct (fold_write_file (concat files) [] (NoDup_nil _))
    as (H1 & H2 & H3 & H4).
  assert (Hrows : forall e, In e (concat files) ->
                            exists i, In i idx /\
                                      exists fl, _create_raster i src = Ok fl /\
                                                 In e fl).
  { intros e He. apply in_concat in He. destruct He as (fl & Hfl & He).
    apply mapM_Forall2 in Hfiles.
    apply In_nth_error in Hfl. destruct Hfl as (k & Hk).
    destruct (Forall2_nth_error _ _ _ _ _ (Forall2_flip Hfiles) Hk)
      as (i & Hi & Hc).
    exists i. split; [eapply nth_error_In, Hi|]. now exists fl. }
  exists (fold_left write_file (concat files) []).
  split; [cbn [convert_h5_to_img bind]; now rewrite Hfiles|].
  split; [exact H1|]. split; [intros nm; rewrite H2; cbn; intuition|].
  split.
  { intros e He. destruct (H3 e He) as [[]|Hin]. now apply Hrows. }
  split; [exact H4|].
  intros idx' files' folder' Hfiles' Hrun' Hincl Hnd e He.
  cbn [convert_h5_to_img bind] in Hrun'. rewrite Hfiles' in Hrun'.
  cbn [bind] in Hrun'. injection Hrun' as <-.
  destruct (fold_write_file (concat files') [] (NoDup_nil _))
    as (_ & _ & _ & H4').
  rewrite (H4' Hnd). cbn [app].
  destruct (H3 e He) as [[]|Hin].
  destruct (Hrows e Hin) as (i & Hi & fl & Hfl & Hefl).
  apply in_concat. exists fl. split; [|exact Hefl].
  apply Hincl in Hi. apply In_nth_error in Hi. destruct Hi as (k & Hk).
  destruct (Forall2_nth_error _ _ _ _ _ (mapM_Forall2 _ _ _ Hfiles') Hk)
    as (fl' & Hfl' & Hc).
  rewrite Hfl in Hc. injection Hc as <-.
  eapply nth_error_In, Hfl'.
Qed.

Lemma reconstruction_writes_the_selected_rows_witness :
  exists files,
    mapM (fun i => _create_raster i (store_file small_store)) [0] = Ok files /\
    exists folder,
      convert_h5_to_img (store_file small_store) (IndexList [0]) = Ok folder /\
      NoDup (map fst folder) /\
      (forall nm, In nm (map fst folder) <-> In nm (map fst (concat files))) /\
      (forall e, In e folder ->
                 exists i, In i [0] /\
                           exists fl,
                             _create_raster i (store_file small_store) = Ok fl /\
                             In e fl) /\
      (NoDup (map fst (concat files)) -> folder = concat files) /\
      (forall index_list' files' folder',
          mapM (fun i => _create_raster i (store_file small_store)) index_list'
          = Ok files' ->
          convert_h5_to_img (store_file small_store) (IndexList index_list')
          = Ok folder' ->
          incl [0] index_list' ->
          NoDup (map fst (concat files')) ->
          incl folder folder').
Proof.
  eexists. split; [reflexivity|].
  apply (reconstruction_writes_the_selected_rows (store_file small_store) [0]).
  reflexivity.
Defined.

(** X14: an index beyond the rows of /img is an IndexError, for a single
    index as for a list that holds it. *)
Theorem row_index_out_of_range :
  forall (src : h5file) (a : list image) (i : Z),
    h5_lookup src "/img" = Some (Int4 a) ->
    Z.of_nat (length a) <= i \/ i < - Z.of_nat (length a) ->
    _create_raster i src = Raise (IndexError "Index out of range") /\
    convert_h5_to_img src (IndexInt i)
    = Raise (IndexError "Index out of range") /\
    forall index_list,
      In i index_list ->
      exists e, convert_h5_to_img src (IndexList index_list) = Raise e.
Proof.
  intros src a i Himg Hi.
  assert (Hc : _create_raster i src = Raise (IndexError "Index out of range")).
  { unfold _create_raster, h5_get. cbn [abs_name]. rewrite Himg. cbn [bind].
    unfold h5_index.
    destruct (Z.ltb_spec i 0).
    - destruct (Z.leb_spec 0 (i + Z.of_nat (length a))); [lia|].
      reflexivity.
    - destruct (Z.ltb_spec i (Z.of_nat (length a))); [lia|].
      rewrite andb_false_r. reflexivity. }
  split; [exact Hc|]. split.
  { cbn [convert_h5_to_img]. now rewrite Hc. }
  intros idx Hin. cbn [convert_h5_to_img bind].
  assert (Hm : exists e, mapM (fun j => _create_raster j src) idx = Raise e).
  { induction idx as [|j tl IH]; [destruct Hin|].
    cbn [mapM]. destruct (_create_raster j src) as [fl|e] eqn:Ej.
    - destruct Hin as [->|Hin]; [congruence|].
      destruct (IH Hin) as (e & ->). now exists e.
    - now exists e. }
  destruct Hm as (e & ->). now exists e.
Qed.

Lemma row_index_out_of_range_witness :
  _create_raster 1 (store_file small_store)
  = Raise (IndexError "Index out of range") /\
  convert_h5_to_img (store_file small_store) (IndexInt 1)
  = Raise (IndexError "Index out of range") /\
  forall index_list,
    In 1 index_list ->
    exists e, convert_h5_to_img (store_file small_store) (IndexList index_list)
              = Raise e.
Proof.
  apply (row_index_out_of_range (store_file small_store)
           (s_img small_store) 1); [reflexivity|simpl; lia].
Defined.

(* ===================================================================== *)
(** ** The margin of the canvas                                           *)
(* ===================================================================== *)

(** X15: every tile lies in the first
    [target_size - (target_size - tile_size) mod overlap] rows and
    columns of the canvas.  When [overlap] does not divide
    [target_size - tile_size] the rows and columns beyond are in no
    tile. *)
Theorem tiles_leave_out_the_margin :
  forall (item : image) (c h w : nat) (tile_size overlap target_size : Z),
    image_shape c h w item ->
    (0 < c)%nat -> (0 < h)%nat -> (0 < w)%nat ->
    Z.of_nat h <= target_size -> Z.of_nat w <= target_size ->
    0 < overlap -> 0 < tile_size <= target_size ->
    let margin := (target_size - tile_size) mod overlap in
    let size := Z.to_nat tile_size in
    exists tiles,
      _tile_array [item] tile_size overlap target_size = Ok tiles /\
      forall (i : nat) (tile : image),
        nth_error tiles i = Some tile ->
        exists row_offset col_offset : nat,
          tile = window size (canvas (Z.to_nat target_size) h w item)
                        row_offset col_offset /\
          Z.of_nat row_offset + tile_size <= target_size - margin /\
          Z.of_nat col_offset + tile_size <= target_size - margin.
Proof.
  intros item c h w ts ov P Hsh Hc Hh Hw HhP HwP Hov Hts margin size.
  eexists. split.
  { apply (_tile_array_item item c h w ts ov P); assumption. }
  cbv zeta. intros i tile Hi.
  set (n := Z.to_nat (n_side P ts ov)) in *.
  assert (Hq0 : 0 <= (P - ts) / ov) by (apply Z.div_pos; lia).
  assert (Hn : Z.of_nat n = (P - ts) / ov + 1) by (unfold n, n_side; lia).
  assert (Hlt : (i < n * n)%nat).
  { assert (Hs : nth_error
                   (map (fun i0 =>
                           window (Z.to_nat ts) (canvas (Z.to_nat P) h w item)
                                  (i0 / n * Z.to_nat ov)%nat
                                  (i0 mod n * Z.to_nat ov)%nat)
                        (seq 0 (n * n))) i <> None) by congruence.
    apply nth_error_Some in Hs.
    now rewrite length_map, length_seq in Hs. }
  rewrite nth_error_map_seq in Hi by exact Hlt. injection Hi as <-.
  exists (i / n * Z.to_nat ov)%nat, (i mod n * Z.to_nat ov)%nat.
  split; [reflexivity|].
  assert (Hdm := Z.div_mod (P - ts) ov ltac:(lia)). fold margin in Hdm.
  assert (Hr : (i / n < n)%nat) by (apply Nat.Div0.div_lt_upper_bound; lia).
  assert (Hm : (i mod n < n)%nat) by (apply Nat.mod_upper_bound; lia).
  split; nia.
Qed.

Lemma tiles_leave_out_the_margin_witness :
  exists tiles,
    _tile_array [small_item] 2 2 5 = Ok tiles /\
    forall (i : nat) (tile : image),
      nth_error tiles i = Some tile ->
      exists row_offset col_offset : nat,
        tile = window (Z.to_nat 2) (canvas (Z.to_nat 5) 2 3 small_item)
                      row_offset col_offset /\
        Z.of_nat row_offset + 2 <= 5 - (5 - 2) mod 2 /\
        Z.of_nat col_offset + 2 <= 5 - (5 - 2) mod 2.
Proof.
  apply (tiles_leave_out_the_margin small_item 2 2 3 2 2 5);
    [exact small_item_shape|lia|lia|lia|simpl; lia|simpl; lia|lia|lia].
Defined.

(* ===================================================================== *)
(** ** Labels and bands of a conversion                                   *)
(* ===================================================================== *)

Lemma length_flat_map_short {A B} (g : A -> list B) (l : list A) :
  (forall x, In x l -> (length (g x) <= 1)%nat) ->
  (exists x, In x l /\ g x = []) ->
  (length (flat_map g l) < length l)%nat.
Proof.
  intros Hle (x & Hin & Hx).
  assert (Hall : forall l', (forall y, In y l' -> (length (g y) <= 1)%nat) ->
                            (length (flat_map g l') <= length l')%nat).
  { induction l' as [|y tl IH]; intros H; [simpl; lia|].
    cbn [flat_map length]. rewrite length_app.
    specialize (H y (or_introl eq_refl)) as Hy.
    specialize (IH (fun z Hz => H z (or_intror Hz))). lia. }
  induction l as [|y tl IH]; [destruct Hin|].
  cbn [flat_map length]. rewrite length_app.
  destruct Hin as [->|Hin].
  - rewrite Hx. cbn [length].
    specialize (Hall tl (fun z Hz => Hle z (or_intror Hz))). lia.
  - specialize (Hle y (or_introl eq_refl)) as Hy.
    specialize (IH (fun z Hz => Hle z (or_intror Hz)) Hin). lia.
Qed.

Lemma length_flat_map_long {A B} (g : A -> list B) (l : list A) :
  (forall x, In x l -> (1 <= length (g x))%nat) ->
  (exists x, In x l /\ (2 <= length (g x))%nat) ->
  (length l < length (flat_map g l))%nat.
Proof.
  intros Hge (x & Hin & Hx).
  assert (Hall : forall l', (forall y, In y l' -> (1 <= length (g y))%nat) ->
                            (length l' <= length (flat_map g l'))%nat).
  { induction l' as [|y tl IH]; intros H; [simpl; lia|].
    cbn [flat_map length]. rewrite length_app.
    specialize (H y (or_introl eq_refl)) as Hy.
    specialize (IH (fun z Hz => H z (or_intror Hz))). lia. }
  induction l as [|y tl IH]; [destruct Hin|].
  cbn [flat_map length]. rewrite length_app.
  destruct Hin as [->|Hin].
  - specialize (Hall tl (fun z Hz => Hge z (or_intror Hz))). lia.
  - specialize (Hge y (or_introl eq_refl)) as Hy.
    specialize (IH (fun z Hz => Hge z (or_intror Hz)) Hin). lia.
Qed.

(** X16: labels are collected per image from the image's directory.  If
    no directory holds more than one file matching [label_glob] and the
    directory of some image holds none, or if every directory holds one
    and the directory of some image holds more, the counts differ and
    the conversion stops at its first assertion; nothing is written. *)
Theorem unpaired_labels_abort :
  forall (fnmatch : string -> string -> bool) (np_sqrt : Q -> Q)
         (fs : filesystem) (file_glob label_glob : string)
         (image_bands : option (list Z)),
    let imgs := discovered_images fnmatch fs file_glob label_glob in
    let labels_of := fun i : Path => glob fnmatch fs (parent i) label_glob in
    ((forall i, In i imgs -> (length (labels_of i) <= 1)%nat) /\
     (exists i, In i imgs /\ labels_of i = []))
    \/
    ((forall i, In i imgs -> (1 <= length (labels_of i))%nat) /\
     (exists i, In i imgs /\ (2 <= length (labels_of i))%nat)) ->
    convert_img_to_h5 fnmatch np_sqrt fs file_glob label_glob image_bands
    = Aborted (AssertionError "Number of images differs from number of labels").
Proof.
  intros fnmatch np_sqrt fs fg lg ib imgs labels_of H.
  apply convert_img_to_h5_aborts. unfold convert_img_to_h5_prepare.
  fold (discovered_images fnmatch fs fg lg). fold imgs.
  assert (Hne : length imgs <> length (flat_map labels_of imgs)).
  { destruct H as [[Hle Hex]|[Hge Hex]].
    - pose proof (length_flat_map_short labels_of imgs Hle Hex). lia.
    - pose proof (length_flat_map_long labels_of imgs Hge Hex). lia. }
  apply Nat.eqb_neq in Hne. unfold labels_of in Hne. rewrite Hne.
  reflexivity.
Qed.

Lemma unpaired_labels_abort_witness :
  convert_img_to_h5 simple_fnmatch sqrt_6_digits
    [ (mk_path "a" "img_0.tif", mk_raster 1 1 32601 north_up [ [[1]] ]);
      (mk_path "a" "label.tif", mk_raster 1 1 32601 north_up [ [[1]] ]);
      (mk_path "b" "img_1.tif", mk_raster 1 1 32601 north_up [ [[5]] ]) ]%string
    "*.tif" "*label*" None
  = Aborted (AssertionError "Number of images differs from number of labels").
Proof.
  apply unpaired_labels_abort. left. split.
  - intros i Hin. cbv in Hin.
    destruct Hin as [<-|[<-|[]]]; cbv; lia.
  - exists (mk_path "b" "img_1.tif"). split; [|reflexivity].
    cbv. right. now left.
Defined.

(** X17: a label.tif higher or wider than the largest image is not
    packed: the checks before writing pass, so the destination is
    created, and the run fails while writing. *)
Theorem oversized_label_fails_while_writing :
  forall (fnmatch : string -> string -> bool) (np_sqrt : Q -> Q)
         (fs : filesystem) (file_glob label_glob : string)
         (image_bands : option (list Z)) (pk : packing) (p : Path) (l : Raster),
    Forall (fun e => raster_wf (snd e)) fs ->
    convert_img_to_h5_prepare fnmatch fs file_glob label_glob image_bands
    = Ok pk ->
    In p (l_labels pk) ->
    fs_lookup fs (mk_path (parent p) "label.tif") = Some l ->
    max_height pk < height l \/ max_width pk < width l ->
    exists e,
      convert_img_to_h5 fnmatch np_sqrt fs file_glob label_glob image_bands
      = Interrupted e.
Proof.
  intros fnmatch np_sqrt fs fg lg ib pk p l Hfs Hprep Hin Hl Hbig.
  destruct (convert_img_to_h5 fnmatch np_sqrt fs fg lg ib) as [f|e|e] eqn:Hrun.
  - exfalso.
    destruct (convert_img_to_h5_completed _ _ _ _ _ _ _ Hrun)
      as (pk' & imgs & lbls & Hprep' & _ & Hlbls & _).
    rewrite Hprep in Hprep'. injection Hprep' as <-.
    apply mapM_Forall2 in Hlbls.
    apply In_nth_error in Hin. destruct Hin as (k & Hk).
    destruct (Forall2_nth_error _ _ _ _ _ Hlbls Hk) as (packed & _ & Hload).
    destruct (_load_lbl_inv _ _ _ _ _ Hfs Hload) as (l' & Hl' & Hh & Hw & _).
    rewrite Hl in Hl'. injection Hl' as <-. lia.
  - exfalso. unfold convert_img_to_h5 in Hrun. rewrite Hprep in Hrun.
    destruct (f <- to_hdf5 fs pk ;; _compute_statistics np_sqrt f);
      discriminate.
  - now exists e.
Qed.

Lemma oversized_label_fails_while_writing_witness :
  exists e,
    convert_img_to_h5 simple_fnmatch sqrt_6_digits
      [ (mk_path "a" "img_0.tif", mk_raster 1 1 32601 north_up [ [[1]] ]);
        (mk_path "a" "label.tif",
         mk_raster 2 1 32601 north_up [ [[1; 1]] ]) ]%string
      "*.tif" "*label*" None
    = Interrupted e.
Proof.
  eapply (oversized_label_fails_while_writing
            simple_fnmatch sqrt_6_digits _ "*.tif" "*label*" None _
            (mk_path "a" "label.tif")).
  - repeat constructor; simpl; try lia; try reflexivity.
  - reflexivity.
  - now left.
  - reflexivity.
  - right. simpl. lia.
Defined.

(** X18: naming all bands in order selects what the default selects:
    when every image has [c] bands, [image_bands = [1, ..., c]] gives
    the run of [image_bands = None]. *)
Theorem all_bands_listed_is_the_default :
  forall (fnmatch : string -> string -> bool) (np_sqrt : Q -> Q)
         (fs : filesystem) (file_glob label_glob : string)
         (rasters : list Raster) (c : nat),
    let imgs := discovered_images fnmatch fs file_glob label_glob in
    let lbls := discovered_labels fnmatch fs file_glob label_glob in
    length imgs = length lbls ->
    Forall2 (fun p r => fs_lookup fs p = Some r) imgs rasters ->
    rasters <> [] ->
    Forall (fun r => count r = Z.of_nat c) rasters ->
    (0 < c)%nat ->
    convert_img_to_h5 fnmatch np_sqrt fs file_glob label_glob
                      (Some (map Z.of_nat (seq 1 c)))
    = convert_img_to_h5 fnmatch np_sqrt fs file_glob label_glob None.
Proof.
  intros fnmatch np_sqrt fs fg lg rasters c imgs lbls Hlen HF Hne Hc Hpos.
  unfold convert_img_to_h5.
  rewrite !(convert_img_to_h5_prepare_found fnmatch fs fg lg _ rasters
              Hlen HF Hne).
  assert (Hcounts : Forall (eq (Z.of_nat c)) (map count rasters)).
  { apply Forall_map. revert Hc. apply Forall_impl. intros r Hr. now symmetry. }
  assert (Hne' : map count rasters <> [])
    by (destruct rasters; [congruence|discriminate]).
  assert (Hsel : check_number_bands (Some (map Z.of_nat (seq 1 c)))
                                    (map count rasters)
                 = check_number_bands None (map count rasters)).
  { destruct c as [|c']; [lia|].
    cbn [seq map check_number_bands].
    assert (H1 : one_distinct (map count rasters) = true).
    { apply one_distinct_true. split; [exact Hne'|]. now exists (Z.of_nat (S c')). }
    rewrite H1, (py_max_const _ _ Hne' Hcounts). cbn [assert bind].
    change (Z.of_nat 1 :: map Z.of_nat (seq 2 c'))
      with (map Z.of_nat (seq 1 (S c'))).
    destruct (py_max_nonempty (map Z.of_nat (seq 1 (S c')))
                ltac:(discriminate)) as [want Hwant].
    rewrite Hwant. cbn [bind].
    destruct (py_max_spec _ _ Hwant) as [_ Hwin].
    apply in_map_iff in Hwin. destruct Hwin as (k & <- & Hk).
    apply in_seq in Hk.
    destruct (Z.leb_spec (Z.of_nat k) (Z.of_nat (S c'))) as [_|]; [|lia].
    cbn [assert bind].
    rewrite range_elems_1_to, Nat2Z.id. reflexivity. }
  rewrite Hsel. reflexivity.
Qed.

Lemma all_bands_listed_is_the_default_witness :
  convert_img_to_h5 simple_fnmatch sqrt_6_digits two_folders
                    "*.tif" "*label*" (Some (map Z.of_nat (seq 1 2)))
  = convert_img_to_h5 simple_fnmatch sqrt_6_digits two_folders
                      "*.tif" "*label*" None.
Proof.
  apply (all_bands_listed_is_the_default
           simple_fnmatch sqrt_6_digits two_folders "*.tif" "*label*"
           [ mk_raster 2 1 32601 north_up [ [[1; 2]];  [[3; 4]] ];
             mk_raster 1 2 32601 north_up [ [[5]; [6]];  [[7]; [8]] ] ] 2).
  - reflexivity.
  - repeat constructor.
  - discriminate.
  - repeat constructor.
  - lia.
Defined.

(* ===================================================================== *)
(** ** Reconstructing from a packed store                                 *)
(* ===================================================================== *)

(** X19: reconstructing row k of the store a conversion wrote gives the
    k-th image back under its identifier, with its CRS and geotransform,
    but at the size of the store: W by H pixels, the image's pixels
    (cast to uint16) in the upper-left corner and zeros to the right and
    below.  The label file has the same size, CRS and geotransform and
    holds the pixels of the label.tif next to the k-th label path. *)
Theorem packed_rows_reconstruct_padded :
  forall (fnmatch : string -> string -> bool) (np_sqrt : Q -> Q)
         (fs : filesystem) (file_glob label_glob : string)
         (image_bands : option (list Z)) (f : h5file) (k : nat) (p : Path),
    Forall (fun e => raster_wf (snd e)) fs ->
    convert_img_to_h5 fnmatch np_sqrt fs file_glob label_glob image_bands
    = Completed f ->
    nth_error (discovered_images fnmatch fs file_glob label_glob) k = Some p ->
    exists pk r q l img_out lbl_out,
      convert_img_to_h5_prepare fnmatch fs file_glob label_glob image_bands
      = Ok pk /\
      fs_lookup fs p = Some r /\
      nth_error (l_labels pk) k = Some q /\
      fs_lookup fs (mk_path (parent q) "label.tif") = Some l /\
      _create_raster (Z.of_nat k) f
      = Ok [ ((stem p ++ ".tif")%string, img_out);
             ((stem p ++ "_label.tif")%string, lbl_out) ] /\
      width img_out = max_width pk /\ height img_out = max_height pk /\
      epsg_code img_out = epsg_code r /\ transform img_out = transform r /\
      width lbl_out = max_width pk /\ height lbl_out = max_height pk /\
      epsg_code lbl_out = epsg_code r /\ transform lbl_out = transform r /\
      (forall c y x,
          (c < length (selected_bands pk))%nat ->
          px (pixels img_out) c y x
          = astype_uint16
              (if (y <? Z.to_nat (height r))%nat && (x <? Z.to_nat (width r))%nat
               then px (pixels r)
                       (Z.to_nat (nth c (selected_bands pk) 0 - 1)) y x
               else 0)) /\
      (forall y x,
          px (pixels lbl_out) 0 y x
          = astype_uint16
              (if (y <? Z.to_nat (height l))%nat && (x <? Z.to_nat (width l))%nat
               then px (pixels l) 0 y x
               else 0)).
Proof.
  intros fnmatch np_sqrt fs fg lg ib f k p Hfs Hrun Hk.
  destruct (convert_img_to_h5_store _ _ _ _ _ _ _ Hfs Hrun)
    as (pk & rasters & imgs & lbls & Hprep & Hdisc & HF & Hwf & Himgs & Hlbls
        & Hmw & Hmh & -> & HN & HC & HH & HW & HNr & HNi & HNl & Hi & Hl).
  rewrite <- Hdisc in Hk.
  (* the k-th raster, item, label path and label *)
  destruct (Forall2_nth_error _ _ _ _ _ HF Hk) as (r & Hr & Hlook).
  destruct (Forall2_nth_error _ _ _ _ _ (mapM_Forall2 _ _ _ Himgs) Hk)
    as (packed & Hpacked & Hload).
  destruct (_load_img_inv _ _ _ _ _ _ Hfs Hload)
    as (r' & Hlook' & _ & _ & _ & Hshape & Hpx).
  rewrite Hlook in Hlook'. injection Hlook' as <-.
  assert (Hklt : (k < length (l_labels pk))%nat).
  { rewrite (mapM_length _ _ _ Hlbls) in HNl. rewrite HNl.
    apply nth_error_Some. congruence. }
  assert (Hq : exists q, nth_error (l_labels pk) k = Some q).
  { destruct (nth_error (l_labels pk) k) as [q|] eqn:Hq;
      [now exists q|apply nth_error_None in Hq; lia]. }
  destruct Hq as (q & Hq).
  destruct (Forall2_nth_error _ _ _ _ _ (mapM_Forall2 _ _ _ Hlbls) Hq)
    as (lpacked & Hlpacked & Hlload).
  destruct (_load_lbl_inv _ _ _ _ _ Hfs Hlload)
    as (l & Hllook & _ & _ & Hlshape & Hlpx).
  (* the stored rows, and the sizes [_create_raster] reads off them *)
  set (stored := image_astype astype_uint16 packed).
  set (lstored := map (map astype_uint16) lpacked).
  assert (Hstored : nth_error (map (image_astype astype_uint16) imgs) k
                    = Some stored)
    by (now rewrite nth_error_map, Hpacked).
  assert (Hlstored : nth_error (map (map (map astype_uint16)) lbls) k
                     = Some lstored)
    by (now rewrite nth_error_map, Hlpacked).
  apply (image_astype_shape astype_uint16) in Hshape. fold stored in Hshape.
  apply (plane_astype_shape astype_uint16) in Hlshape.
  fold lstored in Hlshape.
  destruct (image_shape_dims _ _ _ _ Hshape HC HH) as (_ & Eh & Ew).
  assert (Elh : image_h [lstored] = Z.to_nat (max_height pk))
    by (destruct Hlshape as [Hlen _]; exact Hlen).
  assert (Elw : image_w [lstored] = Z.to_nat (max_width pk))
    by (apply (plane_shape_w _ _ _ Hlshape HH)).
  exists pk, r, q, l.
  do 2 eexists.
  split; [exact Hprep|]. split; [exact Hlook|]. split; [exact Hq|].
  split; [exact Hllook|].
  split.
  { unfold _create_raster, h5_get.
    cbn [store_file s_img s_lbl s_path s_epsg s_affine abs_name h5_lookup
         String.eqb Ascii.eqb Bool.eqb bind].
    rewrite (h5_index_nat _ _ _ Hstored), (h5_index_nat _ _ _ Hlstored).
    rewrite (h5_index_nat _ _ (stem p)) by (now rewrite nth_error_map, Hk).
    rewrite (h5_index_nat _ _ (epsg_code r))
      by (now rewrite nth_error_map, Hr).
    rewrite (h5_index_nat _ _ (rio.to_gdal (transform r)))
      by (now rewrite nth_error_map, Hr).
    cbn [bind]. rewrite from_gdal_to_gdal. cbn [bind].
    rewrite Eh, Ew, Elh, Elw. cbn [image_c length].
    rewrite !Nat.eqb_refl. cbn [andb]. reflexivity. }
  cbn [width height epsg_code transform pixels].
  repeat match goal with |- _ /\ _ => split end;
    try reflexivity; try (apply Z2Nat.id; lia).
  - intros c y x Hc. unfold stored.
    rewrite !px_image_astype by reflexivity.
    now rewrite astype_uint16_idem, Hpx.
  - intros y x.
    rewrite px_image_astype by reflexivity. unfold px at 1.
    cbn [nth]. unfold lstored. rewrite plane_astype_nth by reflexivity.
    now rewrite astype_uint16_idem, Hlpx.
Qed.

Lemma packed_rows_reconstruct_padded_witness :
  exists f pk r q l img_out lbl_out,
    convert_img_to_h5 simple_fnmatch sqrt_6_digits two_folders
                      "*.tif" "*label*" None = Completed f /\
    convert_img_to_h5_prepare simple_fnmatch two_folders "*.tif" "*label*" None
    = Ok pk /\
    fs_lookup two_folders (mk_path "b" "img_1.tif") = Some r /\
    nth_error (l_labels pk) 1 = Some q /\
    fs_lookup two_folders (mk_path (parent q) "label.tif") = Some l /\
    _create_raster (Z.of_nat 1) f
    = Ok [ ((stem (mk_path "b" "img_1.tif") ++ ".tif")%string, img_out);
           ((stem (mk_path "b" "img_1.tif") ++ "_label.tif")%string, lbl_out) ] /\
    width img_out = max_width pk /\ height img_out = max_height pk /\
    epsg_code img_out = epsg_code r /\ transform img_out = transform r /\
    width lbl_out = max_width pk /\ height lbl_out = max_height pk /\
    epsg_code lbl_out = epsg_code r /\ transform lbl_out = transform r /\
    (forall c y x,
        (c < length (selected_bands pk))%nat ->
        px (pixels img_out) c y x
        = astype_uint16
            (if (y <? Z.to_nat (height r))%nat && (x <? Z.to_nat (width r))%nat
             then px (pixels r)
                     (Z.to_nat (nth c (selected_bands pk) 0 - 1)) y x
             else 0)) /\
    (forall y x,
        px (pixels lbl_out) 0 y x
        = astype_uint16
            (if (y <? Z.to_nat (height l))%nat && (x <? Z.to_nat (width l))%nat
             then px (pixels l) 0 y x
             else 0)).
Proof.
  eexists.
  destruct (packed_rows_reconstruct_padded
              simple_fnmatch sqrt_6_digits two_folders "*.tif" "*label*" None
              _ 1%nat (mk_path "b" "img_1.tif") two_folders_wf eq_refl eq_refl)
    as (pk & r & q & l & img_out & lbl_out & H).
  exists pk, r, q, l, img_out, lbl_out. split; [reflexivity|exact H].
Defined.

(** Row 1 of the two folders: the 1 x 2 image comes back 2 x 2. *)
Example second_folder_comes_back_padded :
  exists f t,
    convert_img_to_h5 simple_fnmatch sqrt_6_digits two_folders
                      "*.tif" "*label*" None = Completed f /\
    _create_raster 1 f
    = Ok [ ("img_1.tif"%string,
            mk_raster 2 2 32601 t [ [[5; 0]; [6; 0]];  [[7; 0]; [8; 0]] ]);
           ("img_1_label.tif"%string,
            mk_raster 2 2 32601 t [ [[1; 0]; [1; 0]] ]) ].
Proof. do 2 eexists. split; reflexivity. Qed.

(* ===================================================================== *)
(** ** One tile per item                                                  *)
(* ===================================================================== *)

Lemma window_whole (size c : nat) (im : image) :
  image_shape c size size im -> window size im 0 0 = im.
Proof.
  intros [_ Hplanes]. unfold window.
  rewrite <- (map_id im) at 2. apply map_ext_in. intros p Hp.
  rewrite Forall_forall in Hplanes. destruct (Hplanes p Hp) as [Hlen Hrows].
  cbn [skipn]. rewrite <- Hlen at 1. rewrite firstn_all.
  rewrite <- (map_id p) at 2. apply map_ext_in. intros row Hrow.
  rewrite Forall_forall in Hrows. rewrite <- (Hrows row Hrow).
  apply firstn_all.
Qed.

(** X20: with [tile_size = target_size] every item gives one tile, the
    item padded with zeros to [target_size] by [target_size], whatever
    the overlap. *)
Theorem full_size_tile_is_the_padded_item :
  forall (item : image) (c h w : nat) (overlap target_size : Z),
    image_shape c h w item ->
    (0 < c)%nat -> (0 < h)%nat -> (0 < w)%nat ->
    Z.of_nat h <= target_size -> Z.of_nat w <= target_size ->
    0 < overlap ->
    _tile_array [item] target_size overlap target_size
    = Ok [canvas (Z.to_nat target_size) h w item] /\
    forall b y x,
      (b < c)%nat ->
      px (canvas (Z.to_nat target_size) h w item) b y x
      = if (y <? h)%nat && (x <? w)%nat then px item b y x else 0.
Proof.
  intros item c h w ov P Hsh Hc Hh Hw HhP HwP Hov.
  split; [|intros b y x Hb; now apply (canvas_px _ c)].
  rewrite (_tile_array_item item c h w P ov P Hsh) by (assumption || lia).
  unfold n_side. rewrite Z.sub_diag, Z.div_0_l by lia.
  change (Z.to_nat (0 + 1)) with 1%nat.
  cbn [Nat.mul Nat.add seq map].
  rewrite Nat.Div0.mod_0_l, Nat.Div0.div_0_l. cbn [Nat.mul].
  f_equal. f_equal. apply (window_whole _ c).
  apply canvas_shape; [exact Hsh|lia|lia].
Qed.

Lemma full_size_tile_is_the_padded_item_witness :
  _tile_array [small_item] 4 2 4 = Ok [canvas (Z.to_nat 4) 2 3 small_item] /\
  forall b y x,
    (b < 2)%nat ->
    px (canvas (Z.to_nat 4) 2 3 small_item) b y x
    = if (y <? 2)%nat && (x <? 3)%nat then px small_item b y x else 0.
Proof.
  apply (full_size_tile_is_the_padded_item small_item 2 2 3 2 4);
    [exact small_item_shape|lia|lia|lia|simpl; lia|simpl; lia|lia].
Defined.
